(** * Booking Engine API: reservation intake, pricing and availability

    A shallow embedding of [backend/main.py] and [schemas.py]: the two
    reservation intake handlers ([create_reservation], [ota_webhook]), the
    notification helper ([send_email]), the availability stub
    ([search_availability]), the room type handlers ([create_room_type],
    [list_room_types]), the diagnostic endpoint ([test_database]) and the
    pydantic schemas they construct.

    Python values are embedded as follows.
    - [int] is [Z]; [str] is [string], one [ascii] per character, its code
      point, for text whose code points are below 256; [Optional[T]] is
      [option T].
    - [float] is an IEEE 754 binary64 value, [spec_float] at precision 53 and
      maximal exponent 1024, with the rounding of the standard library's
      specification of floating-point arithmetic.
    - [date] is a (year, month, day) record; subtraction goes through the
      proleptic Gregorian ordinal as in [datetime.date].
    - handlers are computations over an explicit [World] (the document store
      and standard output) that either return a value or raise an exception.
    - what a request reads but does not own, the process environment, the
      clock, the mail transport and two library functions, is gathered in a
      [Runtime] record the handlers take as argument. *)

From Stdlib Require Import ZArith NArith List String Ascii Bool Lia.
From Stdlib Require Import DecimalString.
From Stdlib Require Import Floats.SpecFloat.
Import ListNotations.

Open Scope string_scope.
Open Scope Z_scope.

(* ================================================================== *)
(** * Definitions *)
(* ================================================================== *)

(** ** Python floats *)

Module PyFloat.

Definition prec : Z := 53.
Definition emax : Z := 1024.

Definition float : Type := spec_float.

(** [float(n)] for an integer [n] (exact below 2^53, rounded to nearest
    even above). *)
Definition of_int (n : Z) : float := binary_normalize prec emax n 0 false.

(** [0.0] *)
Definition zero : float := S754_zero false.

(** [x * y] *)
Definition mul (x y : float) : float := SFmul prec emax x y.

(** [x <= y]; false as soon as one side is NaN. *)
Definition leb (x y : float) : bool := SFleb x y.

(** [x < y] *)
Definition ltb (x y : float) : bool := SFltb x y.

End PyFloat.

Abbreviation float := PyFloat.float.

(** ** Text helpers: [str(int)], zero padding, [len], truthiness *)

Module Text.

(** The decimal digit of [n mod 10]. *)
Definition digit (n : Z) : ascii :=
  ascii_of_nat (48 + Z.to_nat (n mod 10)).

(** The [width] low decimal digits of [n], most significant first:
    [%02d], [%04d] on the ranges of calendar fields. *)
Fixpoint zfill (width : nat) (n : Z) : string :=
  match width with
  | O => EmptyString
  | S k => zfill k (n / 10) ++ String (digit n) EmptyString
  end.

(** [str(n)] for an integer. *)
Definition str_int (n : Z) : string := NilZero.string_of_int (Z.to_int n).

(** [len(s)] *)
Definition len (s : string) : Z := Z.of_nat (String.length s).

(** Truthiness of a string: non-empty. *)
Definition truthy (s : string) : bool :=
  match s with EmptyString => false | String _ _ => true end.

(** Truthiness of an [Optional[str]]: present and non-empty. *)
Definition truthy_opt (o : option string) : bool :=
  match o with Some s => truthy s | None => false end.

(** [o or d] for an [Optional[str]] [o]. *)
Definition or_else (o : option string) (d : string) : string :=
  match o with
  | Some s => if truthy s then s else d
  | None => d
  end.

(** The string held by a truthy [Optional[str]]. *)
Definition get (o : option string) : string :=
  match o with Some s => s | None => EmptyString end.

(** [s.startswith(p)] *)
Definition startswith (p s : string) : bool := String.prefix p s.

(** The characters [int()] skips around a literal: tab, line feed,
    vertical tab, form feed, carriage return and space, and, of the
    characters above 127, the two that [str.isspace] holds of, the
    next-line control (133) and the no-break space (160). The separators
    28 to 31 are blank for [str.strip] but not for [int()]. *)
Definition is_space (c : ascii) : bool :=
  match nat_of_ascii c with
  | 9%nat | 10%nat | 11%nat | 12%nat | 13%nat | 32%nat
  | 133%nat | 160%nat => true
  | _ => false
  end.

Definition is_digit (c : ascii) : bool :=
  let n := nat_of_ascii c in (48 <=? n)%nat && (n <=? 57)%nat.

Definition digit_value (c : ascii) : Z := Z.of_nat (nat_of_ascii c) - 48.

Fixpoint lstrip (s : string) : string :=
  match s with
  | String c r => if is_space c then lstrip r else s
  | EmptyString => s
  end.

(** The digits of an integer literal and what follows them: digits and
    underscores are read as long as there are any. The result is the value
    read, the number of digits and the rest of the string; [None] when an
    underscore follows an underscore or is not followed by a digit. *)
Fixpoint int_digits (s : string) (after_underscore : bool) (acc count : Z)
  : option (Z * Z * string) :=
  match s with
  | String c r =>
      if is_digit c then
        int_digits r false (10 * acc + digit_value c) (count + 1)
      else if Ascii.eqb c "_"%char then
        if after_underscore then None else int_digits r true acc count
      else if after_underscore then None else Some (acc, count, s)
  | EmptyString => if after_underscore then None else Some (acc, count, s)
  end.

(** What [int(s)] makes of a string: a value, or one of its two
    [ValueError]s. *)
Inductive int_literal :=
| IntValue (n : Z)
| IntInvalid
| IntTooLong (digits : Z).

(** [sys.get_int_max_str_digits()], at its default. *)
Definition max_str_digits : Z := 4300.

(** [int(s)] in base 10, in the order the interpreter proceeds: blanks, an
    optional sign, digits with single underscores between them (the limit
    on their number is checked as soon as they are counted), blanks, and
    nothing else. *)
Definition read_int (s : string) : int_literal :=
  let s := lstrip s in
  let signed :=
    match s with
    | String "+" r => (false, r)
    | String "-" r => (true, r)
    | _ => (false, s)
    end in
  match snd signed with
  | String "_" _ => IntInvalid
  | u =>
      match int_digits u false 0 0 with
      | None => IntInvalid
      | Some (n, count, rest) =>
          if max_str_digits <? count then IntTooLong count
          else if count =? 0 then IntInvalid
          else
            match lstrip rest with
            | EmptyString => IntValue (if fst signed then - n else n)
            | String _ _ => IntInvalid
            end
      end
  end.

(** [int(s)], with [None] standing for [ValueError]. *)
Definition parse_int (s : string) : option Z :=
  match read_int s with
  | IntValue n => Some n
  | IntInvalid | IntTooLong _ => None
  end.

Definition apostrophe : ascii := ascii_of_nat 39.
Definition double_quote : ascii := ascii_of_nat 34.
Definition backslash : ascii := ascii_of_nat 92.

Fixpoint contains (c : ascii) (s : string) : bool :=
  match s with
  | EmptyString => false
  | String d r => Ascii.eqb c d || contains c r
  end.

Definition hex_char (n : nat) : ascii :=
  ascii_of_nat (if (n <? 10)%nat then 48 + n else 87 + n).

(** The escape [\xhh] of a character. *)
Definition escape_hex (c : ascii) : string :=
  let n := nat_of_ascii c in
  String backslash
    (String "x" (String (hex_char (n / 16)) (String (hex_char (n mod 16))
       EmptyString))).

(** One character of [repr(s)]: the quote and the backslash are escaped,
    tab, line feed and carriage return have their letter, and the other
    characters that are not printable (controls, the no-break space, the
    soft hyphen) are written in hexadecimal. *)
Definition repr_char (quote c : ascii) : string :=
  let n := nat_of_ascii c in
  if Ascii.eqb c quote || Ascii.eqb c backslash then
    String backslash (String c EmptyString)
  else if (n =? 9)%nat then String backslash "t"
  else if (n =? 10)%nat then String backslash "n"
  else if (n =? 13)%nat then String backslash "r"
  else if (n <? 32)%nat || (n =? 127)%nat then escape_hex c
  else if (n <? 127)%nat then String c EmptyString
  else if (n <=? 160)%nat || (n =? 173)%nat then escape_hex c
  else String c EmptyString.

Fixpoint repr_chars (quote : ascii) (s : string) : string :=
  match s with
  | EmptyString => String quote EmptyString
  | String c r => repr_char quote c ++ repr_chars quote r
  end.

(** [repr(s)]: in apostrophes, or in double quotes when [s] holds an
    apostrophe and no double quote. *)
Definition repr (s : string) : string :=
  let quote :=
    if contains apostrophe s && negb (contains double_quote s)
    then double_quote else apostrophe in
  String quote (repr_chars quote s).

(** [str(e)] for the [ValueError] of [int(s)]; the literal is shown with
    [%.200R], the first 200 characters of its [repr]. *)
Definition int_error (s : string) : string :=
  match read_int s with
  | IntTooLong count =>
      "Exceeds the limit (" ++ str_int max_str_digits ++
      " digits) for integer string conversion: value has " ++
      str_int count ++
      " digits; use sys.set_int_max_str_digits() to increase the limit"
  | IntValue _ | IntInvalid =>
      "invalid literal for int() with base 10: " ++
      String.substring 0 200 (repr s)
  end.

End Text.

(** ** Dates ([datetime.date], [datetime.datetime]) *)

Module PyDate.

Record date := mkdate { year : Z; month : Z; day : Z }.

Definition is_leap (y : Z) : bool :=
  (y mod 4 =? 0) && (negb (y mod 100 =? 0) || (y mod 400 =? 0)).

Definition days_in_month (y m : Z) : Z :=
  match m with
  | 2 => if is_leap y then 29 else 28
  | 4 | 6 | 9 | 11 => 30
  | _ => 31
  end.

(** Number of days before January 1st of year [y]. *)
Definition days_before_year (y : Z) : Z :=
  let y := y - 1 in
  y * 365 + y / 4 - y / 100 + y / 400.

(** Number of days in year [y] preceding the first day of month [m]. *)
Definition days_before_month (y m : Z) : Z :=
  (match m with
   | 1 => 0 | 2 => 31 | 3 => 59 | 4 => 90 | 5 => 120 | 6 => 151
   | 7 => 181 | 8 => 212 | 9 => 243 | 10 => 273 | 11 => 304 | _ => 334
   end) + (if (2 <? m) && is_leap y then 1 else 0).

(** [d.toordinal()]: January 1st of year 1 is day 1. *)
Definition toordinal (d : date) : Z :=
  days_before_year (year d) + days_before_month (year d) (month d) + day d.

(** The values [datetime.date] can hold. *)
Definition date_ok (d : date) : Prop :=
  1 <= year d <= 9999 /\ 1 <= month d <= 12 /\
  1 <= day d <= days_in_month (year d) (month d).

(** [(a - b).days] *)
Definition sub_days (a b : date) : Z := toordinal a - toordinal b.

(** [a < b]: comparison of the (year, month, day) triples. *)
Definition lt (a b : date) : Prop :=
  year a < year b \/
  (year a = year b /\
   (month a < month b \/ (month a = month b /\ day a < day b))).

(** [a <= b] *)
Definition le (a b : date) : Prop := lt a b \/ a = b.

(** [str(d)], the ISO format YYYY-MM-DD. *)
Definition isoformat (d : date) : string :=
  Text.zfill 4 (year d) ++ "-" ++ Text.zfill 2 (month d) ++ "-" ++
  Text.zfill 2 (day d).

Record datetime := mkdatetime {
  dt_date : date; hour : Z; minute : Z; second : Z }.

(** [t.strftime('%Y%m%d%H%M%S')], for the years of four digits: the
    C library writes an earlier year with the digits it has. *)
Definition strftime_compact (t : datetime) : string :=
  Text.zfill 4 (year (dt_date t)) ++ Text.zfill 2 (month (dt_date t)) ++
  Text.zfill 2 (day (dt_date t)) ++ Text.zfill 2 (hour t) ++
  Text.zfill 2 (minute t) ++ Text.zfill 2 (second t).

End PyDate.

Abbreviation date := PyDate.date.
Abbreviation datetime := PyDate.datetime.

(** ** Object identifiers ([bson.ObjectId]) *)

Module Bson.

(** A 12-byte identifier, as a number below 2^96. *)
Definition oid : Type := N.

Definition hex_value (c : ascii) : option N :=
  let n := N.of_nat (nat_of_ascii c) in
  (if (48 <=? n) && (n <=? 57) then Some (n - 48)
   else if (97 <=? n) && (n <=? 102) then Some (n - 87)
   else if (65 <=? n) && (n <=? 70) then Some (n - 55)
   else None)%N.

Fixpoint parse_hex (s : string) (acc : N) : option N :=
  match s with
  | EmptyString => Some acc
  | String c r =>
      match hex_value c with
      | Some v => parse_hex r (16 * acc + v)%N
      | None => None
      end
  end.

(** [ObjectId(s)] for a string [s]: 24 hexadecimal digits, or [InvalidId]
    (here [None]). *)
Definition ObjectId (s : string) : option oid :=
  if (String.length s =? 24)%nat then parse_hex s 0%N else None.

Definition hex_digit (n : N) : ascii :=
  let d := (n mod 16)%N in
  ascii_of_N (if (d <? 10)%N then 48 + d else 87 + d)%N.

Fixpoint hex_fill (width : nat) (n : N) : string :=
  match width with
  | O => EmptyString
  | S k => hex_fill k (n / 16)%N ++ String (hex_digit n) EmptyString
  end.

(** [str(o)]: 24 lower-case hexadecimal digits. *)
Definition str (o : oid) : string := hex_fill 24 o.

End Bson.

Abbreviation oid := Bson.oid.

(** ** Exceptions *)

Inductive exn :=
| HTTPException (status_code : Z) (detail : string)
    (** [fastapi.HTTPException] *)
| ValidationError (model : string) (fields : list string)
    (** [pydantic.ValidationError], with the fields that failed *)
| ValueError (msg : string)
| InvalidId (s : string)
    (** [bson.errors.InvalidId] *)
| TransportError (msg : string)
    (** what [smtplib] and the socket layer raise *).

(** [str(e)] *)
Definition str_exn (e : exn) : string :=
  match e with
  | HTTPException _ d => d
  | ValidationError m _ => "validation error for " ++ m
  | ValueError m => m
  | InvalidId s => s ++ " is not a valid ObjectId"
  | TransportError m => m
  end.

(** The two domain errors of the intake path. *)
Definition NotFound : exn := HTTPException 404 "Room type not found".
Definition InvalidRange : exn :=
  HTTPException 400 "check_out must be after check_in".

(** ** Domain schemas ([schemas.py]) *)

Module ReservationGuest.
Record t := mk {
  first_name : string;
  last_name : string;
  email : string;
  phone : option string }.
End ReservationGuest.

Module Reservation.
Record t := mk {
  property_id : string;
  room_type_id : string;
  check_in : date;
  check_out : date;
  guests : Z;
  total_price : float;
  currency : string;
  channel : string;
  status : string;
  guest : ReservationGuest.t;
  special_requests : option string;
  confirmation_code : option string }.

(** The field constraints: [guests: ge=1], [total_price: ge=0],
    [currency: min_length=3, max_length=3]. *)
Definition guests_ok (r : t) : bool := 1 <=? guests r.
Definition total_price_ok (r : t) : bool :=
  PyFloat.leb PyFloat.zero (total_price r).
Definition currency_ok (r : t) : bool :=
  (3 <=? Text.len (currency r)) && (Text.len (currency r) <=? 3).

(** The fields whose constraint fails, in declaration order. *)
Definition errors (r : t) : list string :=
  ((if guests_ok r then [] else ["guests"]) ++
   (if total_price_ok r then [] else ["total_price"]) ++
   (if currency_ok r then [] else ["currency"]))%list.

(** [Reservation(...)]: the record, or [ValidationError]. *)
Definition new (r : t) : exn + t :=
  match errors r with
  | [] => inr r
  | fs => inl (ValidationError "Reservation" fs)
  end.
End Reservation.

Module RoomType.
Record t := mk {
  property_id : string;
  name : string;
  description : option string;
  max_guests : Z;
  base_price : float }.
End RoomType.

Module AvailabilitySearch.
Record t := mk {
  property_id : string;
  check_in : date;
  check_out : date;
  guests : Z }.
End AvailabilitySearch.

Module CreateReservationRequest.
Record t := mk {
  property_id : string;
  room_type_id : string;
  check_in : date;
  check_out : date;
  guests : Z;
  guest : ReservationGuest.t;
  special_requests : option string }.
End CreateReservationRequest.

Module AvailabilityResultItem.
Record t := mk {
  room_type_id : string;
  name : string;
  description : option string;
  max_guests : Z;
  nightly_price : float;
  available : bool }.
End AvailabilityResultItem.

Module AvailabilityResult.
Record t := mk { items : list AvailabilityResultItem.t }.
End AvailabilityResult.

Module EmailNotification.
Record t := mk {
  to : string;
  subject : string;
  body : string;
  sent_at : option datetime }.

(** [EmailNotification(...)]: [to] is an [EmailStr]; [validate_email]
    stands for the email-validator package, which returns the normalised
    address or rejects the string. *)
Definition new (validate_email : string -> option string) (n : t) : exn + t :=
  match validate_email (to n) with
  | Some a =>
      inr {| to := a; subject := subject n; body := body n;
             sent_at := sent_at n |}
  | None => inl (ValidationError "EmailNotification" ["to"])
  end.
End EmailNotification.

(** The request model of the OTA webhook ([main.py]). *)
Module OTAWebhookPayload.
Record t := mk {
  property_id : string;
  room_type_id : string;
  check_in : date;
  check_out : date;
  guests : Z;
  guest : ReservationGuest.t;
  total_price : option float;
  currency : option string;
  channel : string;
  confirmation_code : option string }.
End OTAWebhookPayload.

(** The body of a successful intake response:
    [{"id": ..., "confirmation_code": ...}]. *)
Module IntakeResponse.
Record t := mk { id : string; confirmation_code : string }.
End IntakeResponse.

(** ** The document store *)

(** A document of the [roomtype] collection. [base_price] is read with a
    default ([rt.get("base_price", 0)]), so the key may be missing. *)
Module RoomTypeDoc.
Record t := mk {
  _id : oid;
  property_id : string;
  name : string;
  description : option string;
  max_guests : Z;
  base_price : option float }.
End RoomTypeDoc.

(** A document of the [reservation] collection. *)
Module ReservationDoc.
Record t := mk { _id : oid; fields : Reservation.t }.
End ReservationDoc.

Record Database := mkDatabase {
  roomtype : list RoomTypeDoc.t;
  reservation : list ReservationDoc.t;
  next_oid : oid }.

(** What a handler can change: the store and standard output. *)
Record World := mkWorld {
  db : Database;
  stdout : list string }.

(** ** Computations that may raise *)

Definition M (A : Type) : Type := World -> (exn + A) * World.

Definition ret {A} (a : A) : M A := fun w => (inr a, w).

Definition raise {A} (e : exn) : M A := fun w => (inl e, w).

Definition bind {A B} (m : M A) (k : A -> M B) : M B :=
  fun w =>
    match m w with
    | (inr a, w') => k a w'
    | (inl e, w') => (inl e, w')
    end.

(** [try: m except Exception as e: h e] *)
Definition try_except {A} (m : M A) (h : exn -> M A) : M A :=
  fun w =>
    match m w with
    | (inl e, w') => h e w'
    | r => r
    end.

(** [with ... : body]: on the way out, normal or not, the context manager's
    exit runs; an exception it raises replaces the outcome of [body]. *)
Definition with_exit {A} (body : M A) (exit_ : option exn) : M A :=
  fun w =>
    match body w, exit_ with
    | (_, w'), Some e => (inl e, w')
    | r, None => r
    end.

(** A constructor or conversion that returns or raises. *)
Definition lift {A} (r : exn + A) : M A := fun w => (r, w).

(** [print(s)] *)
Definition print (s : string) : M unit :=
  fun w => (inr tt, {| db := db w; stdout := (stdout w ++ [s])%list |}).

Declare Scope py_scope.
Delimit Scope py_scope with py.
Notation "x <- m ;; k" := (bind m (fun x => k))
  (at level 100, m at next level, right associativity) : py_scope.
Notation "m ;;; k" := (bind m (fun _ => k))
  (at level 100, right associativity) : py_scope.
Open Scope py_scope.

(** ** Store adapter *)

(** Modelled from the spec: [database.py] ([db], [create_document],
    [get_documents]) is not among the sources. The spec describes it as a
    generic [create(collection, record) -> id] and
    [query(collection, filter) -> records] over a schemaless store whose only
    invariant is that generated identifiers are unique. Here each collection
    is the list of its documents in insertion order, and identifiers are
    drawn from a counter and rendered, as [str(ObjectId)] is, with 24
    hexadecimal digits. *)
Definition create_document_reservation (data : Reservation.t) : M string :=
  fun w =>
    let d := db w in
    let i := next_oid d in
    (inr (Bson.str i),
     {| db := {| roomtype := roomtype d;
                 reservation :=
                   (reservation d ++ [ReservationDoc.mk i data])%list;
                 next_oid := N.succ i |};
        stdout := stdout w |}).

(** Modelled from the spec: [create_document] at the [roomtype] collection
    (see [create_document_reservation]). *)
Definition create_document_roomtype (data : RoomType.t) : M string :=
  fun w =>
    let d := db w in
    let i := next_oid d in
    (inr (Bson.str i),
     {| db := {| roomtype :=
                   (roomtype d ++
                    [RoomTypeDoc.mk i (RoomType.property_id data)
                       (RoomType.name data) (RoomType.description data)
                       (RoomType.max_guests data)
                       (Some (RoomType.base_price data))])%list;
                 reservation := reservation d;
                 next_oid := N.succ i |};
        stdout := stdout w |}).

(** Modelled from the spec: [get_documents("roomtype", {"property_id": p})],
    every document of the collection whose [property_id] equals [p]. *)
Definition get_documents_roomtype (property_id : string)
  : M (list RoomTypeDoc.t) :=
  fun w =>
    (inr (filter (fun d => String.eqb (RoomTypeDoc.property_id d) property_id)
            (roomtype (db w))), w).

(** [db["roomtype"].find_one({"_id": i})]: the first document with that
    identifier, or [None]. *)
Definition find_one_roomtype (i : oid) : M (option RoomTypeDoc.t) :=
  fun w =>
    (inr (find (fun d => N.eqb (RoomTypeDoc._id d) i) (roomtype (db w))), w).

(** [ObjectId(s)] *)
Definition ObjectId (s : string) : M oid :=
  match Bson.ObjectId s with
  | Some i => ret i
  | None => raise (InvalidId s)
  end.

(** ** The runtime a request is served in *)

Module Smtp.
(** [MIMEText(body, "html")] with its three headers. *)
Record MIMEText := mkMIMEText {
  payload : string;
  subtype : string;
  Subject : string;
  From : string;
  To : string }.

(** The mail transport, seen from [send_email]: each step of the session
    either succeeds ([None]) or raises ([Some e]). [connect] is
    [smtplib.SMTP(host, port, timeout=10)]; [quit] is what leaving the
    [with] block does. *)
Record transport := mkTransport {
  connect : string -> Z -> option exn;
  starttls : option exn;
  login : string -> string -> option exn;
  send_message : MIMEText -> option exn;
  quit : option exn }.
End Smtp.

Record Runtime := mkRuntime {
  environ : string -> option string;   (** the process environment *)
  utcnow : datetime;                   (** [datetime.utcnow()] *)
  smtp : Smtp.transport;               (** the network, through [smtplib] *)
  validate_email : string -> option string;
                                       (** [EmailStr] validation *)
  float_str : float -> string          (** [str(x)] of a float *) }.

(** [os.getenv(k)] *)
Definition getenv (env : Runtime) (k : string) : option string :=
  environ env k.

(** [os.getenv(k, d)] *)
Definition getenv_default (env : Runtime) (k : string) (d : string) : string :=
  match environ env k with Some v => v | None => d end.

(** [int(s)] *)
Definition int_of_str (s : string) : M Z :=
  match Text.parse_int s with
  | Some n => ret n
  | None => raise (ValueError (Text.int_error s))
  end.

(** One step of an SMTP session. *)
Definition smtp_step (r : option exn) : M unit :=
  match r with
  | None => ret tt
  | Some e => raise e
  end.

Definition nl : string := String (ascii_of_nat 10) EmptyString.

(** ** Utility *)

(** [generate_confirmation_code(prefix)] *)
Definition generate_confirmation_code (env : Runtime) (prefix : string)
  : string :=
  prefix ++ "-" ++ PyDate.strftime_compact (utcnow env).

(** ** Email sending helper *)

Definition send_email (env : Runtime) (notification : EmailNotification.t)
  : M bool :=
  let host := getenv env "SMTP_HOST" in
  port <- int_of_str (getenv_default env "SMTP_PORT" "587") ;;
  let user := getenv env "SMTP_USER" in
  let password := getenv env "SMTP_PASS" in
  let sender :=
    getenv_default env "SMTP_SENDER"
      (Text.or_else user "no-reply@example.com") in
  if negb (Text.truthy_opt host) then
    (* SMTP not configured, simulate success (log only) *)
    print ("[Email] To: " ++ EmailNotification.to notification ++
           " | Subject: " ++ EmailNotification.subject notification ++
           nl ++ EmailNotification.body notification) ;;;
    ret true
  else
    try_except
      (let msg :=
         {| Smtp.payload := EmailNotification.body notification;
            Smtp.subtype := "html";
            Smtp.Subject := EmailNotification.subject notification;
            Smtp.From := sender;
            Smtp.To := EmailNotification.to notification |} in
       smtp_step (Smtp.connect (smtp env) (Text.get host) port) ;;;
       with_exit
         (smtp_step (Smtp.starttls (smtp env)) ;;;
          (if Text.truthy_opt user && Text.truthy_opt password
           then smtp_step (Smtp.login (smtp env) (Text.get user)
                             (Text.get password))
           else ret tt) ;;;
          smtp_step (Smtp.send_message (smtp env) msg))
         (Smtp.quit (smtp env)) ;;;
       ret true)
      (fun e => print ("Email error: " ++ str_exn e) ;;; ret false).

(** ** Property and RoomType management *)

(** [POST /api/room-types] *)
Definition create_room_type (payload : RoomType.t) : M string :=
  room_type_id <- create_document_roomtype payload ;;
  ret room_type_id.

(** ** Availability search *)

(** [float(rt.get("base_price", 0))] *)
Definition base_price_of (rt : RoomTypeDoc.t) : float :=
  match RoomTypeDoc.base_price rt with
  | Some x => x
  | None => PyFloat.of_int 0
  end.

Definition availability_item (rt : RoomTypeDoc.t) : AvailabilityResultItem.t :=
  {| AvailabilityResultItem.room_type_id := Bson.str (RoomTypeDoc._id rt);
     AvailabilityResultItem.name := RoomTypeDoc.name rt;
     AvailabilityResultItem.description := RoomTypeDoc.description rt;
     AvailabilityResultItem.max_guests := RoomTypeDoc.max_guests rt;
     AvailabilityResultItem.nightly_price := base_price_of rt;
     AvailabilityResultItem.available := true |}.

(** [POST /api/availability] *)
Definition search_availability (payload : AvailabilitySearch.t)
  : M AvailabilityResult.t :=
  (* Simple availability: all room types for the property are available
     with base price. *)
  room_types <-
    get_documents_roomtype (AvailabilitySearch.property_id payload) ;;
  let items :=
    fold_left (fun items rt => (items ++ [availability_item rt])%list)
      room_types [] in
  ret {| AvailabilityResult.items := items |}.

(** ** Reservation (direct + OTA webhook) *)

(** The room type lookup both handlers start with:
    [db["roomtype"].find_one({"_id": ObjectId(room_type_id)})]. *)
Definition lookup_room_type (room_type_id : string)
  : M (option RoomTypeDoc.t) :=
  i <- ObjectId room_type_id ;;
  find_one_roomtype i.

Definition direct_body (env : Runtime) (confirmation_code : string)
    (reservation : Reservation.t) (nights_text : Z) : string :=
  nl ++ "    <h2>New Reservation</h2>" ++
  nl ++ "    <p><strong>Confirmation:</strong> " ++ confirmation_code ++ "</p>" ++
  nl ++ "    <p><strong>Property:</strong> " ++
    Reservation.property_id reservation ++ "</p>" ++
  nl ++ "    <p><strong>Room Type:</strong> " ++
    Reservation.room_type_id reservation ++ "</p>" ++
  nl ++ "    <p><strong>Dates:</strong> " ++
    PyDate.isoformat (Reservation.check_in reservation) ++ " to " ++
    PyDate.isoformat (Reservation.check_out reservation) ++ " (" ++
    Text.str_int nights_text ++ " nights)</p>" ++
  nl ++ "    <p><strong>Guest:</strong> " ++
    ReservationGuest.first_name (Reservation.guest reservation) ++ " " ++
    ReservationGuest.last_name (Reservation.guest reservation) ++ " (" ++
    ReservationGuest.email (Reservation.guest reservation) ++ ")</p>" ++
  nl ++ "    <p><strong>Total:</strong> " ++
    float_str env (Reservation.total_price reservation) ++ " " ++
    Reservation.currency reservation ++ "</p>" ++
  nl ++ "    <p><strong>Channel:</strong> " ++
    Reservation.channel reservation ++ "</p>" ++
  nl ++ "    ".

(** [POST /api/reservations] *)
Definition create_reservation (env : Runtime)
    (payload : CreateReservationRequest.t) : M IntakeResponse.t :=
  (* Price calculation: simple nightly price * nights *)
  rt <- try_except
          (lookup_room_type (CreateReservationRequest.room_type_id payload))
          (fun _ => ret None) ;;
  match rt with
  | None => raise (HTTPException 404 "Room type not found")
  | Some rt =>
      let nights :=
        PyDate.sub_days (CreateReservationRequest.check_out payload)
          (CreateReservationRequest.check_in payload) in
      if nights <=? 0 then
        raise (HTTPException 400 "check_out must be after check_in")
      else
        let total_price :=
          PyFloat.mul (base_price_of rt) (PyFloat.of_int nights) in
        let confirmation_code := generate_confirmation_code env "RES" in
        reservation <-
          lift (Reservation.new
            {| Reservation.property_id :=
                 CreateReservationRequest.property_id payload;
               Reservation.room_type_id :=
                 CreateReservationRequest.room_type_id payload;
               Reservation.check_in :=
                 CreateReservationRequest.check_in payload;
               Reservation.check_out :=
                 CreateReservationRequest.check_out payload;
               Reservation.guests := CreateReservationRequest.guests payload;
               Reservation.total_price := total_price;
               Reservation.currency := "USD";
               Reservation.channel := "direct";
               Reservation.status := "confirmed";
               Reservation.guest := CreateReservationRequest.guest payload;
               Reservation.special_requests :=
                 CreateReservationRequest.special_requests payload;
               Reservation.confirmation_code := Some confirmation_code |}) ;;
        res_id <- create_document_reservation reservation ;;
        (* Send email notification *)
        let to_email :=
          getenv_default env "BOOKING_NOTIFICATION_EMAIL"
            (ReservationGuest.email (Reservation.guest reservation)) in
        let subject := "New Reservation " ++ confirmation_code in
        let nights_text := nights in
        let body := direct_body env confirmation_code reservation nights_text in
        notification <-
          lift (EmailNotification.new (validate_email env)
            {| EmailNotification.to := to_email;
               EmailNotification.subject := subject;
               EmailNotification.body := body;
               EmailNotification.sent_at := None |}) ;;
        send_email env notification ;;;
        ret {| IntakeResponse.id := res_id;
               IntakeResponse.confirmation_code := confirmation_code |}
  end.

Definition ota_body (env : Runtime) (channel confirmation_code : string)
    (reservation : Reservation.t) (nights : Z) : string :=
  nl ++ "    <h2>OTA Reservation</h2>" ++
  nl ++ "    <p><strong>Channel:</strong> " ++ channel ++ "</p>" ++
  nl ++ "    <p><strong>Confirmation:</strong> " ++ confirmation_code ++ "</p>" ++
  nl ++ "    <p><strong>Property:</strong> " ++
    Reservation.property_id reservation ++ "</p>" ++
  nl ++ "    <p><strong>Room Type:</strong> " ++
    Reservation.room_type_id reservation ++ "</p>" ++
  nl ++ "    <p><strong>Dates:</strong> " ++
    PyDate.isoformat (Reservation.check_in reservation) ++ " to " ++
    PyDate.isoformat (Reservation.check_out reservation) ++ " (" ++
    Text.str_int nights ++ " nights)</p>" ++
  nl ++ "    <p><strong>Guest:</strong> " ++
    ReservationGuest.first_name (Reservation.guest reservation) ++ " " ++
    ReservationGuest.last_name (Reservation.guest reservation) ++ " (" ++
    ReservationGuest.email (Reservation.guest reservation) ++ ")</p>" ++
  nl ++ "    <p><strong>Total:</strong> " ++
    float_str env (Reservation.total_price reservation) ++ " " ++
    Reservation.currency reservation ++ "</p>" ++
  nl ++ "    ".

(** [POST /api/ota/webhook] *)
Definition ota_webhook (env : Runtime) (payload : OTAWebhookPayload.t)
  : M IntakeResponse.t :=
  (* Accept OTA pushes. If confirmation_code not provided, generate one. *)
  let confirmation_code :=
    Text.or_else (OTAWebhookPayload.confirmation_code payload)
      (generate_confirmation_code env "OTA") in
  let nights :=
    PyDate.sub_days (OTAWebhookPayload.check_out payload)
      (OTAWebhookPayload.check_in payload) in
  if nights <=? 0 then
    raise (HTTPException 400 "check_out must be after check_in")
  else
    (* If total_price not provided, attempt simple calc from room type
       base_price *)
    base_price <-
      try_except
        (rt <- lookup_room_type (OTAWebhookPayload.room_type_id payload) ;;
         ret (match rt with
              | Some rt => base_price_of rt
              | None => PyFloat.zero
              end))
        (fun _ => ret PyFloat.zero) ;;
    let total_price :=
      match OTAWebhookPayload.total_price payload with
      | Some t => t
      | None => PyFloat.mul base_price (PyFloat.of_int nights)
      end in
    reservation <-
      lift (Reservation.new
        {| Reservation.property_id := OTAWebhookPayload.property_id payload;
           Reservation.room_type_id := OTAWebhookPayload.room_type_id payload;
           Reservation.check_in := OTAWebhookPayload.check_in payload;
           Reservation.check_out := OTAWebhookPayload.check_out payload;
           Reservation.guests := OTAWebhookPayload.guests payload;
           Reservation.total_price := total_price;
           Reservation.currency :=
             Text.or_else (OTAWebhookPayload.currency payload) "USD";
           Reservation.channel := OTAWebhookPayload.channel payload;
           Reservation.status := "confirmed";
           Reservation.guest := OTAWebhookPayload.guest payload;
           Reservation.special_requests := None;
           Reservation.confirmation_code := Some confirmation_code |}) ;;
    res_id <- create_document_reservation reservation ;;
    (* Notify email *)
    let to_email :=
      getenv_default env "BOOKING_NOTIFICATION_EMAIL"
        (ReservationGuest.email (Reservation.guest reservation)) in
    let subject :=
      "OTA Reservation " ++ confirmation_code ++ " (" ++
      OTAWebhookPayload.channel payload ++ ")" in
    let body :=
      ota_body env (OTAWebhookPayload.channel payload) confirmation_code
        reservation nights in
    notification <-
      lift (EmailNotification.new (validate_email env)
        {| EmailNotification.to := to_email;
           EmailNotification.subject := subject;
           EmailNotification.body := body;
           EmailNotification.sent_at := None |}) ;;
    send_email env notification ;;;
    ret {| IntakeResponse.id := res_id;
           IntakeResponse.confirmation_code := confirmation_code |}.

(** ** Observations used to state the properties *)

(** The room type a request refers to: the document [find_one] returns for
    [ObjectId(room_type_id)], if the identifier is well formed and such a
    document is stored. *)
Definition referenced_room_type (w : World) (room_type_id : string)
  : option RoomTypeDoc.t :=
  match Bson.ObjectId room_type_id with
  | Some i => find (fun d => N.eqb (RoomTypeDoc._id d) i) (roomtype (db w))
  | None => None
  end.

(** Running a request from [w] to [w'] persisted exactly the reservation
    document [d]. *)
Definition persists (w w' : World) (d : ReservationDoc.t) : Prop :=
  reservation (db w') = (reservation (db w) ++ [d])%list.

(** The record [create_reservation] hands to [Reservation(...)]. *)
Definition direct_record (env : Runtime) (payload : CreateReservationRequest.t)
    (rt : RoomTypeDoc.t) : Reservation.t :=
  {| Reservation.property_id := CreateReservationRequest.property_id payload;
     Reservation.room_type_id := CreateReservationRequest.room_type_id payload;
     Reservation.check_in := CreateReservationRequest.check_in payload;
     Reservation.check_out := CreateReservationRequest.check_out payload;
     Reservation.guests := CreateReservationRequest.guests payload;
     Reservation.total_price :=
       PyFloat.mul (base_price_of rt)
         (PyFloat.of_int
            (PyDate.sub_days (CreateReservationRequest.check_out payload)
               (CreateReservationRequest.check_in payload)));
     Reservation.currency := "USD";
     Reservation.channel := "direct";
     Reservation.status := "confirmed";
     Reservation.guest := CreateReservationRequest.guest payload;
     Reservation.special_requests :=
       CreateReservationRequest.special_requests payload;
     Reservation.confirmation_code :=
       Some (generate_confirmation_code env "RES") |}.

(** The nightly rate [ota_webhook] falls back on. *)
Definition ota_base_price (w : World) (payload : OTAWebhookPayload.t) : float :=
  match referenced_room_type w (OTAWebhookPayload.room_type_id payload) with
  | Some rt => base_price_of rt
  | None => PyFloat.zero
  end.

(** The confirmation code [ota_webhook] settles on. *)
Definition ota_code (env : Runtime) (payload : OTAWebhookPayload.t) : string :=
  Text.or_else (OTAWebhookPayload.confirmation_code payload)
    (generate_confirmation_code env "OTA").

(** The record [ota_webhook] hands to [Reservation(...)]. *)
Definition ota_record (env : Runtime) (payload : OTAWebhookPayload.t)
    (w : World) : Reservation.t :=
  {| Reservation.property_id := OTAWebhookPayload.property_id payload;
     Reservation.room_type_id := OTAWebhookPayload.room_type_id payload;
     Reservation.check_in := OTAWebhookPayload.check_in payload;
     Reservation.check_out := OTAWebhookPayload.check_out payload;
     Reservation.guests := OTAWebhookPayload.guests payload;
     Reservation.total_price :=
       match OTAWebhookPayload.total_price payload with
       | Some t => t
       | None =>
           PyFloat.mul (ota_base_price w payload)
             (PyFloat.of_int
                (PyDate.sub_days (OTAWebhookPayload.check_out payload)
                   (OTAWebhookPayload.check_in payload)))
       end;
     Reservation.currency :=
       Text.or_else (OTAWebhookPayload.currency payload) "USD";
     Reservation.channel := OTAWebhookPayload.channel payload;
     Reservation.status := "confirmed";
     Reservation.guest := OTAWebhookPayload.guest payload;
     Reservation.special_requests := None;
     Reservation.confirmation_code := Some (ota_code env payload) |}.

(** An exception of the notification step, which runs after the insert:
    the recipient is not an address, or the port is unreadable. *)
Definition notification_error (e : exn) : Prop :=
  e = ValidationError "EmailNotification" ["to"] \/ exists m, e = ValueError m.

(** Computations that leave the world as it is. *)
Definition silent {A} (m : M A) : Prop := forall w, snd (m w) = w.

(** The address the notification goes to. *)
Definition notification_recipient (env : Runtime) (guest : ReservationGuest.t)
  : string :=
  getenv_default env "BOOKING_NOTIFICATION_EMAIL" (ReservationGuest.email guest).

(** The notification step can complete: the recipient passes [EmailStr]
    validation and [SMTP_PORT], when set, reads as an integer. *)
Definition notification_ready (env : Runtime) (guest : ReservationGuest.t)
  : Prop :=
  validate_email env (notification_recipient env guest) <> None /\
  Text.parse_int (getenv_default env "SMTP_PORT" "587") <> None.

(** ** Further handlers *)

(** Modelled from the spec: [get_documents("roomtype", filt)] for the two
    filters [list_room_types] builds, [{"property_id": p}] ([Some p]) and
    [{}] ([None]), which selects every document. *)
Definition get_documents_roomtype_where (filt : option string)
  : M (list RoomTypeDoc.t) :=
  match filt with
  | Some p => get_documents_roomtype p
  | None => fun w => (inr (roomtype (db w)), w)
  end.

(** [GET /api/room-types] *)
Definition list_room_types (property_id : option string)
  : M (list RoomTypeDoc.t) :=
  let filt :=
    if Text.truthy_opt property_id then Some (Text.get property_id)
    else None in
  get_documents_roomtype_where filt.

(** [GET /test] *)
Module Diagnostics.

(** What [test_database] uses of [db], the handle [database.py] exports:
    its [name] attribute, when it has one, and what
    [list_collection_names()] returns or raises. *)
Record handle := mkHandle {
  name : option string;
  list_collection_names : exn + list string }.

Record response := mkResponse {
  backend : string;
  database : string;
  database_url : option string;
  database_name : option string;
  connection_status : string;
  collections : list string }.

Definition set_database (r : response) (v : string) : response :=
  {| backend := backend r; database := v; database_url := database_url r;
     database_name := database_name r;
     connection_status := connection_status r;
     collections := collections r |}.

Definition set_database_url (r : response) (v : option string) : response :=
  {| backend := backend r; database := database r; database_url := v;
     database_name := database_name r;
     connection_status := connection_status r;
     collections := collections r |}.

Definition set_database_name (r : response) (v : option string) : response :=
  {| backend := backend r; database := database r;
     database_url := database_url r; database_name := v;
     connection_status := connection_status r;
     collections := collections r |}.

Definition set_connection_status (r : response) (v : string) : response :=
  {| backend := backend r; database := database r;
     database_url := database_url r; database_name := database_name r;
     connection_status := v; collections := collections r |}.

Definition set_collections (r : response) (v : list string) : response :=
  {| backend := backend r; database := database r;
     database_url := database_url r; database_name := database_name r;
     connection_status := connection_status r; collections := v |}.

(** [s[:n]] *)
Definition take (n : nat) (s : string) : string := String.substring 0 n s.

(** The outer [try] of the source guards a block in which only
    [list_collection_names()] can raise, and that call has its own handler:
    the outer handler is never entered. *)
Definition test_database (env : Runtime) (db : option handle) : response :=
  let response :=
    {| backend := "✅ Running";
       database := "❌ Not Available";
       database_url := None;
       database_name := None;
       connection_status := "Not Connected";
       collections := [] |} in
  let response :=
    match db with
    | Some d =>
        let response := set_database response "✅ Available" in
        let response := set_database_url response (Some "✅ Configured") in
        let response :=
          set_database_name response
            (Some (match name d with
                   | Some n => n
                   | None => "✅ Connected"
                   end)) in
        let response := set_connection_status response "Connected" in
        match list_collection_names d with
        | inr collections =>
            let response :=
              set_collections response (firstn 10 collections) in
            set_database response "✅ Connected & Working"
        | inl e =>
            set_database response
              ("⚠️  Connected but Error: " ++ take 50 (str_exn e))
        end
    | None => set_database response "⚠️  Available but not initialized"
    end in
  let response :=
    set_database_url response
      (Some (if Text.truthy_opt (getenv env "DATABASE_URL")
             then "✅ Set" else "❌ Not Set")) in
  let response :=
    set_database_name response
      (Some (if Text.truthy_opt (getenv env "DATABASE_NAME")
             then "✅ Set" else "❌ Not Set")) in
  response.

End Diagnostics.

(** ** Further observations *)

(** Every stored identifier was drawn from the counter: it lies below the
    next one. *)
Definition fresh_ids (w : World) : Prop :=
  (forall d, In d (roomtype (db w)) ->
     (RoomTypeDoc._id d < next_oid (db w))%N) /\
  (forall d, In d (reservation (db w)) ->
     (ReservationDoc._id d < next_oid (db w))%N).

(** The notification [create_reservation] builds for a persisted
    reservation, before [EmailStr] validation. *)
Definition direct_notification (env : Runtime)
    (payload : CreateReservationRequest.t) (rt : RoomTypeDoc.t)
  : EmailNotification.t :=
  {| EmailNotification.to :=
       notification_recipient env (CreateReservationRequest.guest payload);
     EmailNotification.subject :=
       "New Reservation " ++ generate_confirmation_code env "RES";
     EmailNotification.body :=
       direct_body env (generate_confirmation_code env "RES")
         (direct_record env payload rt)
         (PyDate.sub_days (CreateReservationRequest.check_out payload)
            (CreateReservationRequest.check_in payload));
     EmailNotification.sent_at := None |}.

(** The notification [ota_webhook] builds. *)
Definition ota_notification (env : Runtime) (payload : OTAWebhookPayload.t)
    (w : World) : EmailNotification.t :=
  {| EmailNotification.to :=
       notification_recipient env (OTAWebhookPayload.guest payload);
     EmailNotification.subject :=
       "OTA Reservation " ++ ota_code env payload ++ " (" ++
       OTAWebhookPayload.channel payload ++ ")";
     EmailNotification.body :=
       ota_body env (OTAWebhookPayload.channel payload) (ota_code env payload)
         (ota_record env payload w)
         (PyDate.sub_days (OTAWebhookPayload.check_out payload)
            (OTAWebhookPayload.check_in payload));
     EmailNotification.sent_at := None |}.

(** The notification [n] once [EmailStr] validation returned the address
    [a] for its recipient. *)
Definition validated (a : string) (n : EmailNotification.t)
  : EmailNotification.t :=
  {| EmailNotification.to := a;
     EmailNotification.subject := EmailNotification.subject n;
     EmailNotification.body := EmailNotification.body n;
     EmailNotification.sent_at := EmailNotification.sent_at n |}.

(** The world after [create_document("reservation", r)]. *)
Definition inserted (r : Reservation.t) (w : World) : World :=
  snd (create_document_reservation r w).

(** The message [send_email] hands to the transport. *)
Definition outgoing (env : Runtime) (n : EmailNotification.t)
  : Smtp.MIMEText :=
  {| Smtp.payload := EmailNotification.body n;
     Smtp.subtype := "html";
     Smtp.Subject := EmailNotification.subject n;
     Smtp.From :=
       getenv_default env "SMTP_SENDER"
         (Text.or_else (getenv env "SMTP_USER") "no-reply@example.com");
     Smtp.To := EmailNotification.to n |}.

(** Every step of the SMTP session [send_email] runs for [n] succeeds. *)
Definition session_succeeds (env : Runtime) (port : Z)
    (n : EmailNotification.t) : Prop :=
  Smtp.connect (smtp env) (Text.get (getenv env "SMTP_HOST")) port = None /\
  Smtp.starttls (smtp env) = None /\
  (Text.truthy_opt (getenv env "SMTP_USER") &&
   Text.truthy_opt (getenv env "SMTP_PASS") = true ->
   Smtp.login (smtp env) (Text.get (getenv env "SMTP_USER"))
     (Text.get (getenv env "SMTP_PASS")) = None) /\
  Smtp.send_message (smtp env) (outgoing env n) = None /\
  Smtp.quit (smtp env) = None.

(** The exception the SMTP session [send_email] runs for [n] ends with, if
    any: the one connecting raised; else the one leaving the [with] block
    raised, which replaces what its body did; else the one of the first
    step of the body that failed. *)
Definition session_error (env : Runtime) (port : Z)
    (n : EmailNotification.t) : option exn :=
  match Smtp.connect (smtp env) (Text.get (getenv env "SMTP_HOST")) port with
  | Some e => Some e
  | None =>
      match Smtp.quit (smtp env) with
      | Some e => Some e
      | None =>
          match Smtp.starttls (smtp env) with
          | Some e => Some e
          | None =>
              match
                (if Text.truthy_opt (getenv env "SMTP_USER") &&
                    Text.truthy_opt (getenv env "SMTP_PASS")
                 then Smtp.login (smtp env) (Text.get (getenv env "SMTP_USER"))
                        (Text.get (getenv env "SMTP_PASS"))
                 else None)
              with
              | Some e => Some e
              | None => Smtp.send_message (smtp env) (outgoing env n)
              end
          end
      end
  end.

(** The clock readings [datetime.utcnow()] can return, from year 1000 on,
    where [%Y] has its four digits. *)
Definition datetime_ok (t : datetime) : Prop :=
  1000 <= PyDate.year (PyDate.dt_date t) /\
  PyDate.date_ok (PyDate.dt_date t) /\
  0 <= PyDate.hour t <= 23 /\ 0 <= PyDate.minute t <= 59 /\
  0 <= PyDate.second t <= 59.

(** ** Sample data

    Property P with room types R (base price 100, two guests) and S, a room
    type of another property, and requests against them. *)

Module Sample.

Definition guest : ReservationGuest.t :=
  ReservationGuest.mk "Ada" "Lovelace" "ada@example.com" None.

Definition transport_ok : Smtp.transport :=
  {| Smtp.connect := fun _ _ => None;
     Smtp.starttls := None;
     Smtp.login := fun _ _ => None;
     Smtp.send_message := fun _ => None;
     Smtp.quit := None |}.

Definition transport_down : Smtp.transport :=
  {| Smtp.connect := fun _ _ => Some (TransportError "connection refused");
     Smtp.starttls := None;
     Smtp.login := fun _ _ => None;
     Smtp.send_message := fun _ => None;
     Smtp.quit := None |}.

Fixpoint has_at (s : string) : bool :=
  match s with
  | EmptyString => false
  | String c r => Ascii.eqb c "@"%char || has_at r
  end.

Definition clock : datetime :=
  PyDate.mkdatetime (PyDate.mkdate 2024 3 5) 7 8 9.

(** No variable set: SMTP is not configured. *)
Definition env : Runtime :=
  {| environ := fun _ => None;
     utcnow := clock;
     smtp := transport_ok;
     validate_email := fun s => if has_at s then Some s else None;
     float_str := fun _ => "<float>" |}.

(** [SMTP_HOST=mail.example.com], and a server that refuses connections. *)
Definition env_mail_down : Runtime :=
  {| environ := fun k =>
       if String.eqb k "SMTP_HOST" then Some "mail.example.com" else None;
     utcnow := clock;
     smtp := transport_down;
     validate_email := fun s => if has_at s then Some s else None;
     float_str := fun _ => "<float>" |}.

(** [SMTP_PORT=abc] *)
Definition env_bad_port : Runtime :=
  {| environ := fun k =>
       if String.eqb k "SMTP_PORT" then Some "abc" else None;
     utcnow := clock;
     smtp := transport_ok;
     validate_email := fun s => if has_at s then Some s else None;
     float_str := fun _ => "<float>" |}.

Definition empty : World :=
  {| db := {| roomtype := []; reservation := []; next_oid := 1%N |};
     stdout := [] |}.

Definition room_R : RoomType.t :=
  RoomType.mk "P" "R" None 2 (PyFloat.of_int 100).
Definition room_S : RoomType.t :=
  RoomType.mk "P" "S" (Some "Suite") 4 (PyFloat.of_int 250).
Definition room_T : RoomType.t :=
  RoomType.mk "Q" "T" None 1 (PyFloat.of_int 80).

(** The store after the three room types were created, in this order. *)
Definition store : World :=
  snd (create_room_type room_T
         (snd (create_room_type room_S
                 (snd (create_room_type room_R empty))))).

Definition id_R : string := "000000000000000000000001".

Definition jan_1 : date := PyDate.mkdate 2024 1 1.
Definition jan_4 : date := PyDate.mkdate 2024 1 4.

Definition booking : CreateReservationRequest.t :=
  CreateReservationRequest.mk "P" id_R jan_1 jan_4 2 guest None.

(** Room type unknown and dates reversed. *)
Definition booking_unknown_reversed : CreateReservationRequest.t :=
  CreateReservationRequest.mk "P" "00000000000000000000ffff" jan_4 jan_1 2
    guest None.

Definition booking_malformed_id : CreateReservationRequest.t :=
  CreateReservationRequest.mk "P" "not-an-id" jan_1 jan_4 2 guest None.

Definition push_450 : OTAWebhookPayload.t :=
  OTAWebhookPayload.mk "P" id_R jan_1 jan_4 2 guest
    (Some (PyFloat.of_int 450)) (Some "USD") "booking.com" (Some "BK-77").


Definition push_unknown : OTAWebhookPayload.t :=
  OTAWebhookPayload.mk "P" "not-an-id" jan_1 jan_4 2 guest
    None None "booking.com" None.

Definition push_empty_code : OTAWebhookPayload.t :=
  OTAWebhookPayload.mk "P" id_R jan_1 jan_4 2 guest
    None (Some "USD") "booking.com" (Some EmptyString).

Definition push_negative : OTAWebhookPayload.t :=
  OTAWebhookPayload.mk "P" id_R jan_1 jan_4 2 guest
    (Some (PyFloat.of_int (-5))) (Some "USD") "booking.com" None.

Definition push_reversed : OTAWebhookPayload.t :=
  OTAWebhookPayload.mk "P" id_R jan_4 jan_1 2 guest
    None None "booking.com" None.

Definition search : AvailabilitySearch.t :=
  AvailabilitySearch.mk "P" jan_1 jan_4 2.

End Sample.

(** ** More sample data *)

Module Sample2.

(** A party of ten for room type R (two guests at most), booked under a
    property that is not R's. *)
Definition booking_crowd : CreateReservationRequest.t :=
  CreateReservationRequest.mk "Z" Sample.id_R Sample.jan_1 Sample.jan_4 10
    Sample.guest (Some "late arrival").

Definition booking_no_guests : CreateReservationRequest.t :=
  CreateReservationRequest.mk "P" Sample.id_R Sample.jan_1 Sample.jan_4 0
    Sample.guest None.

Definition push_four_letters : OTAWebhookPayload.t :=
  OTAWebhookPayload.mk "P" Sample.id_R Sample.jan_1 Sample.jan_4 2
    Sample.guest None (Some "EURO") "airbnb" None.

Definition push_no_currency : OTAWebhookPayload.t :=
  OTAWebhookPayload.mk "P" Sample.id_R Sample.jan_1 Sample.jan_4 2
    Sample.guest None (Some EmptyString) "airbnb" None.

Definition environment (vars : list (string * string)) (k : string)
  : option string :=
  option_map snd (find (fun kv => String.eqb (fst kv) k) vars).

Definition runtime (vars : list (string * string)) (t : Smtp.transport)
  : Runtime :=
  {| environ := environment vars;
     utcnow := Sample.clock;
     smtp := t;
     validate_email := fun s => if Sample.has_at s then Some s else None;
     float_str := fun _ => "<float>" |}.

(** [BOOKING_NOTIFICATION_EMAIL=front-desk], which is not an address. *)
Definition env_bad_recipient : Runtime :=
  runtime [("BOOKING_NOTIFICATION_EMAIL", "front-desk")] Sample.transport_ok.

(** [BOOKING_NOTIFICATION_EMAIL=desk@example.com] *)
Definition env_desk : Runtime :=
  runtime [("BOOKING_NOTIFICATION_EMAIL", "desk@example.com")]
    Sample.transport_ok.

(** A configured host and a server that accepts everything. *)
Definition env_mail_up : Runtime :=
  runtime [("SMTP_HOST", "mail.example.com"); ("SMTP_USER", "booking");
           ("SMTP_PASS", "secret")] Sample.transport_ok.

(** A server that delivers the message and then fails on QUIT. *)
Definition transport_bad_quit : Smtp.transport :=
  {| Smtp.connect := fun _ _ => None;
     Smtp.starttls := None;
     Smtp.login := fun _ _ => None;
     Smtp.send_message := fun _ => None;
     Smtp.quit := Some (TransportError "(421, b'timeout')") |}.

Definition env_bad_quit : Runtime :=
  runtime [("SMTP_HOST", "mail.example.com")] transport_bad_quit.

(** A clock one second after [Sample.clock]. *)
Definition env_later : Runtime :=
  {| environ := fun _ => None;
     utcnow := PyDate.mkdatetime (PyDate.mkdate 2024 3 5) 7 8 10;
     smtp := Sample.transport_ok;
     validate_email := fun s => if Sample.has_at s then Some s else None;
     float_str := fun _ => "<float>" |}.

(** [SMTP_PORT=5'8] *)
Definition env_quoted_port : Runtime :=
  runtime [("SMTP_PORT", "5'8")] Sample.transport_ok.

(** [SMTP_PORT] set to 587 after a file separator (code 28), and to 587
    after a no-break space (code 160). *)
Definition port_after_separator : string :=
  String (ascii_of_nat 28) "587".
Definition port_after_no_break_space : string :=
  String (ascii_of_nat 160) "587".

Definition room_U : RoomType.t :=
  RoomType.mk "P" "U" None 3 (PyFloat.of_int 120).

(** A database with twelve collections. *)
Definition handle_twelve : Diagnostics.handle :=
  {| Diagnostics.name := Some "booking";
     Diagnostics.list_collection_names :=
       inr ["a"; "b"; "c"; "d"; "e"; "f"; "g"; "h"; "i"; "j"; "k"; "l"] |}.

End Sample2.

(* ================================================================== *)
(** * Properties *)
(* ================================================================== *)

(** ** Dates: the ordinal is strictly monotone on valid dates *)

Module DateFacts.
Import PyDate.

Lemma is_leap_cases (y : Z) :
  (is_leap y = true /\ days_before_year (y + 1) = days_before_year y + 366) \/
  (is_leap y = false /\ days_before_year (y + 1) = days_before_year y + 365).
Proof.
  unfold is_leap, days_before_year.
  replace (y + 1 - 1) with y by lia.
  destruct (y mod 4 =? 0) eqn:E4; destruct (y mod 100 =? 0) eqn:E100;
    destruct (y mod 400 =? 0) eqn:E400; simpl;
    rewrite ?Z.eqb_eq, ?Z.eqb_neq in *;
    Z.to_euclidean_division_equations; lia.
Qed.

Lemma days_before_year_mono (y1 y2 : Z) :
  y1 <= y2 -> days_before_year y1 <= days_before_year y2.
Proof.
  unfold days_before_year. intros H.
  Z.to_euclidean_division_equations; lia.
Qed.

Ltac month_cases m :=
  let C := fresh "C" in
  assert (m = 1 \/ m = 2 \/ m = 3 \/ m = 4 \/ m = 5 \/ m = 6 \/ m = 7 \/
          m = 8 \/ m = 9 \/ m = 10 \/ m = 11 \/ m = 12) as C by lia;
  decompose [or] C; clear C; subst m.

Ltac month_tables :=
  cbv beta iota delta
    [days_before_month days_in_month Z.ltb Z.compare Pos.compare
     Pos.compare_cont andb] in *.

Lemma month_day_bounds (y m d : Z) :
  1 <= m <= 12 -> 1 <= d <= days_in_month y m ->
  1 <= days_before_month y m + d <= (if is_leap y then 366 else 365).
Proof.
  intros Hm Hd.
  month_cases m; month_tables; destruct (is_leap y); lia.
Qed.

Lemma month_day_mono (y m1 d1 m2 d2 : Z) :
  1 <= m1 <= 12 -> 1 <= m2 <= 12 ->
  1 <= d1 <= days_in_month y m1 -> 1 <= d2 <= days_in_month y m2 ->
  m1 < m2 ->
  days_before_month y m1 + d1 < days_before_month y m2 + d2.
Proof.
  intros Hm1 Hm2 Hd1 Hd2 Hlt.
  month_cases m1; month_cases m2; try lia;
    month_tables; destruct (is_leap y); lia.
Qed.

Lemma toordinal_lt (a b : date) :
  date_ok a -> date_ok b -> lt a b -> toordinal a < toordinal b.
Proof.
  intros (Hya & Hma & Hda) (Hyb & Hmb & Hdb) Hlt.
  unfold toordinal.
  destruct Hlt as [Hy | [Hy [Hm | [Hm Hd]]]].
  - pose proof (month_day_bounds _ _ _ Hma Hda) as Ba.
    pose proof (month_day_bounds _ _ _ Hmb Hdb) as Bb.
    pose proof (days_before_year_mono (year a + 1) (year b) ltac:(lia)).
    destruct (is_leap_cases (year a)) as [[L E] | [L E]];
      rewrite L in Ba; lia.
  - rewrite Hy in *.
    pose proof (month_day_mono _ _ _ _ _ Hma Hmb Hda Hdb Hm). lia.
  - rewrite Hy, Hm. lia.
Qed.

Lemma lt_trichotomy (a b : date) : lt a b \/ a = b \/ lt b a.
Proof.
  destruct a as [ya ma da], b as [yb mb db]. unfold lt; simpl.
  destruct (Z.lt_trichotomy ya yb) as [H | [H | H]]; [lia | | lia].
  destruct (Z.lt_trichotomy ma mb) as [H1 | [H1 | H1]]; [lia | | lia].
  destruct (Z.lt_trichotomy da db) as [H2 | [H2 | H2]]; [lia | | lia].
  right; left. congruence.
Qed.

Lemma toordinal_lt_iff (a b : date) :
  date_ok a -> date_ok b -> (lt a b <-> toordinal a < toordinal b).
Proof.
  intros Ha Hb. split; [now apply toordinal_lt |].
  intros H. destruct (lt_trichotomy a b) as [L | [E | L]]; [assumption | |].
  - subst b. lia.
  - apply (toordinal_lt b a Hb Ha) in L. lia.
Qed.

Lemma toordinal_le_iff (a b : date) :
  date_ok a -> date_ok b -> (le a b <-> toordinal a <= toordinal b).
Proof.
  intros Ha Hb. unfold le. split.
  - intros [L | E]; [pose proof (toordinal_lt a b Ha Hb L); lia | subst; lia].
  - intros H. destruct (lt_trichotomy a b) as [L | [E | L]]; auto.
    apply (toordinal_lt b a Hb Ha) in L. lia.
Qed.

Lemma toordinal_bounds (a : date) :
  date_ok a -> 1 <= toordinal a <= 3652059.
Proof.
  intros (Hy & Hm & Hd). unfold toordinal.
  pose proof (month_day_bounds _ _ _ Hm Hd) as B.
  pose proof (days_before_year_mono 1 (year a) ltac:(lia)) as L.
  pose proof (days_before_year_mono (year a + 1) 10000 ltac:(lia)) as U.
  change (days_before_year 1) with 0 in L.
  change (days_before_year 10000) with 3652059 in U.
  destruct (is_leap_cases (year a)) as [[E S] | [E S]]; rewrite E in B; lia.
Qed.

End DateFacts.

(** ** Floats: sign and exactness of the price product *)

Module FloatFacts.
Import PyFloat.

Lemma digits2_pos_iter_xO (p d : positive) :
  digits2_pos (Pos.iter xO p d) = (digits2_pos p + d)%positive.
Proof.
  induction d as [| d IH] using Pos.peano_ind.
  - simpl. lia.
  - rewrite Pos.iter_succ. simpl. rewrite IH. lia.
Qed.

Lemma digits2_pos_lower (p : positive) :
  2 ^ (Z.pos (digits2_pos p) - 1) <= Z.pos p.
Proof.
  induction p as [p IH | p IH |]; simpl digits2_pos.
  - replace (Z.pos (Pos.succ (digits2_pos p)) - 1)
      with (Z.succ (Z.pos (digits2_pos p) - 1)) by lia.
    rewrite Z.pow_succ_r by lia. lia.
  - replace (Z.pos (Pos.succ (digits2_pos p)) - 1)
      with (Z.succ (Z.pos (digits2_pos p) - 1)) by lia.
    rewrite Z.pow_succ_r by lia. lia.
  - simpl. lia.
Qed.

Lemma digits2_pos_le_prec (p : positive) :
  Z.pos p < 2 ^ 53 -> Z.pos (digits2_pos p) <= 53.
Proof.
  intros H. pose proof (digits2_pos_lower p) as L.
  destruct (Z_le_gt_dec (Z.pos (digits2_pos p)) 53) as [|G]; [assumption|].
  assert (2 ^ 53 <= 2 ^ (Z.pos (digits2_pos p) - 1))
    by (apply Z.pow_le_mono_r; lia).
  lia.
Qed.

(** A 53-digit mantissa at an exponent in range is already rounded. *)
Lemma binary_round_aux_exact (sx : bool) (mz : positive) (ez : Z) :
  Z.pos (digits2_pos mz) = 53 -> -1074 <= ez <= 971 ->
  binary_round_aux prec emax sx (Z.pos mz) ez loc_Exact
  = S754_finite sx mz ez.
Proof.
  intros Hd He.
  assert (shr_fexp prec emax (Z.pos mz) ez loc_Exact
          = ({| shr_m := Z.pos mz; shr_r := false; shr_s := false |}, ez))
    as Hshr.
  { unfold shr_fexp, fexp, emin, Zdigits2, prec, emax. rewrite Hd.
    replace (Z.max (53 + ez - 53) (3 - 1024 - 53) - ez) with 0 by lia.
    reflexivity. }
  unfold binary_round_aux. rewrite Hshr. simpl. rewrite Hshr. simpl.
  destruct (Z.leb_spec ez 971) as [_ | G]; [reflexivity | lia].
Qed.

(** [float(n)] is exact, finite and positive for [0 < n < 2^53]. *)
Lemma of_int_finite (n : Z) :
  0 < n < 2 ^ 53 ->
  exists m e, of_int n = S754_finite false m e.
Proof.
  intros [Hpos Hlt]. destruct n as [| p | p]; try lia.
  pose proof (digits2_pos_le_prec p Hlt) as Hd.
  unfold of_int, binary_normalize, binary_round, shl_align.
  unfold fexp, emin, prec, emax.
  replace (Z.max (Z.pos (digits2_pos p) + 0 - 53) (3 - 1024 - 53))
    with (Z.pos (digits2_pos p) - 53) by lia.
  replace (Z.pos (digits2_pos p) - 53 - 0)
    with (Z.pos (digits2_pos p) - 53) by lia.
  destruct (Z.pos (digits2_pos p) - 53) as [| k | k] eqn:E; try lia.
  - exists p, 0. apply (binary_round_aux_exact false p 0); lia.
  - exists (Pos.iter xO p k), (Z.neg k).
    apply (binary_round_aux_exact false (Pos.iter xO p k) (Z.neg k)).
    + rewrite digits2_pos_iter_xO. lia.
    + lia.
Qed.

Lemma shr_1_nonneg (mrs : shr_record) :
  0 <= shr_m mrs -> 0 <= shr_m (shr_1 mrs).
Proof.
  destruct mrs as [m r s]. simpl.
  destruct m as [| [p | p |] | p]; simpl; lia.
Qed.

Lemma iter_shr_1_nonneg (p : positive) (mrs : shr_record) :
  0 <= shr_m mrs -> 0 <= shr_m (iter_pos shr_1 p mrs).
Proof.
  revert mrs. induction p as [p IH | p IH |]; intros mrs H; simpl.
  - apply IH, IH, shr_1_nonneg, H.
  - apply IH, IH, H.
  - apply shr_1_nonneg, H.
Qed.

Lemma shr_fexp_nonneg (m e : Z) (l : location) :
  0 <= m -> 0 <= shr_m (fst (shr_fexp prec emax m e l)).
Proof.
  intros H. unfold shr_fexp, shr.
  assert (0 <= shr_m (shr_record_of_loc m l)) as H0
    by (destruct l as [| []]; simpl; exact H).
  destruct (fexp prec emax (Zdigits2 m + e) - e); simpl; auto.
  apply iter_shr_1_nonneg, H0.
Qed.

Lemma round_nearest_even_nonneg (m : Z) (l : location) :
  0 <= m -> 0 <= round_nearest_even m l.
Proof.
  intros H. destruct l as [| []]; simpl; try lia.
  destruct (Z.even m); lia.
Qed.

(** Rounding a non-negative mantissa keeps the sign it is given and never
    produces a NaN. *)
Lemma binary_round_aux_sign (sx : bool) (mx ex : Z) (lx : location) :
  0 <= mx ->
  match binary_round_aux prec emax sx mx ex lx with
  | S754_zero s | S754_infinity s | S754_finite s _ _ => s = sx
  | S754_nan => False
  end.
Proof.
  intros H. unfold binary_round_aux.
  pose proof (shr_fexp_nonneg mx ex lx H) as H1.
  destruct (shr_fexp prec emax mx ex lx) as [mrs' e']. simpl in H1.
  pose proof (shr_fexp_nonneg _ e' loc_Exact
                (round_nearest_even_nonneg _ (loc_of_shr_record mrs') H1))
    as H2.
  destruct (shr_fexp prec emax _ e' loc_Exact) as [mrs'' e'']. simpl in H2.
  destruct (shr_m mrs'') as [| m | m]; try lia; try reflexivity.
  destruct (e'' <=? emax - prec); reflexivity.
Qed.

(** A non-negative price times a positive number of nights is
    non-negative. *)
Lemma mul_of_int_nonneg (x : float) (n : Z) :
  leb zero x = true -> 0 < n < 2 ^ 53 ->
  leb zero (mul x (of_int n)) = true.
Proof.
  intros Hx Hn. destruct (of_int_finite n Hn) as (m & e & ->).
  destruct x as [s | [|] | | [|] mx ex]; try discriminate Hx;
    try reflexivity.
  unfold mul, SFmul.
  pose proof (binary_round_aux_sign (xorb false false)
                (Z.pos (mx * m)) (ex + e) loc_Exact ltac:(lia)) as S.
  destruct (binary_round_aux prec emax (xorb false false)
              (Z.pos (mx * m)) (ex + e) loc_Exact);
    try contradiction; simpl in S; subst; reflexivity.
Qed.


End FloatFacts.

(** ** The notification helper and the two handlers, case by case *)

Section Notification.
Variable env : Runtime.

Lemma bind_ret {A B} (a : A) (k : A -> M B) (w : World) :
  bind (ret a) k w = k a w.
Proof. reflexivity. Qed.

Lemma bind_raise {A B} (e : exn) (k : A -> M B) (w : World) :
  bind (raise e) k w = (inl e, w).
Proof. reflexivity. Qed.

Lemma smtp_step_run (r : option exn) (w : World) :
  smtp_step r w = (match r with None => inr tt | Some e => inl e end, w).
Proof. destruct r; reflexivity. Qed.

Lemma silent_ret {A} (a : A) : silent (ret a).
Proof. intros w. reflexivity. Qed.

Lemma silent_smtp_step (r : option exn) : silent (smtp_step r).
Proof. intros w. rewrite smtp_step_run. reflexivity. Qed.

Lemma silent_bind {A B} (m : M A) (k : A -> M B) :
  silent m -> (forall a, silent (k a)) -> silent (bind m k).
Proof.
  intros Hm Hk w. unfold bind. specialize (Hm w).
  destruct (m w) as [[e | a] w1]; simpl in Hm; subst w1;
    [reflexivity | apply Hk].
Qed.

Lemma silent_with_exit {A} (m : M A) (x : option exn) :
  silent m -> silent (with_exit m x).
Proof.
  intros Hm w. unfold with_exit. specialize (Hm w).
  destruct (m w) as [r w1]; simpl in Hm; subst w1.
  destruct x; reflexivity.
Qed.

Ltac silent_steps :=
  repeat first
    [ apply silent_ret | apply silent_smtp_step | apply silent_with_exit
    | apply silent_bind; [| intros ?]
    | match goal with |- silent (if ?c then _ else _) => destruct c end ].

(** Handling an exception of a silent body: the handler starts from the
    world the body started from. *)
Lemma try_except_silent {A} (m : M A) (h : exn -> M A) (w : World) :
  silent m ->
  try_except m h w
  = match fst (m w) with
    | inl e => h e w
    | inr a => (inr a, w)
    end.
Proof.
  intros Hs. unfold try_except. specialize (Hs w).
  destruct (m w) as [[e | a] w1]; simpl in *; subst w1; reflexivity.
Qed.

(** Once the port is read, [send_email] returns a boolean and touches
    nothing but standard output. *)
Lemma send_email_run (n : EmailNotification.t) (w : World) (port : Z) :
  Text.parse_int (getenv_default env "SMTP_PORT" "587") = Some port ->
  exists (b : bool) (out : list string),
    send_email env n w = (inr b, {| db := db w; stdout := out |}).
Proof.
  intros Hp. unfold send_email, int_of_str. rewrite Hp, bind_ret.
  destruct (negb (Text.truthy_opt (getenv env "SMTP_HOST"))).
  - eexists _, _. reflexivity.
  - rewrite try_except_silent by silent_steps.
    match goal with
    | |- context [fst ?r] => destruct (fst r) as [e | b]
    end.
    + eexists _, _. reflexivity.
    + exists b, (stdout w). destruct w; reflexivity.
Qed.

(** With a readable port, [send_email] returns a boolean: it never
    raises. *)
Lemma send_email_returns (n : EmailNotification.t) (w : World) :
  Text.parse_int (getenv_default env "SMTP_PORT" "587") <> None ->
  exists b w', send_email env n w = (inr b, w').
Proof.
  intros Hp.
  destruct (Text.parse_int (getenv_default env "SMTP_PORT" "587"))
    as [port |] eqn:E; [| contradiction].
  destruct (send_email_run n w port E) as (b & out & R).
  eexists _, _. exact R.
Qed.

(** An unreadable [SMTP_PORT] makes [send_email] raise [ValueError], before
    the [try] block is entered. *)
Lemma send_email_bad_port (n : EmailNotification.t) (w : World) :
  Text.parse_int (getenv_default env "SMTP_PORT" "587") = None ->
  send_email env n w
  = (inl (ValueError (Text.int_error (getenv_default env "SMTP_PORT" "587"))),
     w).
Proof.
  intros Hp. unfold send_email, int_of_str. rewrite Hp. reflexivity.
Qed.

(** [send_email] leaves the store alone, whatever happens. *)
Lemma send_email_db (n : EmailNotification.t) (w : World) :
  db (snd (send_email env n w)) = db w.
Proof.
  destruct (Text.parse_int (getenv_default env "SMTP_PORT" "587"))
    as [port |] eqn:E.
  - destruct (send_email_run n w port E) as (b & out & ->). reflexivity.
  - rewrite (send_email_bad_port n w E). reflexivity.
Qed.

(** The only exception [send_email] lets through is the [ValueError] of
    an unreadable port. *)
Lemma send_email_raises (n : EmailNotification.t) (w : World) (e : exn) :
  fst (send_email env n w) = inl e -> exists m, e = ValueError m.
Proof.
  destruct (Text.parse_int (getenv_default env "SMTP_PORT" "587"))
    as [port |] eqn:E.
  - destruct (send_email_run n w port E) as (b & out & ->). discriminate.
  - rewrite (send_email_bad_port n w E). simpl. intros H.
    injection H as <-. eexists. reflexivity.
Qed.

(** With no SMTP host configured (and a readable port), the message is
    logged and success is reported. *)
Lemma send_email_unconfigured (n : EmailNotification.t) (w : World) :
  Text.truthy_opt (getenv env "SMTP_HOST") = false ->
  Text.parse_int (getenv_default env "SMTP_PORT" "587") <> None ->
  send_email env n w
  = (inr true,
     {| db := db w;
        stdout :=
          List.app (stdout w)
            ["[Email] To: " ++ EmailNotification.to n ++ " | Subject: " ++
             EmailNotification.subject n ++ nl ++ EmailNotification.body n]
     |}).
Proof.
  intros Hh Hp. unfold send_email, int_of_str.
  destruct (Text.parse_int _) as [port |]; [| contradiction].
  rewrite bind_ret, Hh. reflexivity.
Qed.

(** With a host configured (and a readable port), a failure at any step
    of the session, leaving the [with] block included, is caught, logged
    and reported as [False]. *)
Lemma send_email_transport_failure (n : EmailNotification.t) (w : World)
    (port : Z) :
  Text.truthy_opt (getenv env "SMTP_HOST") = true ->
  Text.parse_int (getenv_default env "SMTP_PORT" "587") = Some port ->
  Smtp.connect (smtp env) (Text.get (getenv env "SMTP_HOST")) port <> None \/
  Smtp.starttls (smtp env) <> None \/
  (Text.truthy_opt (getenv env "SMTP_USER") &&
   Text.truthy_opt (getenv env "SMTP_PASS") = true /\
   Smtp.login (smtp env) (Text.get (getenv env "SMTP_USER"))
     (Text.get (getenv env "SMTP_PASS")) <> None) \/
  (forall msg, Smtp.send_message (smtp env) msg <> None) \/
  Smtp.quit (smtp env) <> None ->
  exists e,
    send_email env n w
    = (inr false,
       {| db := db w;
          stdout := List.app (stdout w) ["Email error: " ++ str_exn e] |}).
Proof.
  intros Hh Hp F. unfold send_email, int_of_str.
  rewrite Hp, bind_ret, Hh. cbn [negb].
  rewrite try_except_silent by silent_steps.
  unfold bind, with_exit. rewrite !smtp_step_run.
  destruct (Smtp.connect _ _ _) as [e |] eqn:C;
    [eexists; reflexivity |].
  destruct (Smtp.starttls _) as [e |] eqn:T.
  { destruct (Smtp.quit _); eexists; reflexivity. }
  destruct (Text.truthy_opt (getenv env "SMTP_USER") &&
            Text.truthy_opt (getenv env "SMTP_PASS")) eqn:U.
  - rewrite smtp_step_run.
    destruct (Smtp.login _ _ _) as [e |] eqn:Lg.
    { destruct (Smtp.quit _); eexists; reflexivity. }
    destruct (Smtp.send_message _ _) as [e |] eqn:S.
    { destruct (Smtp.quit _); eexists; reflexivity. }
    destruct (Smtp.quit _) as [e |] eqn:Q; [eexists; reflexivity |].
    exfalso.
    destruct F as [F | [F | [[_ F] | [F | F]]]];
      first [congruence | eapply F; exact S].
  - unfold ret at 1.
    destruct (Smtp.send_message _ _) as [e |] eqn:S.
    { destruct (Smtp.quit _); eexists; reflexivity. }
    destruct (Smtp.quit _) as [e |] eqn:Q; [eexists; reflexivity |].
    exfalso.
    destruct F as [F | [F | [[F _] | [F | F]]]];
      first [congruence | eapply F; exact S].
Qed.

End Notification.


Section Intake.
Variable env : Runtime.

Lemma lookup_room_type_run (s : string) (w : World) :
  try_except (lookup_room_type s) (fun _ => ret None) w
  = (inr (referenced_room_type w s), w).
Proof.
  unfold try_except, lookup_room_type, bind, ObjectId, referenced_room_type.
  destruct (Bson.ObjectId s); reflexivity.
Qed.

Lemma Reservation_new_inr (r0 r : Reservation.t) :
  Reservation.new r0 = inr r ->
  r = r0 /\ Reservation.guests_ok r = true /\
  Reservation.total_price_ok r = true /\ Reservation.currency_ok r = true.
Proof.
  unfold Reservation.new, Reservation.errors.
  destruct (Reservation.guests_ok r0) eqn:G;
    destruct (Reservation.total_price_ok r0) eqn:T;
    destruct (Reservation.currency_ok r0) eqn:C; simpl;
    intros H; inversion H; subst; auto.
Qed.

Lemma Reservation_new_ok (r : Reservation.t) :
  Reservation.guests_ok r = true -> Reservation.total_price_ok r = true ->
  Reservation.currency_ok r = true -> Reservation.new r = inr r.
Proof.
  unfold Reservation.new, Reservation.errors. intros -> -> ->. reflexivity.
Qed.

Lemma Reservation_new_inl (r : Reservation.t) (e : exn) :
  Reservation.new r = inl e ->
  exists fs, e = ValidationError "Reservation" fs /\
    (Reservation.guests_ok r = false \/
     Reservation.total_price_ok r = false \/
     Reservation.currency_ok r = false).
Proof.
  unfold Reservation.new, Reservation.errors.
  destruct (Reservation.guests_ok r) eqn:G;
    destruct (Reservation.total_price_ok r) eqn:T;
    destruct (Reservation.currency_ok r) eqn:C; simpl;
    intros H; inversion H; subst; eauto.
Qed.

(** The notification step after the insert: build the notification,
    send it, answer [resp]. *)
Lemma notify_then_respond (n0 : EmailNotification.t)
    (resp : IntakeResponse.t) (w : World) :
  let step :=
    (notification <- lift (EmailNotification.new (validate_email env) n0) ;;
     send_email env notification ;;; ret resp) in
  db (snd (step w)) = db w /\
  (forall r, fst (step w) = inr r -> r = resp) /\
  (validate_email env (EmailNotification.to n0) <> None ->
   Text.parse_int (getenv_default env "SMTP_PORT" "587") <> None ->
   fst (step w) = inr resp) /\
  (forall e, fst (step w) = inl e -> notification_error e).
Proof.
  cbv zeta. unfold bind at 1, lift, EmailNotification.new.
  destruct (validate_email env (EmailNotification.to n0)) as [a |] eqn:E.
  - set (n1 := {| EmailNotification.to := a;
                  EmailNotification.subject := EmailNotification.subject n0;
                  EmailNotification.body := EmailNotification.body n0;
                  EmailNotification.sent_at := EmailNotification.sent_at n0 |}).
    unfold bind. pose proof (send_email_db env n1 w) as Hdb.
    pose proof (send_email_raises env n1 w) as Hr.
    destruct (send_email env n1 w) as [[e | b] w1] eqn:S; simpl in *.
    + split; [exact Hdb |]. split; [discriminate |]. split.
      * intros _ Hp.
        destruct (send_email_returns env n1 w Hp) as (b & w2 & S').
        congruence.
      * intros e' H. injection H as <-. right. apply Hr. reflexivity.
    + split; [exact Hdb |]. split; [| split].
      * intros r H. injection H as <-. reflexivity.
      * reflexivity.
      * discriminate.
  - simpl. split; [reflexivity |]. split; [discriminate |]. split.
    + intros H. contradiction.
    + intros e H. injection H as <-. left. reflexivity.
Qed.

Lemma create_reservation_not_found (p : CreateReservationRequest.t)
    (w : World) :
  referenced_room_type w (CreateReservationRequest.room_type_id p) = None ->
  create_reservation env p w = (inl NotFound, w).
Proof.
  intros H. unfold create_reservation, bind at 1.
  rewrite lookup_room_type_run, H. reflexivity.
Qed.

Lemma create_reservation_invalid_range (p : CreateReservationRequest.t)
    (w : World) (rt : RoomTypeDoc.t) :
  referenced_room_type w (CreateReservationRequest.room_type_id p) = Some rt ->
  PyDate.sub_days (CreateReservationRequest.check_out p)
    (CreateReservationRequest.check_in p) <= 0 ->
  create_reservation env p w = (inl InvalidRange, w).
Proof.
  intros H N. unfold create_reservation, bind at 1.
  rewrite lookup_room_type_run, H.
  destruct (Z.leb_spec (PyDate.sub_days (CreateReservationRequest.check_out p)
    (CreateReservationRequest.check_in p)) 0); [reflexivity | lia].
Qed.

Lemma create_reservation_rejected (p : CreateReservationRequest.t)
    (w : World) (rt : RoomTypeDoc.t) (e : exn) :
  referenced_room_type w (CreateReservationRequest.room_type_id p) = Some rt ->
  0 < PyDate.sub_days (CreateReservationRequest.check_out p)
        (CreateReservationRequest.check_in p) ->
  Reservation.new (direct_record env p rt) = inl e ->
  create_reservation env p w = (inl e, w).
Proof.
  intros H N V. unfold create_reservation, bind at 1.
  rewrite lookup_room_type_run, H.
  destruct (Z.leb_spec (PyDate.sub_days (CreateReservationRequest.check_out p)
    (CreateReservationRequest.check_in p)) 0); [lia |].
  unfold bind at 1, lift at 1. unfold direct_record in V. rewrite V. reflexivity.
Qed.

Lemma create_reservation_accepted (p : CreateReservationRequest.t)
    (w : World) (rt : RoomTypeDoc.t) :
  referenced_room_type w (CreateReservationRequest.room_type_id p) = Some rt ->
  0 < PyDate.sub_days (CreateReservationRequest.check_out p)
        (CreateReservationRequest.check_in p) ->
  Reservation.new (direct_record env p rt) = inr (direct_record env p rt) ->
  let resp :=
    {| IntakeResponse.id := Bson.str (next_oid (db w));
       IntakeResponse.confirmation_code :=
         generate_confirmation_code env "RES" |} in
  persists w (snd (create_reservation env p w))
    (ReservationDoc.mk (next_oid (db w)) (direct_record env p rt)) /\
  (forall r, fst (create_reservation env p w) = inr r -> r = resp) /\
  (notification_ready env (CreateReservationRequest.guest p) ->
   fst (create_reservation env p w) = inr resp) /\
  (forall e, fst (create_reservation env p w) = inl e ->
             notification_error e).
Proof.
  intros H N V. cbv zeta.
  destruct (create_reservation env p w) as [out w'] eqn:E.
  unfold create_reservation, bind at 1 in E.
  rewrite lookup_room_type_run, H in E.
  destruct (Z.leb_spec (PyDate.sub_days (CreateReservationRequest.check_out p)
    (CreateReservationRequest.check_in p)) 0); [lia |].
  unfold bind at 1, lift at 1 in E. unfold direct_record in V.
  rewrite V in E.
  unfold bind at 1, create_document_reservation at 1 in E. cbv zeta in E.
  match type of E with
  | bind (lift (EmailNotification.new _ ?n)) _ ?w1 = _ =>
      destruct (notify_then_respond n
        {| IntakeResponse.id := Bson.str (next_oid (db w));
           IntakeResponse.confirmation_code :=
             generate_confirmation_code env "RES" |} w1)
        as (D & R & S & X)
  end.
  cbv zeta in D, R, S, X. rewrite E in D, R, S, X. simpl in D, R, S, X.
  split; [| split; [| split]].
  - unfold persists. simpl. rewrite D. reflexivity.
  - exact R.
  - intros [Em P]. apply S; assumption.
  - exact X.
Qed.

Lemma ota_base_price_run (p : OTAWebhookPayload.t) (w : World) :
  try_except
    (rt <- lookup_room_type (OTAWebhookPayload.room_type_id p) ;;
     ret (match rt with
          | Some rt => base_price_of rt
          | None => PyFloat.zero
          end))
    (fun _ => ret PyFloat.zero) w
  = (inr (ota_base_price w p), w).
Proof.
  unfold try_except, lookup_room_type, bind, ObjectId, ota_base_price,
    referenced_room_type.
  destruct (Bson.ObjectId _); [| reflexivity].
  unfold ret, find_one_roomtype. destruct (find _ _); reflexivity.
Qed.

Lemma ota_webhook_invalid_range (p : OTAWebhookPayload.t) (w : World) :
  PyDate.sub_days (OTAWebhookPayload.check_out p)
    (OTAWebhookPayload.check_in p) <= 0 ->
  ota_webhook env p w = (inl InvalidRange, w).
Proof.
  intros N. unfold ota_webhook.
  destruct (Z.leb_spec (PyDate.sub_days (OTAWebhookPayload.check_out p)
    (OTAWebhookPayload.check_in p)) 0); [reflexivity | lia].
Qed.

Lemma ota_webhook_rejected (p : OTAWebhookPayload.t) (w : World) (e : exn) :
  0 < PyDate.sub_days (OTAWebhookPayload.check_out p)
        (OTAWebhookPayload.check_in p) ->
  Reservation.new (ota_record env p w) = inl e ->
  ota_webhook env p w = (inl e, w).
Proof.
  intros N V. unfold ota_webhook.
  destruct (Z.leb_spec (PyDate.sub_days (OTAWebhookPayload.check_out p)
    (OTAWebhookPayload.check_in p)) 0); [lia |].
  unfold bind at 1. rewrite ota_base_price_run.
  unfold bind at 1, lift at 1. unfold ota_record, ota_code in V.
  rewrite V. reflexivity.
Qed.

Lemma ota_webhook_accepted (p : OTAWebhookPayload.t) (w : World) :
  0 < PyDate.sub_days (OTAWebhookPayload.check_out p)
        (OTAWebhookPayload.check_in p) ->
  Reservation.new (ota_record env p w) = inr (ota_record env p w) ->
  let resp :=
    {| IntakeResponse.id := Bson.str (next_oid (db w));
       IntakeResponse.confirmation_code := ota_code env p |} in
  persists w (snd (ota_webhook env p w))
    (ReservationDoc.mk (next_oid (db w)) (ota_record env p w)) /\
  (forall r, fst (ota_webhook env p w) = inr r -> r = resp) /\
  (notification_ready env (OTAWebhookPayload.guest p) ->
   fst (ota_webhook env p w) = inr resp) /\
  (forall e, fst (ota_webhook env p w) = inl e -> notification_error e).
Proof.
  intros N V. cbv zeta.
  destruct (ota_webhook env p w) as [out w'] eqn:E.
  unfold ota_webhook in E.
  destruct (Z.leb_spec (PyDate.sub_days (OTAWebhookPayload.check_out p)
    (OTAWebhookPayload.check_in p)) 0); [lia |].
  unfold bind at 1 in E. rewrite ota_base_price_run in E.
  unfold bind at 1, lift at 1 in E. unfold ota_record, ota_code in V.
  rewrite V in E.
  unfold bind at 1, create_document_reservation at 1 in E. cbv zeta in E.
  match type of E with
  | bind (lift (EmailNotification.new _ ?n)) _ ?w1 = _ =>
      destruct (notify_then_respond n
        {| IntakeResponse.id := Bson.str (next_oid (db w));
           IntakeResponse.confirmation_code := ota_code env p |} w1)
        as (D & R & S & X)
  end.
  cbv zeta in D, R, S, X. unfold ota_code in D, R, S, X.
  rewrite E in D, R, S, X. simpl in D, R, S, X.
  split; [| split; [| split]].
  - unfold persists. simpl. rewrite D. reflexivity.
  - exact R.
  - intros [Em P]. apply S; assumption.
  - exact X.
Qed.
End Intake.

(** ** What a request persists *)

Lemma persists_inj (w w' : World) (d1 d2 : ReservationDoc.t) :
  persists w w' d1 -> persists w w' d2 -> d1 = d2.
Proof.
  unfold persists. intros H1 H2. rewrite H1 in H2.
  apply app_inv_head in H2. congruence.
Qed.

Lemma persists_changes (w w' : World) (d : ReservationDoc.t) :
  persists w w' d -> db w' <> db w.
Proof.
  unfold persists. intros H E. rewrite E in H.
  apply (f_equal (@List.length _)) in H. rewrite length_app in H.
  simpl in H. lia.
Qed.

Lemma referenced_room_type_none (w : World) (s : string) :
  (forall d, In d (roomtype (db w)) ->
             Some (RoomTypeDoc._id d) <> Bson.ObjectId s) ->
  referenced_room_type w s = None.
Proof.
  intros H. unfold referenced_room_type.
  destruct (Bson.ObjectId s) as [i |] eqn:E; [| reflexivity].
  destruct (find _ _) as [d |] eqn:F; [| reflexivity].
  apply find_some in F. destruct F as [Hin Heq].
  apply N.eqb_eq in Heq. exfalso. apply (H d Hin). congruence.
Qed.

Lemma nights_positive (check_in check_out : date) :
  PyDate.date_ok check_in -> PyDate.date_ok check_out ->
  PyDate.lt check_in check_out ->
  0 < PyDate.sub_days check_out check_in < 2 ^ 53.
Proof.
  intros Hi Ho L. unfold PyDate.sub_days.
  pose proof (DateFacts.toordinal_lt _ _ Hi Ho L).
  pose proof (DateFacts.toordinal_bounds _ Hi).
  pose proof (DateFacts.toordinal_bounds _ Ho).
  assert (2 ^ 22 <= 2 ^ 53) by (apply Z.pow_le_mono_r; lia).
  change (2 ^ 22) with 4194304 in *. lia.
Qed.

Lemma nights_nonpositive (check_in check_out : date) :
  PyDate.date_ok check_in -> PyDate.date_ok check_out ->
  PyDate.le check_out check_in ->
  PyDate.sub_days check_out check_in <= 0.
Proof.
  intros Hi Ho L. unfold PyDate.sub_days.
  apply (DateFacts.toordinal_le_iff _ _ Ho Hi) in L. lia.
Qed.

Section Inversion.
Variable env : Runtime.

(** Whatever [create_reservation] persists is the record it built, after
    the lookup, the date check and the schema accepted it. *)
Lemma create_reservation_persists_inv (p : CreateReservationRequest.t)
    (w : World) (d : ReservationDoc.t) :
  persists w (snd (create_reservation env p w)) d ->
  exists rt,
    referenced_room_type w (CreateReservationRequest.room_type_id p) = Some rt /\
    0 < PyDate.sub_days (CreateReservationRequest.check_out p)
          (CreateReservationRequest.check_in p) /\
    Reservation.new (direct_record env p rt) = inr (direct_record env p rt) /\
    d = ReservationDoc.mk (next_oid (db w)) (direct_record env p rt).
Proof.
  intros P.
  destruct (referenced_room_type w (CreateReservationRequest.room_type_id p))
    as [rt |] eqn:R.
  2:{ rewrite (create_reservation_not_found env p w R) in P.
      exfalso. exact (persists_changes _ _ _ P eq_refl). }
  destruct (Z_le_gt_dec
              (PyDate.sub_days (CreateReservationRequest.check_out p)
                 (CreateReservationRequest.check_in p)) 0) as [N | N].
  { rewrite (create_reservation_invalid_range env p w rt R N) in P.
    exfalso. exact (persists_changes _ _ _ P eq_refl). }
  destruct (Reservation.new (direct_record env p rt)) as [e | r] eqn:V.
  { rewrite (create_reservation_rejected env p w rt e R ltac:(lia) V) in P.
    exfalso. exact (persists_changes _ _ _ P eq_refl). }
  destruct (Reservation_new_inr _ _ V) as (-> & _).
  destruct (create_reservation_accepted env p w rt R ltac:(lia) V)
    as (P0 & _).
  exists rt. repeat split; auto; try lia.
  exact (persists_inj _ _ _ _ P P0).
Qed.

Lemma ota_webhook_persists_inv (p : OTAWebhookPayload.t)
    (w : World) (d : ReservationDoc.t) :
  persists w (snd (ota_webhook env p w)) d ->
  0 < PyDate.sub_days (OTAWebhookPayload.check_out p)
        (OTAWebhookPayload.check_in p) /\
  Reservation.new (ota_record env p w) = inr (ota_record env p w) /\
  d = ReservationDoc.mk (next_oid (db w)) (ota_record env p w).
Proof.
  intros P.
  destruct (Z_le_gt_dec
              (PyDate.sub_days (OTAWebhookPayload.check_out p)
                 (OTAWebhookPayload.check_in p)) 0) as [N | N].
  { rewrite (ota_webhook_invalid_range env p w N) in P.
    exfalso. exact (persists_changes _ _ _ P eq_refl). }
  destruct (Reservation.new (ota_record env p w)) as [e | r] eqn:V.
  { rewrite (ota_webhook_rejected env p w e ltac:(lia) V) in P.
    exfalso. exact (persists_changes _ _ _ P eq_refl). }
  destruct (Reservation_new_inr _ _ V) as (-> & _).
  destruct (ota_webhook_accepted env p w ltac:(lia) V) as (P0 & _).
  repeat split; auto; try lia.
  exact (persists_inj _ _ _ _ P P0).
Qed.

End Inversion.

(** ** Schema and text facts *)

Lemma currency_ok_len (r : Reservation.t) :
  Reservation.currency_ok r = true <-> Text.len (Reservation.currency r) = 3.
Proof.
  unfold Reservation.currency_ok. rewrite andb_true_iff, !Z.leb_le. lia.
Qed.

Lemma negative_not_ge_zero (t : float) :
  PyFloat.ltb t PyFloat.zero = true -> PyFloat.leb PyFloat.zero t = false.
Proof.
  destruct t as [s | [|] | | [|] m e]; simpl; intros H;
    try discriminate H; reflexivity.
Qed.

Lemma Reservation_new_bad_price (r : Reservation.t) :
  Reservation.total_price_ok r = false ->
  exists fs, Reservation.new r = inl (ValidationError "Reservation" fs).
Proof.
  intros H. unfold Reservation.new, Reservation.errors. rewrite H.
  destruct (Reservation.guests_ok r); simpl; eexists; reflexivity.
Qed.

Lemma accepted_within_bounds (r : Reservation.t) :
  Reservation.new r = inr r ->
  PyFloat.leb PyFloat.zero (Reservation.total_price r) = true /\
  1 <= Reservation.guests r /\
  String.length (Reservation.currency r) = 3%nat.
Proof.
  intros V. destruct (Reservation_new_inr _ _ V) as (_ & G & T & C).
  split; [exact T | split].
  - apply Z.leb_le. exact G.
  - apply currency_ok_len in C. unfold Text.len in C. lia.
Qed.

Lemma fold_left_append_map {A B : Type} (f : A -> B) (l : list A)
    (acc : list B) :
  fold_left (fun items x => (items ++ [f x])%list) l acc
  = (acc ++ map f l)%list.
Proof.
  revert acc. induction l as [| x l IH]; intros acc; simpl.
  - now rewrite app_nil_r.
  - rewrite IH, <- app_assoc. reflexivity.
Qed.


(** ** Text facts *)

Lemma length_append (s t : string) :
  String.length (s ++ t) = (String.length s + String.length t)%nat.
Proof. induction s as [| c s IH]; simpl; [reflexivity | now rewrite IH]. Qed.

Lemma zfill_length (k : nat) (n : Z) : String.length (Text.zfill k n) = k.
Proof.
  revert n. induction k as [| k IH]; intros n; simpl; [reflexivity |].
  rewrite length_append, IH. simpl. lia.
Qed.

Lemma hex_fill_length (k : nat) (n : N) :
  String.length (Bson.hex_fill k n) = k.
Proof.
  revert n. induction k as [| k IH]; intros n; simpl; [reflexivity |].
  rewrite length_append, IH. simpl. lia.
Qed.

Lemma str_oid_length (i : oid) : String.length (Bson.str i) = 24%nat.
Proof. apply hex_fill_length. Qed.

Lemma str_oid_nonempty (i : oid) : Bson.str i <> EmptyString.
Proof.
  intros E. pose proof (str_oid_length i) as L. rewrite E in L.
  discriminate L.
Qed.

Lemma strftime_compact_length (t : datetime) :
  String.length (PyDate.strftime_compact t) = 14%nat.
Proof.
  unfold PyDate.strftime_compact.
  rewrite !length_append, !zfill_length. reflexivity.
Qed.

Section Responses.
Variable env : Runtime.

(** A successful direct booking passed every check. *)
Lemma create_reservation_returns_inv (p : CreateReservationRequest.t)
    (w w' : World) (resp : IntakeResponse.t) :
  create_reservation env p w = (inr resp, w') ->
  exists rt,
    referenced_room_type w (CreateReservationRequest.room_type_id p) = Some rt /\
    0 < PyDate.sub_days (CreateReservationRequest.check_out p)
          (CreateReservationRequest.check_in p) /\
    persists w w' (ReservationDoc.mk (next_oid (db w)) (direct_record env p rt)) /\
    resp = {| IntakeResponse.id := Bson.str (next_oid (db w));
              IntakeResponse.confirmation_code :=
                generate_confirmation_code env "RES" |}.
Proof.
  intros E.
  destruct (referenced_room_type w (CreateReservationRequest.room_type_id p))
    as [rt |] eqn:R.
  2:{ rewrite (create_reservation_not_found env p w R) in E. discriminate. }
  destruct (Z_le_gt_dec
              (PyDate.sub_days (CreateReservationRequest.check_out p)
                 (CreateReservationRequest.check_in p)) 0) as [N | N].
  { rewrite (create_reservation_invalid_range env p w rt R N) in E.
    discriminate. }
  destruct (Reservation.new (direct_record env p rt)) as [e | r] eqn:V.
  { rewrite (create_reservation_rejected env p w rt e R ltac:(lia) V) in E.
    discriminate. }
  destruct (Reservation_new_inr _ _ V) as (-> & _).
  destruct (create_reservation_accepted env p w rt R ltac:(lia) V)
    as (P & Rsp & _ & _).
  rewrite E in P, Rsp. simpl in P, Rsp.
  exists rt. repeat split; auto; try lia.
Qed.

Lemma ota_webhook_returns_inv (p : OTAWebhookPayload.t)
    (w w' : World) (resp : IntakeResponse.t) :
  ota_webhook env p w = (inr resp, w') ->
  0 < PyDate.sub_days (OTAWebhookPayload.check_out p)
        (OTAWebhookPayload.check_in p) /\
  persists w w' (ReservationDoc.mk (next_oid (db w)) (ota_record env p w)) /\
  resp = {| IntakeResponse.id := Bson.str (next_oid (db w));
            IntakeResponse.confirmation_code := ota_code env p |}.
Proof.
  intros E.
  destruct (Z_le_gt_dec
              (PyDate.sub_days (OTAWebhookPayload.check_out p)
                 (OTAWebhookPayload.check_in p)) 0) as [N | N].
  { rewrite (ota_webhook_invalid_range env p w N) in E. discriminate. }
  destruct (Reservation.new (ota_record env p w)) as [e | r] eqn:V.
  { rewrite (ota_webhook_rejected env p w e ltac:(lia) V) in E.
    discriminate. }
  destruct (Reservation_new_inr _ _ V) as (-> & _).
  destruct (ota_webhook_accepted env p w ltac:(lia) V) as (P & Rsp & _ & _).
  rewrite E in P, Rsp. simpl in P, Rsp.
  repeat split; auto; try lia.
Qed.

(** The exceptions of the direct channel. *)
Lemma create_reservation_errors (p : CreateReservationRequest.t) (w : World)
    (e : exn) :
  fst (create_reservation env p w) = inl e ->
  e = NotFound \/ e = InvalidRange \/
  (exists fs, e = ValidationError "Reservation" fs) \/ notification_error e.
Proof.
  intros E.
  destruct (referenced_room_type w (CreateReservationRequest.room_type_id p))
    as [rt |] eqn:R.
  2:{ rewrite (create_reservation_not_found env p w R) in E.
      injection E as <-. auto. }
  destruct (Z_le_gt_dec
              (PyDate.sub_days (CreateReservationRequest.check_out p)
                 (CreateReservationRequest.check_in p)) 0) as [N | N].
  { rewrite (create_reservation_invalid_range env p w rt R N) in E.
    injection E as <-. auto. }
  destruct (Reservation.new (direct_record env p rt)) as [e' | r] eqn:V.
  { rewrite (create_reservation_rejected env p w rt e' R ltac:(lia) V) in E.
    injection E as <-.
    destruct (Reservation_new_inl _ _ V) as (fs & -> & _). eauto. }
  destruct (Reservation_new_inr _ _ V) as (-> & _).
  destruct (create_reservation_accepted env p w rt R ltac:(lia) V)
    as (_ & _ & _ & X).
  auto.
Qed.



End Responses.


(** ** Dispatch, on the sample data *)

(** A transport failure does not fail the booking: the server refuses the
    connection, [send_email] logs the error, the response is returned and
    the reservation stays. *)
Example booking_survives_transport_failure :
  let out :=
    create_reservation Sample.env_mail_down Sample.booking Sample.store in
  fst out
  = inr {| IntakeResponse.id := "000000000000000000000004";
           IntakeResponse.confirmation_code := "RES-20240305070809" |} /\
  List.length (reservation (db (snd out))) = 1%nat /\
  stdout (snd out) = ["Email error: connection refused"].
Proof. repeat split. Qed.


(** ** The claims *)



(** C2, as stated, fails on the direct channel: a booking whose dates are
    reversed and whose room type is unknown is answered NotFound (404), not
    InvalidRange (400), because the lookup comes first. *)
Lemma invalid_range_direct_counterexample :
  PyDate.le (CreateReservationRequest.check_out Sample.booking_unknown_reversed)
    (CreateReservationRequest.check_in Sample.booking_unknown_reversed) /\
  create_reservation Sample.env Sample.booking_unknown_reversed Sample.store
  = (inl (HTTPException 404 "Room type not found"), Sample.store) /\
  HTTPException 404 "Room type not found" <> InvalidRange.
Proof.
  split; [| split].
  - left. unfold PyDate.lt. simpl. lia.
  - reflexivity.
  - discriminate.
Qed.

(** C2, amended. Where check_out <= check_in: every OTA webhook request, and
    every direct booking request whose room type exists, is rejected with
    InvalidRange (HTTP 400) and the world is left as it was; a direct
    booking request on any room type is rejected with InvalidRange or
    NotFound and persists nothing. A direct booking request whose room type
    does not exist is rejected with NotFound (HTTP 404), whatever its
    dates, and the world is left as it was. *)
Theorem invalid_range_rejected (env : Runtime) (w : World) :
  (forall p : OTAWebhookPayload.t,
     PyDate.date_ok (OTAWebhookPayload.check_in p) ->
     PyDate.date_ok (OTAWebhookPayload.check_out p) ->
     PyDate.le (OTAWebhookPayload.check_out p) (OTAWebhookPayload.check_in p) ->
     ota_webhook env p w = (inl InvalidRange, w)) /\
  (forall (p : CreateReservationRequest.t) (rt : RoomTypeDoc.t),
     referenced_room_type w (CreateReservationRequest.room_type_id p)
     = Some rt ->
     PyDate.date_ok (CreateReservationRequest.check_in p) ->
     PyDate.date_ok (CreateReservationRequest.check_out p) ->
     PyDate.le (CreateReservationRequest.check_out p)
       (CreateReservationRequest.check_in p) ->
     create_reservation env p w = (inl InvalidRange, w)) /\
  (forall p : CreateReservationRequest.t,
     PyDate.date_ok (CreateReservationRequest.check_in p) ->
     PyDate.date_ok (CreateReservationRequest.check_out p) ->
     PyDate.le (CreateReservationRequest.check_out p)
       (CreateReservationRequest.check_in p) ->
     snd (create_reservation env p w) = w /\
     (fst (create_reservation env p w) = inl InvalidRange \/
      fst (create_reservation env p w) = inl NotFound)) /\
  (forall p : CreateReservationRequest.t,
     referenced_room_type w (CreateReservationRequest.room_type_id p) = None ->
     create_reservation env p w = (inl NotFound, w)).
Proof.
  split; [| split; [| split]].
  4:{ intros p R. exact (create_reservation_not_found env p w R). }
  - intros p Hi Ho L. apply ota_webhook_invalid_range.
    apply nights_nonpositive; assumption.
  - intros p rt R Hi Ho L.
    apply (create_reservation_invalid_range env p w rt R).
    apply nights_nonpositive; assumption.
  - intros p Hi Ho L.
    destruct (referenced_room_type w (CreateReservationRequest.room_type_id p))
      as [rt |] eqn:R.
    + rewrite (create_reservation_invalid_range env p w rt R
                 (nights_nonpositive _ _ Hi Ho L)).
      split; [reflexivity | left; reflexivity].
    + rewrite (create_reservation_not_found env p w R).
      split; [reflexivity | right; reflexivity].
Qed.

Lemma invalid_range_rejected_witness :
  ota_webhook Sample.env Sample.push_reversed Sample.store
  = (inl InvalidRange, Sample.store).
Proof.
  apply (proj1 (invalid_range_rejected Sample.env Sample.store)).
  - unfold PyDate.date_ok; simpl; lia.
  - unfold PyDate.date_ok; simpl; lia.
  - left. unfold PyDate.lt. simpl. lia.
Defined.

(** C3. For every direct booking request whose room_type_id identifies no
    stored room type, whether the identifier is malformed (no stored
    identifier is the ObjectId of it) or well formed and unknown, the
    request is rejected with NotFound (HTTP 404) and the world is left as
    it was: no reservation is persisted. *)
Theorem direct_unknown_room_type (env : Runtime)
    (p : CreateReservationRequest.t) (w : World) :
  (forall d, In d (roomtype (db w)) ->
     Some (RoomTypeDoc._id d)
     <> Bson.ObjectId (CreateReservationRequest.room_type_id p)) ->
  create_reservation env p w = (inl NotFound, w) /\
  NotFound = HTTPException 404 "Room type not found".
Proof.
  intros H. split; [| reflexivity].
  apply create_reservation_not_found, referenced_room_type_none, H.
Qed.

Lemma direct_unknown_room_type_witness :
  create_reservation Sample.env Sample.booking_malformed_id Sample.store
  = (inl NotFound, Sample.store).
Proof.
  apply (direct_unknown_room_type Sample.env Sample.booking_malformed_id
           Sample.store).
  intros d _. vm_compute. discriminate.
Defined.



(** With the room type missing and no total_price, the reservation is
    created, priced 0.0. *)
Example ota_unknown_room_priced_zero :
  map (fun d => Reservation.total_price (ReservationDoc.fields d))
    (reservation
       (db (snd (ota_webhook Sample.env Sample.push_unknown Sample.store))))
  = [PyFloat.zero].
Proof. reflexivity. Qed.

(** C5, as stated, fails when the caller supplies the empty string as
    confirmation_code: it is not used verbatim, a code is generated. *)
Lemma ota_empty_code_counterexample :
  OTAWebhookPayload.confirmation_code Sample.push_empty_code
  = Some EmptyString /\
  fst (ota_webhook Sample.env Sample.push_empty_code Sample.store)
  = inr {| IntakeResponse.id := "000000000000000000000004";
           IntakeResponse.confirmation_code := "OTA-20240305070809" |} /\
  map (fun d => Reservation.confirmation_code (ReservationDoc.fields d))
    (reservation
       (db (snd (ota_webhook Sample.env Sample.push_empty_code Sample.store))))
  = [Some "OTA-20240305070809"].
Proof. repeat split. Qed.

(** C5, amended. For every OTA webhook request: a non-empty
    confirmation_code supplied by the caller is the code of the persisted
    reservation and of the response, verbatim; when none is supplied, or the
    empty string is, the code is "OTA-" followed by the UTC timestamp, so it
    is prefixed "OTA-" and not "RES-". With valid dates and a record the
    schema accepts, the reservation is persisted, and the response is
    returned when the notification step can complete. *)
Theorem ota_confirmation_code (env : Runtime) (p : OTAWebhookPayload.t)
    (w : World) :
  let out := ota_webhook env p w in
  let uses (code : string) :=
    (forall d, persists w (snd out) d ->
       Reservation.confirmation_code (ReservationDoc.fields d) = Some code) /\
    (forall resp, fst out = inr resp ->
       IntakeResponse.confirmation_code resp = code) in
  (forall c, OTAWebhookPayload.confirmation_code p = Some c ->
     c <> EmptyString -> uses c) /\
  (OTAWebhookPayload.confirmation_code p = None \/
   OTAWebhookPayload.confirmation_code p = Some EmptyString ->
   let code := "OTA-" ++ PyDate.strftime_compact (utcnow env) in
   uses code /\ Text.startswith "OTA-" code = true /\
   Text.startswith "RES-" code = false) /\
  (PyDate.date_ok (OTAWebhookPayload.check_in p) ->
   PyDate.date_ok (OTAWebhookPayload.check_out p) ->
   PyDate.lt (OTAWebhookPayload.check_in p) (OTAWebhookPayload.check_out p) ->
   Reservation.new (ota_record env p w) = inr (ota_record env p w) ->
   (exists d, persists w (snd out) d) /\
   (notification_ready env (OTAWebhookPayload.guest p) ->
    exists resp, fst out = inr resp)).
Proof.
  cbv zeta.
  assert (forall code, ota_code env p = code ->
    (forall d, persists w (snd (ota_webhook env p w)) d ->
       Reservation.confirmation_code (ReservationDoc.fields d) = Some code) /\
    (forall resp, fst (ota_webhook env p w) = inr resp ->
       IntakeResponse.confirmation_code resp = code)) as U.
  { intros code <-. split.
    - intros d P.
      destruct (ota_webhook_persists_inv env p w d P) as (_ & _ & ->).
      reflexivity.
    - intros resp E.
      destruct (ota_webhook env p w) as [o w'] eqn:O. simpl in E. subst o.
      destruct (ota_webhook_returns_inv env p w w' resp O) as (_ & _ & ->).
      reflexivity. }
  split; [| split].
  - intros c Hc Hne. apply U. unfold ota_code. rewrite Hc.
    destruct c; [contradiction | reflexivity].
  - intros Hc. split; [| split; reflexivity].
    apply U. unfold ota_code. destruct Hc as [-> | ->]; reflexivity.
  - intros Hi Ho L V.
    pose proof (nights_positive _ _ Hi Ho L) as N.
    destruct (ota_webhook_accepted env p w ltac:(lia) V) as (P & _ & S & _).
    split; [eexists; exact P | intros Rd; eexists; exact (S Rd)].
Qed.

Lemma ota_confirmation_code_witness :
  exists resp,
    fst (ota_webhook Sample.env Sample.push_450 Sample.store) = inr resp /\
    IntakeResponse.confirmation_code resp = "BK-77".
Proof.
  destruct (ota_confirmation_code Sample.env Sample.push_450 Sample.store)
    as (S & _ & _).
  destruct (S "BK-77" eq_refl ltac:(discriminate)) as (_ & R).
  exists {| IntakeResponse.id := "000000000000000000000004";
            IntakeResponse.confirmation_code := "BK-77" |}.
  split; [reflexivity | apply R; reflexivity].
Defined.

(** C6. Every reservation persisted by a direct booking request has
    currency "USD", channel "direct" and status "confirmed", whatever the
    request, the store and the environment are. *)
Theorem direct_fixed_fields (env : Runtime) (p : CreateReservationRequest.t)
    (w : World) (d : ReservationDoc.t) :
  persists w (snd (create_reservation env p w)) d ->
  Reservation.currency (ReservationDoc.fields d) = "USD" /\
  Reservation.channel (ReservationDoc.fields d) = "direct" /\
  Reservation.status (ReservationDoc.fields d) = "confirmed".
Proof.
  intros P.
  destruct (create_reservation_persists_inv env p w d P)
    as (rt & _ & _ & _ & ->).
  repeat split.
Qed.

Lemma direct_fixed_fields_witness :
  exists d,
    persists Sample.store
      (snd (create_reservation Sample.env Sample.booking Sample.store)) d /\
    Reservation.currency (ReservationDoc.fields d) = "USD" /\
    Reservation.channel (ReservationDoc.fields d) = "direct" /\
    Reservation.status (ReservationDoc.fields d) = "confirmed".
Proof.
  eexists. split.
  - unfold persists. vm_compute. reflexivity.
  - apply (direct_fixed_fields Sample.env Sample.booking Sample.store).
    unfold persists. vm_compute. reflexivity.
Defined.

(** C7. For every successful direct booking, the response carries a
    non-empty reservation identifier (the 24 hexadecimal digits of the
    identifier the store gave the persisted reservation) and a confirmation
    code equal to "RES-" followed by the UTC time formatted YYYYMMDDHHMMSS,
    so prefixed "RES-" and 18 characters long; a successful booking is one
    whose room type exists and whose check_out is after check_in; and a
    booking with an existing room type, check_out after check_in and a
    record the schema accepts does succeed when the notification step can
    complete. *)
Theorem direct_response (env : Runtime) (p : CreateReservationRequest.t)
    (w : World) :
  (forall resp w', create_reservation env p w = (inr resp, w') ->
     IntakeResponse.id resp <> EmptyString /\
     IntakeResponse.confirmation_code resp
     = "RES-" ++ PyDate.strftime_compact (utcnow env) /\
     Text.startswith "RES-" (IntakeResponse.confirmation_code resp) = true /\
     String.length (IntakeResponse.confirmation_code resp) = 18%nat /\
     (exists d, persists w w' d /\
                IntakeResponse.id resp = Bson.str (ReservationDoc._id d)) /\
     (exists rt,
        referenced_room_type w (CreateReservationRequest.room_type_id p)
        = Some rt) /\
     0 < PyDate.sub_days (CreateReservationRequest.check_out p)
           (CreateReservationRequest.check_in p)) /\
  (forall rt,
     referenced_room_type w (CreateReservationRequest.room_type_id p)
     = Some rt ->
     PyDate.date_ok (CreateReservationRequest.check_in p) ->
     PyDate.date_ok (CreateReservationRequest.check_out p) ->
     PyDate.lt (CreateReservationRequest.check_in p)
       (CreateReservationRequest.check_out p) ->
     1 <= CreateReservationRequest.guests p ->
     PyFloat.leb PyFloat.zero (base_price_of rt) = true ->
     notification_ready env (CreateReservationRequest.guest p) ->
     exists resp, fst (create_reservation env p w) = inr resp).
Proof.
  split.
  - intros resp w' E.
    destruct (create_reservation_returns_inv env p w w' resp E)
      as (rt & R & N & P & ->).
    cbn [IntakeResponse.id IntakeResponse.confirmation_code].
    split; [apply str_oid_nonempty |].
    split; [reflexivity |].
    split; [reflexivity |].
    split; [| split; [| split]].
    + unfold generate_confirmation_code.
      rewrite !length_append, strftime_compact_length. reflexivity.
    + eexists. split; [exact P | reflexivity].
    + exists rt. exact R.
    + exact N.
  - intros rt R Hi Ho L G B Rd.
    pose proof (nights_positive _ _ Hi Ho L) as N.
    assert (Reservation.new (direct_record env p rt)
            = inr (direct_record env p rt)) as V.
    { apply Reservation_new_ok.
      + apply Z.leb_le. exact G.
      + apply FloatFacts.mul_of_int_nonneg; assumption.
      + reflexivity. }
    destruct (create_reservation_accepted env p w rt R ltac:(lia) V)
      as (_ & _ & S & _).
    eexists. exact (S Rd).
Qed.

Lemma direct_response_witness :
  exists resp,
    fst (create_reservation Sample.env Sample.booking Sample.store) = inr resp /\
    IntakeResponse.id resp <> EmptyString /\
    IntakeResponse.confirmation_code resp = "RES-20240305070809".
Proof.
  destruct (direct_response Sample.env Sample.booking Sample.store)
    as (Resp & Succ).
  assert (PyDate.date_ok Sample.jan_1) as H1
    by (unfold PyDate.date_ok; simpl; lia).
  assert (PyDate.date_ok Sample.jan_4) as H4
    by (unfold PyDate.date_ok; simpl; lia).
  assert (PyDate.lt Sample.jan_1 Sample.jan_4) as L
    by (unfold PyDate.lt; simpl; lia).
  destruct (Succ _ eq_refl H1 H4 L ltac:(simpl; lia) eq_refl
              ltac:(split; discriminate))
    as (resp & E).
  exists resp. split; [exact E |].
  destruct (create_reservation Sample.env Sample.booking Sample.store)
    as [o w'] eqn:O.
  simpl in E. subst o.
  destruct (Resp resp w' eq_refl) as (I & C & _).
  split; [exact I | rewrite C; reflexivity].
Defined.

(** C8. For every availability search, the result lists exactly the stored
    room types whose property_id is the requested one, in store order: one
    item per such room type, carrying its identifier, name, description and
    max_guests, available = true, and as nightly_price the base price its
    document stores (0.0 when the document has none). So every stored room
    type of the property is listed at its stored price. The requested
    check_in, check_out and guest count have no effect: the same store and
    property_id give the same result for any dates and guests. The world is
    left as it was. *)
Theorem search_availability_lists_property (payload : AvailabilitySearch.t)
    (w : World) :
  let requested := AvailabilitySearch.property_id payload in
  let matching :=
    filter (fun rt => String.eqb (RoomTypeDoc.property_id rt) requested)
      (roomtype (db w)) in
  let listed (rt : RoomTypeDoc.t) (it : AvailabilityResultItem.t) :=
    AvailabilityResultItem.room_type_id it = Bson.str (RoomTypeDoc._id rt) /\
    AvailabilityResultItem.name it = RoomTypeDoc.name rt /\
    AvailabilityResultItem.description it = RoomTypeDoc.description rt /\
    AvailabilityResultItem.max_guests it = RoomTypeDoc.max_guests rt /\
    AvailabilityResultItem.available it = true /\
    AvailabilityResultItem.nightly_price it
    = match RoomTypeDoc.base_price rt with
      | Some b => b
      | None => PyFloat.of_int 0
      end in
  exists items,
    search_availability payload w
    = (inr {| AvailabilityResult.items := items |}, w) /\
    Forall2 listed matching items /\
    (forall rt, In rt matching <->
       In rt (roomtype (db w)) /\ RoomTypeDoc.property_id rt = requested) /\
    (forall rt b,
       In rt (roomtype (db w)) -> RoomTypeDoc.property_id rt = requested ->
       RoomTypeDoc.base_price rt = Some b ->
       exists it, In it items /\ listed rt it /\
                  AvailabilityResultItem.nightly_price it = b) /\
    (forall check_in check_out guests,
       search_availability
         (AvailabilitySearch.mk requested check_in check_out guests) w
       = search_availability payload w).
Proof.
  cbv zeta.
  assert (forall q, search_availability q w
    = (inr {| AvailabilityResult.items :=
                map availability_item
                  (filter (fun rt => String.eqb (RoomTypeDoc.property_id rt)
                                       (AvailabilitySearch.property_id q))
                     (roomtype (db w))) |}, w)) as E.
  { intros q. unfold search_availability, bind, get_documents_roomtype, ret.
    rewrite fold_left_append_map. reflexivity. }
  assert (forall rt,
    AvailabilityResultItem.room_type_id (availability_item rt)
    = Bson.str (RoomTypeDoc._id rt) /\
    AvailabilityResultItem.name (availability_item rt) = RoomTypeDoc.name rt /\
    AvailabilityResultItem.description (availability_item rt)
    = RoomTypeDoc.description rt /\
    AvailabilityResultItem.max_guests (availability_item rt)
    = RoomTypeDoc.max_guests rt /\
    AvailabilityResultItem.available (availability_item rt) = true /\
    AvailabilityResultItem.nightly_price (availability_item rt)
    = match RoomTypeDoc.base_price rt with
      | Some b => b
      | None => PyFloat.of_int 0
      end) as Item.
  { intros rt. repeat split. }
  assert (forall rt, In rt (filter (fun rt => String.eqb (RoomTypeDoc.property_id rt)
                                       (AvailabilitySearch.property_id payload))
                     (roomtype (db w))) <->
       In rt (roomtype (db w)) /\
       RoomTypeDoc.property_id rt = AvailabilitySearch.property_id payload) as F.
  { intros rt. rewrite filter_In, String.eqb_eq. reflexivity. }
  eexists. split; [apply E |]. split; [| split; [exact F | split]].
  - generalize (filter (fun rt => String.eqb (RoomTypeDoc.property_id rt)
                          (AvailabilitySearch.property_id payload))
                  (roomtype (db w))).
    clear F. intros l. induction l as [| rt l IH]; simpl;
      constructor; [exact (Item rt) | exact IH].
  - intros rt b Hin Hp Hb. exists (availability_item rt).
    split; [apply in_map, F; auto |]. split; [exact (Item rt) |].
    cbn. unfold base_price_of. rewrite Hb. reflexivity.
  - intros ci co g. rewrite !E. reflexivity.
Qed.

(** The example of the specification: property P has the room types R, at
    100 a night, and S, at 250; the search lists both at these prices. *)
Lemma search_availability_lists_property_witness :
  exists r,
    search_availability Sample.search Sample.store = (inr r, Sample.store) /\
    (exists it, In it (AvailabilityResult.items r) /\
       AvailabilityResultItem.name it = "R" /\
       AvailabilityResultItem.available it = true /\
       AvailabilityResultItem.nightly_price it = PyFloat.of_int 100) /\
    (exists it, In it (AvailabilityResult.items r) /\
       AvailabilityResultItem.name it = "S" /\
       AvailabilityResultItem.available it = true /\
       AvailabilityResultItem.nightly_price it = PyFloat.of_int 250).
Proof.
  destruct (search_availability_lists_property Sample.search Sample.store)
    as (items & E & _ & _ & Listed & _).
  exists {| AvailabilityResult.items := items |}. split; [exact E |]. split.
  - destruct (Listed
                (RoomTypeDoc.mk 1%N "P" "R" None 2 (Some (PyFloat.of_int 100)))
                (PyFloat.of_int 100)
                ltac:(simpl; auto) eq_refl eq_refl)
      as (it & I & (_ & Nm & _ & _ & A & _) & Pr).
    exists it. repeat split; assumption.
  - destruct (Listed
                (RoomTypeDoc.mk 2%N "P" "S" (Some "Suite") 4
                   (Some (PyFloat.of_int 250)))
                (PyFloat.of_int 250)
                ltac:(simpl; auto) eq_refl eq_refl)
      as (it & I & (_ & Nm & _ & _ & A & _) & Pr).
    exists it. repeat split; assumption.
Defined.

(** The example of the specification: property P has two room types, both
    are returned, each available. *)
Example search_availability_two_room_types :
  match fst (search_availability Sample.search Sample.store) with
  | inr r =>
      map (fun it => (AvailabilityResultItem.name it,
                      AvailabilityResultItem.available it,
                      AvailabilityResultItem.nightly_price it))
        (AvailabilityResult.items r)
  | inl _ => []
  end
  = [("R", true, PyFloat.of_int 100); ("S", true, PyFloat.of_int 250)].
Proof. reflexivity. Qed.


(** C9 fails at an unreadable SMTP_PORT. With SMTP_PORT=abc a direct
    booking that passes every check persists its reservation, then
    [send_email] raises ValueError out of [int(...)], which stands before
    the [try] block: the exception reaches the intake path and the request
    fails, while the reservation stays persisted. *)
Theorem notification_bad_port_fails_request :
  let out :=
    create_reservation Sample.env_bad_port Sample.booking Sample.store in
  fst out
  = inl (ValueError "invalid literal for int() with base 10: 'abc'") /\
  map (fun d => Reservation.confirmation_code (ReservationDoc.fields d))
    (reservation (db (snd out)))
  = [Some "RES-20240305070809"] /\
  fst (create_reservation Sample.env Sample.booking Sample.store)
  = inr {| IntakeResponse.id := "000000000000000000000004";
           IntakeResponse.confirmation_code := "RES-20240305070809" |}.
Proof. repeat split. Qed.

(** C10. Every reservation persisted by a direct booking or by an OTA
    webhook request has total_price >= 0, guests >= 1 and a currency of
    exactly 3 characters, because only a record the Reservation schema
    accepted is inserted; consequently an OTA webhook request that supplies
    a negative total_price is answered with an error and leaves the world
    as it was: no reservation is persisted. *)
Theorem persisted_reservation_bounds (env : Runtime) (w : World) :
  let within_bounds (r : Reservation.t) :=
    PyFloat.leb PyFloat.zero (Reservation.total_price r) = true /\
    1 <= Reservation.guests r /\
    String.length (Reservation.currency r) = 3%nat in
  (forall p d, persists w (snd (create_reservation env p w)) d ->
     within_bounds (ReservationDoc.fields d)) /\
  (forall p d, persists w (snd (ota_webhook env p w)) d ->
     within_bounds (ReservationDoc.fields d)) /\
  (forall p t, OTAWebhookPayload.total_price p = Some t ->
     PyFloat.ltb t PyFloat.zero = true ->
     snd (ota_webhook env p w) = w /\
     exists e, fst (ota_webhook env p w) = inl e).
Proof.
  cbv zeta. split; [| split].
  - intros p d P.
    destruct (create_reservation_persists_inv env p w d P)
      as (rt & _ & _ & V & ->).
    exact (accepted_within_bounds _ V).
  - intros p d P.
    destruct (ota_webhook_persists_inv env p w d P) as (_ & V & ->).
    exact (accepted_within_bounds _ V).
  - intros p t Ht Hneg.
    destruct (Z_le_gt_dec
                (PyDate.sub_days (OTAWebhookPayload.check_out p)
                   (OTAWebhookPayload.check_in p)) 0) as [N | N].
    + rewrite (ota_webhook_invalid_range env p w N).
      split; [reflexivity | eexists; reflexivity].
    + destruct (Reservation_new_bad_price (ota_record env p w)) as (fs & V).
      { unfold Reservation.total_price_ok. simpl. rewrite Ht.
        apply negative_not_ge_zero, Hneg. }
      rewrite (ota_webhook_rejected env p w _ ltac:(lia) V).
      split; [reflexivity | eexists; reflexivity].
Qed.

(** A webhook push with total_price = -5 is refused by the schema and the
    store is unchanged. *)
Lemma persisted_reservation_bounds_witness :
  snd (ota_webhook Sample.env Sample.push_negative Sample.store) = Sample.store /\
  exists e,
    fst (ota_webhook Sample.env Sample.push_negative Sample.store) = inl e.
Proof.
  apply (proj2 (proj2 (persisted_reservation_bounds Sample.env Sample.store))
           Sample.push_negative (PyFloat.of_int (-5))); reflexivity.
Defined.

Example negative_override_validation_error :
  fst (ota_webhook Sample.env Sample.push_negative Sample.store)
  = inl (ValidationError "Reservation" ["total_price"]).
Proof. reflexivity. Qed.

(* ================================================================== *)
(** * Further properties of the handlers *)
(* ================================================================== *)

(** ** The handlers past the insert *)

Ltac silent_body :=
  repeat first
    [ apply silent_ret | apply silent_smtp_step | apply silent_with_exit
    | apply silent_bind; [| intros ?]
    | match goal with |- silent (if ?c then _ else _) => destruct c end ].

Section Runs.
Variable env : Runtime.

(** A direct booking that passed the lookup, the date check and the schema
    is the insert followed by the notification step. *)
Lemma create_reservation_run (p : CreateReservationRequest.t) (w : World)
    (rt : RoomTypeDoc.t) :
  referenced_room_type w (CreateReservationRequest.room_type_id p) = Some rt ->
  0 < PyDate.sub_days (CreateReservationRequest.check_out p)
        (CreateReservationRequest.check_in p) ->
  Reservation.new (direct_record env p rt) = inr (direct_record env p rt) ->
  create_reservation env p w
  = (notification <-
       lift (EmailNotification.new (validate_email env)
               (direct_notification env p rt)) ;;
     send_email env notification ;;;
     ret {| IntakeResponse.id := Bson.str (next_oid (db w));
            IntakeResponse.confirmation_code :=
              generate_confirmation_code env "RES" |})
      (snd (create_document_reservation (direct_record env p rt) w)).
Proof.
  intros H N V. unfold create_reservation, bind at 1.
  rewrite lookup_room_type_run, H.
  destruct (Z.leb_spec (PyDate.sub_days (CreateReservationRequest.check_out p)
    (CreateReservationRequest.check_in p)) 0); [lia |].
  unfold bind at 1, lift at 1. unfold direct_record in V. rewrite V.
  reflexivity.
Qed.

Lemma ota_webhook_run (p : OTAWebhookPayload.t) (w : World) :
  0 < PyDate.sub_days (OTAWebhookPayload.check_out p)
        (OTAWebhookPayload.check_in p) ->
  Reservation.new (ota_record env p w) = inr (ota_record env p w) ->
  ota_webhook env p w
  = (notification <-
       lift (EmailNotification.new (validate_email env)
               (ota_notification env p w)) ;;
     send_email env notification ;;;
     ret {| IntakeResponse.id := Bson.str (next_oid (db w));
            IntakeResponse.confirmation_code := ota_code env p |})
      (snd (create_document_reservation (ota_record env p w) w)).
Proof.
  intros N V. unfold ota_webhook.
  destruct (Z.leb_spec (PyDate.sub_days (OTAWebhookPayload.check_out p)
    (OTAWebhookPayload.check_in p)) 0); [lia |].
  unfold bind at 1. rewrite ota_base_price_run.
  unfold bind at 1, lift at 1. unfold ota_record, ota_code in V.
  rewrite V. reflexivity.
Qed.

(** [send_email] only ever appends to standard output, one line at most. *)
Lemma send_email_stdout (n : EmailNotification.t) (w : World) :
  exists lines,
    stdout (snd (send_email env n w)) = List.app (stdout w) lines /\
    (List.length lines <= 1)%nat.
Proof.
  unfold send_email, int_of_str.
  destruct (Text.parse_int _) as [port |].
  2:{ exists []. rewrite app_nil_r. split; [reflexivity | simpl; lia]. }
  rewrite bind_ret.
  destruct (negb (Text.truthy_opt (getenv env "SMTP_HOST"))).
  - eexists [_]. split; [reflexivity | simpl; lia].
  - rewrite try_except_silent by silent_body.
    match goal with
    | |- context [fst ?r] => destruct (fst r) as [e | b]
    end.
    + eexists [_]. split; [reflexivity | simpl; lia].
    + exists []. rewrite app_nil_r. split; [reflexivity | simpl; lia].
Qed.

End Runs.

Section Effects.
Variable env : Runtime.

(** The notification step leaves the store alone and appends at most one
    line to standard output. *)
Lemma notify_step_effects (n0 : EmailNotification.t)
    (resp : IntakeResponse.t) (w : World) :
  let w' :=
    snd ((notification <-
            lift (EmailNotification.new (validate_email env) n0) ;;
          send_email env notification ;;; ret resp) w) in
  db w' = db w /\
  exists lines,
    stdout w' = List.app (stdout w) lines /\ (List.length lines <= 1)%nat.
Proof.
  cbv zeta. unfold bind at 1, lift, EmailNotification.new.
  destruct (validate_email env (EmailNotification.to n0)) as [a |].
  - set (n1 := {| EmailNotification.to := a;
                  EmailNotification.subject := EmailNotification.subject n0;
                  EmailNotification.body := EmailNotification.body n0;
                  EmailNotification.sent_at := EmailNotification.sent_at n0 |}).
    unfold bind. pose proof (send_email_db env n1 w) as Hdb.
    pose proof (send_email_stdout env n1 w) as Hout.
    destruct (send_email env n1 w) as [[e | b] w1]; simpl in *; auto.
  - simpl. split; [reflexivity |]. exists []. rewrite app_nil_r.
    split; [reflexivity | simpl; lia].
Qed.

(** What a direct booking does to the world, in each of its outcomes. *)
Lemma create_reservation_effects (p : CreateReservationRequest.t)
    (w : World) :
  let w' := snd (create_reservation env p w) in
  (w' = w \/
   exists rt,
     referenced_room_type w (CreateReservationRequest.room_type_id p)
     = Some rt /\
     db w' = db (snd (create_document_reservation (direct_record env p rt) w))
     /\
     exists lines, stdout w' = List.app (stdout w) lines /\
                   (List.length lines <= 1)%nat).
Proof.
  cbv zeta.
  destruct (referenced_room_type w (CreateReservationRequest.room_type_id p))
    as [rt |] eqn:R.
  2:{ rewrite (create_reservation_not_found env p w R). left. reflexivity. }
  destruct (Z_le_gt_dec
              (PyDate.sub_days (CreateReservationRequest.check_out p)
                 (CreateReservationRequest.check_in p)) 0) as [N | N].
  { rewrite (create_reservation_invalid_range env p w rt R N).
    left. reflexivity. }
  destruct (Reservation.new (direct_record env p rt)) as [e | r] eqn:V.
  { rewrite (create_reservation_rejected env p w rt e R ltac:(lia) V).
    left. reflexivity. }
  destruct (Reservation_new_inr _ _ V) as (-> & _).
  rewrite (create_reservation_run env p w rt R ltac:(lia) V).
  right. exists rt. split; [reflexivity |].
  match goal with
  | |- context [bind (lift (EmailNotification.new _ ?n)) (fun _ => bind _ (fun _ => ret ?r)) ?w1] =>
      destruct (notify_step_effects n r w1) as (D & lines & O & L)
  end.
  cbv zeta in D, O. split; [exact D |].
  exists lines. split; [rewrite O; reflexivity | exact L].
Qed.

Lemma ota_webhook_effects (p : OTAWebhookPayload.t) (w : World) :
  let w' := snd (ota_webhook env p w) in
  (w' = w \/
   (db w' = db (snd (create_document_reservation (ota_record env p w) w)) /\
    exists lines, stdout w' = List.app (stdout w) lines /\
                  (List.length lines <= 1)%nat)).
Proof.
  cbv zeta.
  destruct (Z_le_gt_dec
              (PyDate.sub_days (OTAWebhookPayload.check_out p)
                 (OTAWebhookPayload.check_in p)) 0) as [N | N].
  { rewrite (ota_webhook_invalid_range env p w N). left. reflexivity. }
  destruct (Reservation.new (ota_record env p w)) as [e | r] eqn:V.
  { rewrite (ota_webhook_rejected env p w e ltac:(lia) V).
    left. reflexivity. }
  destruct (Reservation_new_inr _ _ V) as (-> & _).
  rewrite (ota_webhook_run env p w ltac:(lia) V).
  right.
  match goal with
  | |- context [bind (lift (EmailNotification.new _ ?n)) (fun _ => bind _ (fun _ => ret ?r)) ?w1] =>
      destruct (notify_step_effects n r w1) as (D & lines & O & L)
  end.
  cbv zeta in D, O. split; [exact D |].
  exists lines. split; [rewrite O; reflexivity | exact L].
Qed.

End Effects.

(** X3. Neither intake handler ever alters or removes a stored document: the
    room types are left as they are, the reservations grow by one document
    at most, at the end, and standard output grows by one line at most. *)
Theorem intake_keeps_stored_documents (env : Runtime) (w : World) :
  let keeps (w' : World) :=
    roomtype (db w') = roomtype (db w) /\
    (exists added, reservation (db w') = List.app (reservation (db w)) added /\
                   (List.length added <= 1)%nat) /\
    (exists lines, stdout w' = List.app (stdout w) lines /\
                   (List.length lines <= 1)%nat) in
  (forall p, keeps (snd (create_reservation env p w))) /\
  (forall p, keeps (snd (ota_webhook env p w))).
Proof.
  cbv zeta.
  assert (forall w', w' = w ->
    roomtype (db w') = roomtype (db w) /\
    (exists added, reservation (db w') = List.app (reservation (db w)) added /\
                   (List.length added <= 1)%nat) /\
    (exists lines, stdout w' = List.app (stdout w) lines /\
                   (List.length lines <= 1)%nat)) as Same.
  { intros w' ->. split; [reflexivity |].
    split; exists []; rewrite app_nil_r; split; auto; simpl; lia. }
  split; intros p.
  - destruct (create_reservation_effects env p w)
      as [E | (rt & _ & D & lines & O & L)]; [exact (Same _ E) |].
    rewrite D. simpl. split; [reflexivity |]. split.
    + eexists [_]. split; [reflexivity | simpl; lia].
    + exists lines. auto.
  - destruct (ota_webhook_effects env p w) as [E | (D & lines & O & L)];
      [exact (Same _ E) |].
    rewrite D. simpl. split; [reflexivity |]. split.
    + eexists [_]. split; [reflexivity | simpl; lia].
    + exists lines. auto.
Qed.

(** X1. An exception of a direct booking is either raised before the insert
    (NotFound, InvalidRange, or the Reservation schema's ValidationError),
    and then the world is exactly as it was, or raised by the notification
    step after the insert, and then the reservation is persisted although
    the request failed. *)
Theorem direct_failure_effects (env : Runtime)
    (p : CreateReservationRequest.t) (w : World) (e : exn) :
  fst (create_reservation env p w) = inl e ->
  ((e = NotFound \/ e = InvalidRange \/
    exists fs, e = ValidationError "Reservation" fs) /\
   snd (create_reservation env p w) = w) \/
  (notification_error e /\
   exists d, persists w (snd (create_reservation env p w)) d).
Proof.
  intros E.
  destruct (referenced_room_type w (CreateReservationRequest.room_type_id p))
    as [rt |] eqn:R.
  2:{ rewrite (create_reservation_not_found env p w R) in *.
      injection E as <-. left. auto. }
  destruct (Z_le_gt_dec
              (PyDate.sub_days (CreateReservationRequest.check_out p)
                 (CreateReservationRequest.check_in p)) 0) as [N | N].
  { rewrite (create_reservation_invalid_range env p w rt R N) in *.
    injection E as <-. left. auto. }
  destruct (Reservation.new (direct_record env p rt)) as [e' | r] eqn:V.
  { rewrite (create_reservation_rejected env p w rt e' R ltac:(lia) V) in *.
    injection E as <-.
    destruct (Reservation_new_inl _ _ V) as (fs & -> & _). left. eauto. }
  destruct (Reservation_new_inr _ _ V) as (-> & _).
  destruct (create_reservation_accepted env p w rt R ltac:(lia) V)
    as (P & _ & _ & X).
  right. split; [exact (X e E) | eexists; exact P].
Qed.

Lemma direct_failure_effects_witness :
  notification_error
    (ValueError "invalid literal for int() with base 10: 'abc'") /\
  exists d,
    persists Sample.store
      (snd (create_reservation Sample.env_bad_port Sample.booking
              Sample.store)) d.
Proof.
  destruct (direct_failure_effects Sample.env_bad_port Sample.booking
              Sample.store
              (ValueError "invalid literal for int() with base 10: 'abc'")
              eq_refl) as [[[H | [H | [fs H]]] _] | H];
    [discriminate H | discriminate H | discriminate H | exact H].
Defined.

(** X2. The same on the webhook channel, which has no NotFound. *)
Theorem ota_failure_effects (env : Runtime) (p : OTAWebhookPayload.t)
    (w : World) (e : exn) :
  fst (ota_webhook env p w) = inl e ->
  ((e = InvalidRange \/ exists fs, e = ValidationError "Reservation" fs) /\
   snd (ota_webhook env p w) = w) \/
  (notification_error e /\
   exists d, persists w (snd (ota_webhook env p w)) d).
Proof.
  intros E.
  destruct (Z_le_gt_dec
              (PyDate.sub_days (OTAWebhookPayload.check_out p)
                 (OTAWebhookPayload.check_in p)) 0) as [N | N].
  { rewrite (ota_webhook_invalid_range env p w N) in *.
    injection E as <-. left. auto. }
  destruct (Reservation.new (ota_record env p w)) as [e' | r] eqn:V.
  { rewrite (ota_webhook_rejected env p w e' ltac:(lia) V) in *.
    injection E as <-.
    destruct (Reservation_new_inl _ _ V) as (fs & -> & _). left. eauto. }
  destruct (Reservation_new_inr _ _ V) as (-> & _).
  destruct (ota_webhook_accepted env p w ltac:(lia) V) as (P & _ & _ & X).
  right. split; [exact (X e E) | eexists; exact P].
Qed.

Lemma ota_failure_effects_witness :
  snd (ota_webhook Sample.env Sample.push_negative Sample.store)
  = Sample.store.
Proof.
  destruct (ota_failure_effects Sample.env Sample.push_negative Sample.store
              (ValidationError "Reservation" ["total_price"]) eq_refl)
    as [[_ H] | [[H | [m H]] _]];
    [exact H | discriminate H | discriminate H].
Defined.

(** X4. The request model of the direct channel puts no bound on [guests]; the
    Reservation schema does. A direct booking with guests < 1, for an
    existing room type with a base price that is not negative and check_out
    after check_in, raises the schema's ValidationError on the field
    [guests] alone and persists nothing. *)
Theorem direct_rejects_guests_below_one (env : Runtime)
    (p : CreateReservationRequest.t) (w : World) (rt : RoomTypeDoc.t) :
  referenced_room_type w (CreateReservationRequest.room_type_id p) = Some rt ->
  PyDate.date_ok (CreateReservationRequest.check_in p) ->
  PyDate.date_ok (CreateReservationRequest.check_out p) ->
  PyDate.lt (CreateReservationRequest.check_in p)
    (CreateReservationRequest.check_out p) ->
  PyFloat.leb PyFloat.zero (base_price_of rt) = true ->
  CreateReservationRequest.guests p < 1 ->
  create_reservation env p w
  = (inl (ValidationError "Reservation" ["guests"]), w).
Proof.
  intros R Hi Ho L B G.
  pose proof (nights_positive _ _ Hi Ho L) as N.
  apply (create_reservation_rejected env p w rt _ R ltac:(lia)).
  unfold Reservation.new, Reservation.errors.
  replace (Reservation.guests_ok (direct_record env p rt)) with false.
  2:{ symmetry. apply Z.leb_gt. exact G. }
  replace (Reservation.total_price_ok (direct_record env p rt)) with true.
  2:{ symmetry. apply FloatFacts.mul_of_int_nonneg; assumption. }
  reflexivity.
Qed.

Lemma direct_rejects_guests_below_one_witness :
  create_reservation Sample.env Sample2.booking_no_guests Sample.store
  = (inl (ValidationError "Reservation" ["guests"]), Sample.store).
Proof.
  apply (direct_rejects_guests_below_one Sample.env Sample2.booking_no_guests
           Sample.store
           (RoomTypeDoc.mk 1%N "P" "R" None 2 (Some (PyFloat.of_int 100)))).
  - reflexivity.
  - unfold PyDate.date_ok; simpl; lia.
  - unfold PyDate.date_ok; simpl; lia.
  - unfold PyDate.lt; simpl; lia.
  - reflexivity.
  - simpl; lia.
Defined.

(** X5. A direct booking consults the room type for its base price only: with
    the room type found, check_out after check_in, guests >= 1 and a base
    price that is not negative, the reservation is persisted with the
    request's guests, property_id, room_type_id, dates, guest, and
    special_requests verbatim, whatever [max_guests] and [property_id] the
    room type has. *)
Theorem direct_no_capacity_or_property_check (env : Runtime)
    (p : CreateReservationRequest.t) (w : World) (rt : RoomTypeDoc.t) :
  referenced_room_type w (CreateReservationRequest.room_type_id p) = Some rt ->
  PyDate.date_ok (CreateReservationRequest.check_in p) ->
  PyDate.date_ok (CreateReservationRequest.check_out p) ->
  PyDate.lt (CreateReservationRequest.check_in p)
    (CreateReservationRequest.check_out p) ->
  PyFloat.leb PyFloat.zero (base_price_of rt) = true ->
  1 <= CreateReservationRequest.guests p ->
  exists d,
    persists w (snd (create_reservation env p w)) d /\
    Reservation.guests (ReservationDoc.fields d)
    = CreateReservationRequest.guests p /\
    Reservation.property_id (ReservationDoc.fields d)
    = CreateReservationRequest.property_id p /\
    Reservation.room_type_id (ReservationDoc.fields d)
    = CreateReservationRequest.room_type_id p /\
    Reservation.check_in (ReservationDoc.fields d)
    = CreateReservationRequest.check_in p /\
    Reservation.check_out (ReservationDoc.fields d)
    = CreateReservationRequest.check_out p /\
    Reservation.guest (ReservationDoc.fields d)
    = CreateReservationRequest.guest p /\
    Reservation.special_requests (ReservationDoc.fields d)
    = CreateReservationRequest.special_requests p.
Proof.
  intros R Hi Ho L B G.
  pose proof (nights_positive _ _ Hi Ho L) as N.
  assert (Reservation.new (direct_record env p rt)
          = inr (direct_record env p rt)) as V.
  { apply Reservation_new_ok.
    + apply Z.leb_le. exact G.
    + apply FloatFacts.mul_of_int_nonneg; assumption.
    + reflexivity. }
  destruct (create_reservation_accepted env p w rt R ltac:(lia) V) as (P & _).
  eexists. split; [exact P |]. repeat split.
Qed.

(** Ten guests in a room type for two, under a property that is not the
    room type's: persisted. *)
Lemma direct_no_capacity_or_property_check_witness :
  exists d,
    persists Sample.store
      (snd (create_reservation Sample.env Sample2.booking_crowd
              Sample.store)) d /\
    Reservation.guests (ReservationDoc.fields d) = 10 /\
    Reservation.property_id (ReservationDoc.fields d) = "Z".
Proof.
  destruct (direct_no_capacity_or_property_check Sample.env
              Sample2.booking_crowd Sample.store
              (RoomTypeDoc.mk 1%N "P" "R" None 2 (Some (PyFloat.of_int 100)))
              eq_refl
              ltac:(unfold PyDate.date_ok; simpl; lia)
              ltac:(unfold PyDate.date_ok; simpl; lia)
              ltac:(unfold PyDate.lt; simpl; lia)
              eq_refl ltac:(simpl; lia))
    as (d & P & G & Pr & _).
  exists d. split; [exact P | split; [exact G | exact Pr]].
Defined.

(** ** Identifiers: reading back what [str] wrote *)

Lemma parse_hex_app (s t : string) (acc : N) :
  Bson.parse_hex (s ++ t) acc
  = match Bson.parse_hex s acc with
    | Some a => Bson.parse_hex t a
    | None => None
    end.
Proof.
  revert acc. induction s as [| c s IH]; intros acc; simpl;
    [reflexivity |].
  destruct (Bson.hex_value c); [apply IH | reflexivity].
Qed.

Lemma hex_value_digit (n : N) :
  Bson.hex_value (Bson.hex_digit n) = Some (n mod 16)%N.
Proof.
  unfold Bson.hex_digit.
  assert (n mod 16 < 16)%N as B by (apply N.mod_upper_bound; discriminate).
  destruct (n mod 16)%N as [| d]; [reflexivity |].
  do 4 (destruct d as [d | d |]; try reflexivity; try (exfalso; lia)).
Qed.

Lemma parse_hex_fill (k : nat) (n acc : N) :
  Bson.parse_hex (Bson.hex_fill k n) acc
  = Some (acc * 16 ^ N.of_nat k + n mod 16 ^ N.of_nat k)%N.
Proof.
  revert n acc. induction k as [| k IH]; intros n acc.
  - simpl. rewrite N.mod_1_r. f_equal. lia.
  - cbn [Bson.hex_fill]. rewrite parse_hex_app, IH. cbn [Bson.parse_hex].
    rewrite hex_value_digit. f_equal.
    rewrite Nat2N.inj_succ, N.pow_succ_r'.
    rewrite (N.Div0.mod_mul_r n 16 (16 ^ N.of_nat k)). lia.
Qed.

(** [ObjectId(str(i)) = i] for a 12-byte identifier. *)
Lemma ObjectId_str (i : oid) :
  (i < 2 ^ 96)%N -> Bson.ObjectId (Bson.str i) = Some i.
Proof.
  intros B. unfold Bson.ObjectId. rewrite str_oid_length. cbn [Nat.eqb].
  unfold Bson.str. rewrite parse_hex_fill.
  change (16 ^ N.of_nat 24)%N with (2 ^ 96)%N.
  rewrite N.mod_small by exact B. rewrite N.mul_0_l. reflexivity.
Qed.

Lemma str_oid_inj (i j : oid) :
  (i < 2 ^ 96)%N -> (j < 2 ^ 96)%N -> Bson.str i = Bson.str j -> i = j.
Proof.
  intros Bi Bj E. pose proof (ObjectId_str i Bi) as Hi.
  rewrite E, (ObjectId_str j Bj) in Hi. congruence.
Qed.

(** ** Creating a room type, then booking it *)

Lemma referenced_room_type_same_collection (w w' : World) (s : string) :
  roomtype (db w') = roomtype (db w) ->
  referenced_room_type w' s = referenced_room_type w s.
Proof. intros E. unfold referenced_room_type. rewrite E. reflexivity. Qed.

Lemma find_fresh_last (l : list RoomTypeDoc.t) (x : RoomTypeDoc.t) :
  (forall d, In d l -> (RoomTypeDoc._id d < RoomTypeDoc._id x)%N) ->
  find (fun d => N.eqb (RoomTypeDoc._id d) (RoomTypeDoc._id x))
    (l ++ [x])%list
  = Some x.
Proof.
  induction l as [| y l IH]; intros H; simpl.
  - rewrite N.eqb_refl. reflexivity.
  - destruct (N.eqb_spec (RoomTypeDoc._id y) (RoomTypeDoc._id x)) as [E | _].
    + pose proof (H y (or_introl eq_refl)). lia.
    + apply IH. intros d Hd. apply H. right. exact Hd.
Qed.

(** X9. A room type created through [create_room_type] is found under the
    identifier the handler returned, with the fields it was created with,
    and can be booked at once: a direct booking that names that identifier,
    with check_out after check_in, guests >= 1 and a base price that is not
    negative, persists a reservation priced base_price * nights. The store
    is one whose identifiers all came from its counter, below 2^96. *)
Theorem created_room_type_is_bookable (env : Runtime) (payload : RoomType.t)
    (p : CreateReservationRequest.t) (w : World) :
  fresh_ids w -> (next_oid (db w) < 2 ^ 96)%N ->
  let created := create_room_type payload w in
  let stored :=
    RoomTypeDoc.mk (next_oid (db w)) (RoomType.property_id payload)
      (RoomType.name payload) (RoomType.description payload)
      (RoomType.max_guests payload) (Some (RoomType.base_price payload)) in
  exists id,
    fst created = inr id /\
    referenced_room_type (snd created) id = Some stored /\
    (CreateReservationRequest.room_type_id p = id ->
     PyDate.date_ok (CreateReservationRequest.check_in p) ->
     PyDate.date_ok (CreateReservationRequest.check_out p) ->
     PyDate.lt (CreateReservationRequest.check_in p)
       (CreateReservationRequest.check_out p) ->
     1 <= CreateReservationRequest.guests p ->
     PyFloat.leb PyFloat.zero (RoomType.base_price payload) = true ->
     exists d,
       persists (snd created)
         (snd (create_reservation env p (snd created))) d /\
       Reservation.total_price (ReservationDoc.fields d)
       = PyFloat.mul (RoomType.base_price payload)
           (PyFloat.of_int
              (PyDate.sub_days (CreateReservationRequest.check_out p)
                 (CreateReservationRequest.check_in p)))).
Proof.
  intros [Fr _] B created stored.
  assert (referenced_room_type (snd created) (Bson.str (next_oid (db w)))
          = Some stored) as R.
  { unfold referenced_room_type. rewrite (ObjectId_str _ B).
    subst created stored. cbn.
    apply (find_fresh_last (roomtype (db w))
             (RoomTypeDoc.mk (next_oid (db w)) (RoomType.property_id payload)
                (RoomType.name payload) (RoomType.description payload)
                (RoomType.max_guests payload)
                (Some (RoomType.base_price payload)))).
    exact Fr. }
  exists (Bson.str (next_oid (db w))).
  split; [reflexivity | split; [exact R |]].
  intros Hid Hi Ho L G Bp. rewrite <- Hid in R.
  pose proof (nights_positive _ _ Hi Ho L) as N.
  assert (Reservation.new (direct_record env p stored)
          = inr (direct_record env p stored)) as V.
  { apply Reservation_new_ok.
    + apply Z.leb_le. exact G.
    + apply FloatFacts.mul_of_int_nonneg; assumption.
    + reflexivity. }
  destruct (create_reservation_accepted env p (snd created) stored R
              ltac:(lia) V) as (P & _).
  eexists. split; [exact P | reflexivity].
Qed.

Lemma created_room_type_is_bookable_witness :
  exists id,
    fst (create_room_type Sample2.room_U Sample.store) = inr id /\
    exists rt,
      referenced_room_type
        (snd (create_room_type Sample2.room_U Sample.store)) id = Some rt /\
      RoomTypeDoc.name rt = "U".
Proof.
  destruct (created_room_type_is_bookable Sample.env Sample2.room_U
              Sample.booking Sample.store) as (id & E & R & _).
  - split; intros d H; simpl in H;
      repeat (destruct H as [<- | H]; [reflexivity |]); contradiction.
  - reflexivity.
  - exists id. split; [exact E |]. eexists. split; [exact R | reflexivity].
Defined.

(** ** The Reservation schema *)

Lemma Reservation_errors_spec (r : Reservation.t) :
  (In "guests" (Reservation.errors r) <-> Reservation.guests_ok r = false) /\
  (In "total_price" (Reservation.errors r) <->
   Reservation.total_price_ok r = false) /\
  (In "currency" (Reservation.errors r) <->
   Reservation.currency_ok r = false).
Proof.
  unfold Reservation.errors.
  destruct (Reservation.guests_ok r), (Reservation.total_price_ok r),
    (Reservation.currency_ok r); simpl;
    repeat split; intros H; try reflexivity; try discriminate H; auto;
    repeat (destruct H as [H | H]; try discriminate H); contradiction.
Qed.

Lemma Reservation_new_inl_errors (r : Reservation.t) (e : exn) :
  Reservation.new r = inl e ->
  e = ValidationError "Reservation" (Reservation.errors r).
Proof.
  unfold Reservation.new. destruct (Reservation.errors r);
    intros H; inversion H; reflexivity.
Qed.

(** ** The webhook's record *)

(** X7. What the webhook persists besides price and code: the request's
    property_id, room_type_id, dates, guests, guest and channel verbatim,
    status "confirmed", no special_requests, and the request's currency, or
    "USD" when the request has none or an empty one. *)
Theorem ota_persisted_fields (env : Runtime) (p : OTAWebhookPayload.t)
    (w : World) (d : ReservationDoc.t) :
  persists w (snd (ota_webhook env p w)) d ->
  let r := ReservationDoc.fields d in
  Reservation.property_id r = OTAWebhookPayload.property_id p /\
  Reservation.room_type_id r = OTAWebhookPayload.room_type_id p /\
  Reservation.check_in r = OTAWebhookPayload.check_in p /\
  Reservation.check_out r = OTAWebhookPayload.check_out p /\
  Reservation.guests r = OTAWebhookPayload.guests p /\
  Reservation.guest r = OTAWebhookPayload.guest p /\
  Reservation.channel r = OTAWebhookPayload.channel p /\
  Reservation.status r = "confirmed" /\
  Reservation.special_requests r = None /\
  Reservation.currency r
  = match OTAWebhookPayload.currency p with
    | Some (String c s) => String c s
    | _ => "USD"
    end.
Proof.
  intros P. destruct (ota_webhook_persists_inv env p w d P) as (_ & _ & ->).
  cbn. repeat split.
  destruct (OTAWebhookPayload.currency p) as [[| c s] |]; reflexivity.
Qed.

Lemma ota_persisted_fields_witness :
  exists d,
    persists Sample.store
      (snd (ota_webhook Sample.env Sample2.push_no_currency Sample.store)) d /\
    Reservation.currency (ReservationDoc.fields d) = "USD" /\
    Reservation.channel (ReservationDoc.fields d) = "airbnb".
Proof.
  eexists. split.
  - unfold persists. vm_compute. reflexivity.
  - destruct (ota_persisted_fields Sample.env Sample2.push_no_currency
                Sample.store _ ltac:(unfold persists; vm_compute; reflexivity))
      as (_ & _ & _ & _ & _ & _ & Ch & _ & _ & Cu).
    split; [exact Cu | exact Ch].
Defined.

(** X8. A webhook request with check_out after check_in whose currency is
    supplied, not empty and not three characters long is refused by the
    Reservation schema on the field [currency], and nothing is persisted. *)
Theorem ota_rejects_currency_length (env : Runtime)
    (p : OTAWebhookPayload.t) (w : World) (c : string) :
  0 < PyDate.sub_days (OTAWebhookPayload.check_out p)
        (OTAWebhookPayload.check_in p) ->
  OTAWebhookPayload.currency p = Some c -> c <> EmptyString ->
  String.length c <> 3%nat ->
  exists fs,
    ota_webhook env p w = (inl (ValidationError "Reservation" fs), w) /\
    In "currency" fs.
Proof.
  intros N Hc Hne Hl.
  assert (Reservation.currency (ota_record env p w) = c) as Cur.
  { cbn. rewrite Hc. destruct c; [contradiction | reflexivity]. }
  assert (Reservation.currency_ok (ota_record env p w) = false) as Bad.
  { apply not_true_iff_false. rewrite currency_ok_len, Cur.
    unfold Text.len. lia. }
  destruct (Reservation.new (ota_record env p w)) as [e | r] eqn:V.
  - pose proof (Reservation_new_inl_errors _ _ V) as ->.
    eexists. split; [exact (ota_webhook_rejected env p w _ N V) |].
    apply (Reservation_errors_spec (ota_record env p w)), Bad.
  - destruct (Reservation_new_inr _ _ V) as (-> & _ & _ & Ok). congruence.
Qed.

Lemma ota_rejects_currency_length_witness :
  exists fs,
    ota_webhook Sample.env Sample2.push_four_letters Sample.store
    = (inl (ValidationError "Reservation" fs), Sample.store) /\
    In "currency" fs.
Proof.
  apply (ota_rejects_currency_length Sample.env Sample2.push_four_letters
           Sample.store "EURO").
  - vm_compute. reflexivity.
  - reflexivity.
  - discriminate.
  - simpl. lia.
Defined.

(** ** Delivery *)

(** The outcome of [send_email] with a host configured, by the outcome of
    the session. *)
Lemma send_email_session (env : Runtime) (n : EmailNotification.t)
    (w : World) (port : Z) :
  Text.truthy_opt (getenv env "SMTP_HOST") = true ->
  Text.parse_int (getenv_default env "SMTP_PORT" "587") = Some port ->
  send_email env n w
  = match session_error env port n with
    | None => (inr true, w)
    | Some e =>
        (inr false,
         {| db := db w;
            stdout := List.app (stdout w) ["Email error: " ++ str_exn e] |})
    end.
Proof.
  intros Hh Hp.
  assert (send_email env n w
          = try_except
              (smtp_step (Smtp.connect (smtp env)
                            (Text.get (getenv env "SMTP_HOST")) port) ;;;
               with_exit
                 (smtp_step (Smtp.starttls (smtp env)) ;;;
                  (if Text.truthy_opt (getenv env "SMTP_USER") &&
                      Text.truthy_opt (getenv env "SMTP_PASS")
                   then smtp_step
                          (Smtp.login (smtp env)
                             (Text.get (getenv env "SMTP_USER"))
                             (Text.get (getenv env "SMTP_PASS")))
                   else ret tt) ;;;
                  smtp_step (Smtp.send_message (smtp env) (outgoing env n)))
                 (Smtp.quit (smtp env)) ;;;
               ret true)
              (fun e => print ("Email error: " ++ str_exn e) ;;; ret false) w)
    as ->.
  { unfold send_email, int_of_str. rewrite Hp, bind_ret, Hh. reflexivity. }
  rewrite try_except_silent by silent_body.
  unfold session_error, bind, with_exit. rewrite !smtp_step_run.
  destruct (Smtp.connect _ _ _) as [e |]; [reflexivity |].
  destruct (Smtp.starttls _) as [e |].
  { destruct (Smtp.quit _); reflexivity. }
  destruct (Text.truthy_opt (getenv env "SMTP_USER") &&
            Text.truthy_opt (getenv env "SMTP_PASS")).
  - rewrite smtp_step_run.
    destruct (Smtp.login _ _ _) as [e |].
    { destruct (Smtp.quit _); reflexivity. }
    destruct (Smtp.send_message _ _) as [e |];
      destruct (Smtp.quit _); reflexivity.
  - unfold ret at 1.
    destruct (Smtp.send_message _ _) as [e |];
      destruct (Smtp.quit _); try reflexivity.
    all: destruct w; reflexivity.
Qed.

(** The session ends with no exception exactly when each of its steps
    succeeds. *)
Lemma session_error_none (env : Runtime) (port : Z)
    (n : EmailNotification.t) :
  session_error env port n = None <-> session_succeeds env port n.
Proof.
  unfold session_error, session_succeeds.
  destruct (Smtp.connect _ _ _) as [e |].
  { split; [discriminate | intros (H & _); discriminate H]. }
  destruct (Smtp.quit _) as [e |].
  { split; [discriminate | intros (_ & _ & _ & _ & H); discriminate H]. }
  destruct (Smtp.starttls _) as [e |].
  { split; [discriminate | intros (_ & H & _); discriminate H]. }
  destruct (Text.truthy_opt (getenv env "SMTP_USER") &&
            Text.truthy_opt (getenv env "SMTP_PASS")).
  - destruct (Smtp.login _ _ _) as [e |].
    { split; [discriminate |].
      intros (_ & _ & H & _). discriminate (H eq_refl). }
    split; [intros H; repeat split; auto | intros (_ & _ & _ & H & _); exact H].
  - split; [intros H; repeat split; auto; discriminate
           | intros (_ & _ & _ & H & _); exact H].
Qed.

(** X11. With a host configured and a readable port, [send_email] returns True
    and leaves the world as it is when every step of the session succeeds:
    connecting, STARTTLS, logging in (only when both SMTP_USER and SMTP_PASS
    are set and not empty), sending the message and leaving the [with]
    block. Otherwise the session ends with an exception, the one of
    connecting, else the one of leaving the [with] block, else the one of
    the first failing step inside it, and [send_email] returns False after
    printing one line, "Email error: " followed by the text of that
    exception. *)
Theorem send_email_delivery (env : Runtime) (n : EmailNotification.t)
    (w : World) (port : Z) :
  Text.truthy_opt (getenv env "SMTP_HOST") = true ->
  Text.parse_int (getenv_default env "SMTP_PORT" "587") = Some port ->
  (session_succeeds env port n -> send_email env n w = (inr true, w)) /\
  (~ session_succeeds env port n ->
   exists e, session_error env port n = Some e) /\
  (forall e, session_error env port n = Some e ->
     send_email env n w
     = (inr false,
        {| db := db w;
           stdout := List.app (stdout w) ["Email error: " ++ str_exn e] |})).
Proof.
  intros Hh Hp. pose proof (send_email_session env n w port Hh Hp) as E.
  pose proof (session_error_none env port n) as I.
  split; [| split].
  - intros S. apply I in S. rewrite S in E. exact E.
  - intros F. destruct (session_error env port n) as [e |].
    + exists e. reflexivity.
    + exfalso. apply F, I. reflexivity.
  - intros e S. rewrite S in E. exact E.
Qed.

(** The message is delivered, QUIT fails: False is returned and the reply
    to QUIT is what is printed. *)
Lemma send_email_delivery_witness :
  send_email Sample2.env_bad_quit
    (EmailNotification.mk "ada@example.com" "Hello" "<p>Hi</p>" None)
    Sample.store
  = (inr false,
     {| db := db Sample.store;
        stdout := ["Email error: (421, b'timeout')"] |}).
Proof.
  destruct (send_email_delivery Sample2.env_bad_quit
              (EmailNotification.mk "ada@example.com" "Hello" "<p>Hi</p>" None)
              Sample.store 587 eq_refl eq_refl) as (_ & _ & F).
  exact (F (TransportError "(421, b'timeout')") eq_refl).
Defined.

(** Host, user and password configured, a server that accepts everything:
    True, and nothing printed. *)
Example send_email_delivers :
  send_email Sample2.env_mail_up
    (EmailNotification.mk "ada@example.com" "Hello" "<p>Hi</p>" None)
    Sample.store
  = (inr true, Sample.store).
Proof. reflexivity. Qed.

(** ** The notification, seen from the intake handlers *)

Section Notified.
Variable env : Runtime.

(** Past the insert, with a recipient the validator accepts, a direct
    booking is [send_email] followed by the response, whatever
    [send_email] returns. *)
Lemma create_reservation_notified (p : CreateReservationRequest.t)
    (w : World) (rt : RoomTypeDoc.t) (a : string) :
  referenced_room_type w (CreateReservationRequest.room_type_id p) = Some rt ->
  0 < PyDate.sub_days (CreateReservationRequest.check_out p)
        (CreateReservationRequest.check_in p) ->
  Reservation.new (direct_record env p rt) = inr (direct_record env p rt) ->
  validate_email env
    (notification_recipient env (CreateReservationRequest.guest p)) = Some a ->
  create_reservation env p w
  = (send_email env (validated a (direct_notification env p rt)) ;;;
     ret {| IntakeResponse.id := Bson.str (next_oid (db w));
            IntakeResponse.confirmation_code :=
              generate_confirmation_code env "RES" |})
      (inserted (direct_record env p rt) w).
Proof.
  intros R N V A. rewrite (create_reservation_run env p w rt R N V).
  unfold bind at 1, lift, EmailNotification.new.
  cbn [EmailNotification.to direct_notification]. rewrite A. reflexivity.
Qed.

Lemma create_reservation_unnotified (p : CreateReservationRequest.t)
    (w : World) (rt : RoomTypeDoc.t) :
  referenced_room_type w (CreateReservationRequest.room_type_id p) = Some rt ->
  0 < PyDate.sub_days (CreateReservationRequest.check_out p)
        (CreateReservationRequest.check_in p) ->
  Reservation.new (direct_record env p rt) = inr (direct_record env p rt) ->
  validate_email env
    (notification_recipient env (CreateReservationRequest.guest p)) = None ->
  create_reservation env p w
  = (inl (ValidationError "EmailNotification" ["to"]),
     inserted (direct_record env p rt) w).
Proof.
  intros R N V A. rewrite (create_reservation_run env p w rt R N V).
  unfold bind at 1, lift, EmailNotification.new.
  cbn [EmailNotification.to direct_notification]. rewrite A. reflexivity.
Qed.

Lemma ota_webhook_notified (p : OTAWebhookPayload.t) (w : World)
    (a : string) :
  0 < PyDate.sub_days (OTAWebhookPayload.check_out p)
        (OTAWebhookPayload.check_in p) ->
  Reservation.new (ota_record env p w) = inr (ota_record env p w) ->
  validate_email env
    (notification_recipient env (OTAWebhookPayload.guest p)) = Some a ->
  ota_webhook env p w
  = (send_email env (validated a (ota_notification env p w)) ;;;
     ret {| IntakeResponse.id := Bson.str (next_oid (db w));
            IntakeResponse.confirmation_code := ota_code env p |})
      (inserted (ota_record env p w) w).
Proof.
  intros N V A. rewrite (ota_webhook_run env p w N V).
  unfold bind at 1, lift, EmailNotification.new.
  cbn [EmailNotification.to ota_notification]. rewrite A. reflexivity.
Qed.

Lemma ota_webhook_unnotified (p : OTAWebhookPayload.t) (w : World) :
  0 < PyDate.sub_days (OTAWebhookPayload.check_out p)
        (OTAWebhookPayload.check_in p) ->
  Reservation.new (ota_record env p w) = inr (ota_record env p w) ->
  validate_email env
    (notification_recipient env (OTAWebhookPayload.guest p)) = None ->
  ota_webhook env p w
  = (inl (ValidationError "EmailNotification" ["to"]),
     inserted (ota_record env p w) w).
Proof.
  intros N V A. rewrite (ota_webhook_run env p w N V).
  unfold bind at 1, lift, EmailNotification.new.
  cbn [EmailNotification.to ota_notification]. rewrite A. reflexivity.
Qed.

End Notified.

(** ** The same payload, twice *)

(** X10. No overlap check and a confirmation code of one-second resolution:
    when a direct booking succeeds, submitting the same payload again under
    the same clock reading succeeds again. Two documents are persisted with
    the same fields, the same confirmation code and distinct identifiers;
    the two responses carry the same code and, the identifiers being 12
    bytes long, distinct ids. *)
Theorem same_booking_twice (env : Runtime) (p : CreateReservationRequest.t)
    (w : World) (r1 : IntakeResponse.t) :
  fst (create_reservation env p w) = inr r1 ->
  let first := create_reservation env p w in
  let second := create_reservation env p (snd first) in
  exists r2 d1 d2,
    fst second = inr r2 /\
    reservation (db (snd second))
    = List.app (reservation (db w)) [d1; d2] /\
    ReservationDoc._id d1 <> ReservationDoc._id d2 /\
    ReservationDoc.fields d1 = ReservationDoc.fields d2 /\
    IntakeResponse.confirmation_code r1 = IntakeResponse.confirmation_code r2 /\
    ((N.succ (next_oid (db w)) < 2 ^ 96)%N ->
     IntakeResponse.id r1 <> IntakeResponse.id r2).
Proof.
  intros S first second.
  assert (exists rt,
            referenced_room_type w (CreateReservationRequest.room_type_id p)
            = Some rt /\
            0 < PyDate.sub_days (CreateReservationRequest.check_out p)
                  (CreateReservationRequest.check_in p)) as (rt & R & N).
  { destruct (create_reservation env p w) as [o w1] eqn:E.
    simpl in S. subst o.
    destruct (create_reservation_returns_inv env p w w1 r1 E)
      as (rt & R & N & _).
    exists rt. auto. }
  destruct (Reservation.new (direct_record env p rt)) as [e | r] eqn:V.
  { rewrite (create_reservation_rejected env p w rt e R N V) in S.
    discriminate S. }
  destruct (Reservation_new_inr _ _ V) as (-> & _).
  assert (notification_ready env (CreateReservationRequest.guest p)) as Rd.
  { unfold notification_ready.
    destruct (validate_email env
                (notification_recipient env (CreateReservationRequest.guest p)))
      as [a |] eqn:A.
    2:{ rewrite (create_reservation_unnotified env p w rt R N V A) in S.
        discriminate S. }
    split; [discriminate |]. intros Hp.
    rewrite (create_reservation_notified env p w rt a R N V A) in S.
    unfold bind in S. rewrite (send_email_bad_port env _ _ Hp) in S.
    discriminate S. }
  destruct (create_reservation_accepted env p w rt R N V)
    as (P1 & U1 & _ & _).
  pose proof (U1 r1 S) as ->.
  destruct (create_reservation_effects env p w)
    as [E | (rt' & R' & D & _)].
  { exfalso. exact (persists_changes _ _ _ P1 (f_equal db E)). }
  rewrite R in R'. injection R' as <-.
  fold first in P1, D.
  assert (referenced_room_type (snd first)
            (CreateReservationRequest.room_type_id p) = Some rt) as R2.
  { rewrite (referenced_room_type_same_collection w (snd first)); [exact R |].
    rewrite D. reflexivity. }
  destruct (create_reservation_accepted env p (snd first) rt R2 N V)
    as (P2 & _ & S2 & _).
  fold second in P2, S2.
  assert (next_oid (db (snd first)) = N.succ (next_oid (db w))) as Nx
    by (rewrite D; reflexivity).
  eexists _, _, _.
  split; [exact (S2 Rd) |].
  split.
  { unfold persists in P1, P2. rewrite P2, P1, <- app_assoc. reflexivity. }
  split; [simpl; rewrite Nx; lia |].
  split; [reflexivity |]. split; [reflexivity |].
  intros Bd. simpl. rewrite Nx. intros E.
  apply str_oid_inj in E; lia.
Qed.

Lemma same_booking_twice_witness :
  let second :=
    create_reservation Sample.env Sample.booking
      (snd (create_reservation Sample.env Sample.booking Sample.store)) in
  exists r2 d1 d2,
    fst second = inr r2 /\
    reservation (db (snd second)) = [d1; d2] /\
    ReservationDoc._id d1 <> ReservationDoc._id d2 /\
    ReservationDoc.fields d1 = ReservationDoc.fields d2 /\
    IntakeResponse.confirmation_code r2 = "RES-20240305070809".
Proof.
  destruct (same_booking_twice Sample.env Sample.booking Sample.store
              {| IntakeResponse.id := "000000000000000000000004";
                 IntakeResponse.confirmation_code := "RES-20240305070809" |}
              eq_refl)
    as (r2 & d1 & d2 & S2 & E & I & F & C & _).
  exists r2, d1, d2.
  split; [exact S2 |]. split; [exact E |]. split; [exact I |].
  split; [exact F | symmetry; exact C].
Defined.

(** X12. With no SMTP host configured, a direct booking that passed the lookup,
    the date check and the schema returns its response and prints exactly
    one line: the notification, addressed to BOOKING_NOTIFICATION_EMAIL
    when that variable is set and to the guest's email otherwise (as the
    validator normalised it), with the subject "New Reservation " followed
    by the confirmation code, then the body. *)
Theorem direct_booking_logged_without_smtp (env : Runtime)
    (p : CreateReservationRequest.t) (w : World) (rt : RoomTypeDoc.t)
    (a : string) :
  referenced_room_type w (CreateReservationRequest.room_type_id p) = Some rt ->
  0 < PyDate.sub_days (CreateReservationRequest.check_out p)
        (CreateReservationRequest.check_in p) ->
  Reservation.new (direct_record env p rt) = inr (direct_record env p rt) ->
  validate_email env
    (match getenv env "BOOKING_NOTIFICATION_EMAIL" with
     | Some operator => operator
     | None => ReservationGuest.email (CreateReservationRequest.guest p)
     end) = Some a ->
  Text.truthy_opt (getenv env "SMTP_HOST") = false ->
  Text.parse_int (getenv_default env "SMTP_PORT" "587") <> None ->
  let code := "RES-" ++ PyDate.strftime_compact (utcnow env) in
  create_reservation env p w
  = (inr {| IntakeResponse.id := Bson.str (next_oid (db w));
            IntakeResponse.confirmation_code := code |},
     {| db := db (inserted (direct_record env p rt) w);
        stdout :=
          List.app (stdout w)
            ["[Email] To: " ++ a ++ " | Subject: New Reservation " ++ code ++
             nl ++
             direct_body env code (direct_record env p rt)
               (PyDate.sub_days (CreateReservationRequest.check_out p)
                  (CreateReservationRequest.check_in p))] |}).
Proof.
  intros R N V A Hh Hp code.
  rewrite (create_reservation_notified env p w rt a R N V A).
  unfold bind. rewrite (send_email_unconfigured env _ _ Hh Hp).
  reflexivity.
Qed.

Lemma direct_booking_logged_without_smtp_witness :
  exists line,
    stdout (snd (create_reservation Sample2.env_desk Sample.booking
                   Sample.store)) = [line] /\
    Text.startswith
      "[Email] To: desk@example.com | Subject: New Reservation RES-2024"
      line = true.
Proof.
  eexists. split.
  - rewrite (direct_booking_logged_without_smtp Sample2.env_desk
               Sample.booking Sample.store
               (RoomTypeDoc.mk 1%N "P" "R" None 2 (Some (PyFloat.of_int 100)))
               "desk@example.com" eq_refl ltac:(vm_compute; reflexivity)
               eq_refl eq_refl eq_refl ltac:(discriminate)).
    reflexivity.
  - reflexivity.
Defined.

(** X13. The same on the webhook channel, where the subject also names the
    channel: "OTA Reservation <code> (<channel>)". *)
Theorem ota_booking_logged_without_smtp (env : Runtime)
    (p : OTAWebhookPayload.t) (w : World) (a : string) :
  0 < PyDate.sub_days (OTAWebhookPayload.check_out p)
        (OTAWebhookPayload.check_in p) ->
  Reservation.new (ota_record env p w) = inr (ota_record env p w) ->
  validate_email env
    (match getenv env "BOOKING_NOTIFICATION_EMAIL" with
     | Some operator => operator
     | None => ReservationGuest.email (OTAWebhookPayload.guest p)
     end) = Some a ->
  Text.truthy_opt (getenv env "SMTP_HOST") = false ->
  Text.parse_int (getenv_default env "SMTP_PORT" "587") <> None ->
  ota_webhook env p w
  = (inr {| IntakeResponse.id := Bson.str (next_oid (db w));
            IntakeResponse.confirmation_code := ota_code env p |},
     {| db := db (inserted (ota_record env p w) w);
        stdout :=
          List.app (stdout w)
            ["[Email] To: " ++ a ++ " | Subject: " ++
             ("OTA Reservation " ++ ota_code env p ++ " (" ++
              OTAWebhookPayload.channel p ++ ")") ++
             nl ++
             ota_body env (OTAWebhookPayload.channel p) (ota_code env p)
               (ota_record env p w)
               (PyDate.sub_days (OTAWebhookPayload.check_out p)
                  (OTAWebhookPayload.check_in p))] |}).
Proof.
  intros N V A Hh Hp.
  rewrite (ota_webhook_notified env p w a N V A).
  unfold bind. rewrite (send_email_unconfigured env _ _ Hh Hp).
  reflexivity.
Qed.

Lemma ota_booking_logged_without_smtp_witness :
  exists line,
    stdout (snd (ota_webhook Sample.env Sample.push_450 Sample.store))
    = [line] /\
    Text.startswith
      "[Email] To: ada@example.com | Subject: OTA Reservation BK-77 (booking.com)"
      line = true.
Proof.
  eexists. split.
  - rewrite (ota_booking_logged_without_smtp Sample.env Sample.push_450
               Sample.store "ada@example.com" ltac:(vm_compute; reflexivity)
               eq_refl eq_refl eq_refl ltac:(discriminate)).
    reflexivity.
  - reflexivity.
Defined.

(** X14. A recipient the [EmailStr] validator refuses (BOOKING_NOTIFICATION_EMAIL
    set to something that is not an address) fails the request after the
    insert: on both channels the handler raises the ValidationError of
    EmailNotification, the reservation is persisted, and nothing is sent or
    printed. *)
Theorem bad_recipient_fails_after_insert (env : Runtime) (w : World) :
  (forall (p : CreateReservationRequest.t) (rt : RoomTypeDoc.t),
     referenced_room_type w (CreateReservationRequest.room_type_id p)
     = Some rt ->
     0 < PyDate.sub_days (CreateReservationRequest.check_out p)
           (CreateReservationRequest.check_in p) ->
     Reservation.new (direct_record env p rt) = inr (direct_record env p rt) ->
     validate_email env
       (notification_recipient env (CreateReservationRequest.guest p))
     = None ->
     create_reservation env p w
     = (inl (ValidationError "EmailNotification" ["to"]),
        {| db := db (inserted (direct_record env p rt) w);
           stdout := stdout w |})) /\
  (forall p : OTAWebhookPayload.t,
     0 < PyDate.sub_days (OTAWebhookPayload.check_out p)
           (OTAWebhookPayload.check_in p) ->
     Reservation.new (ota_record env p w) = inr (ota_record env p w) ->
     validate_email env
       (notification_recipient env (OTAWebhookPayload.guest p)) = None ->
     ota_webhook env p w
     = (inl (ValidationError "EmailNotification" ["to"]),
        {| db := db (inserted (ota_record env p w) w);
           stdout := stdout w |})).
Proof.
  split.
  - intros p rt R N V A.
    exact (create_reservation_unnotified env p w rt R N V A).
  - intros p N V A. exact (ota_webhook_unnotified env p w N V A).
Qed.

Lemma bad_recipient_fails_after_insert_witness :
  fst (create_reservation Sample2.env_bad_recipient Sample.booking
         Sample.store)
  = inl (ValidationError "EmailNotification" ["to"]) /\
  List.length
    (reservation
       (db (snd (create_reservation Sample2.env_bad_recipient Sample.booking
                   Sample.store)))) = 1%nat.
Proof.
  rewrite (proj1 (bad_recipient_fails_after_insert Sample2.env_bad_recipient
                    Sample.store)
             Sample.booking
             (RoomTypeDoc.mk 1%N "P" "R" None 2 (Some (PyFloat.of_int 100)))
             eq_refl ltac:(vm_compute; reflexivity) eq_refl eq_refl).
  split; reflexivity.
Defined.

(** X15. The intake handlers ignore what [send_email] returns: with a host
    configured, a readable port and a recipient the validator accepts, a
    session that ends with an exception still gives the response, on both
    channels; the reservation is persisted and one line is printed, "Email
    error: " followed by the text of that exception. *)
Theorem failed_delivery_still_answers (env : Runtime) (w : World)
    (port : Z) :
  Text.truthy_opt (getenv env "SMTP_HOST") = true ->
  Text.parse_int (getenv_default env "SMTP_PORT" "587") = Some port ->
  (forall (p : CreateReservationRequest.t) (rt : RoomTypeDoc.t) (a : string)
          (e : exn),
     referenced_room_type w (CreateReservationRequest.room_type_id p)
     = Some rt ->
     0 < PyDate.sub_days (CreateReservationRequest.check_out p)
           (CreateReservationRequest.check_in p) ->
     Reservation.new (direct_record env p rt) = inr (direct_record env p rt) ->
     validate_email env
       (notification_recipient env (CreateReservationRequest.guest p))
     = Some a ->
     session_error env port (validated a (direct_notification env p rt))
     = Some e ->
     create_reservation env p w
     = (inr {| IntakeResponse.id := Bson.str (next_oid (db w));
               IntakeResponse.confirmation_code :=
                 generate_confirmation_code env "RES" |},
        {| db := db (inserted (direct_record env p rt) w);
           stdout := List.app (stdout w) ["Email error: " ++ str_exn e] |}))
  /\
  (forall (p : OTAWebhookPayload.t) (a : string) (e : exn),
     0 < PyDate.sub_days (OTAWebhookPayload.check_out p)
           (OTAWebhookPayload.check_in p) ->
     Reservation.new (ota_record env p w) = inr (ota_record env p w) ->
     validate_email env
       (notification_recipient env (OTAWebhookPayload.guest p)) = Some a ->
     session_error env port (validated a (ota_notification env p w))
     = Some e ->
     ota_webhook env p w
     = (inr {| IntakeResponse.id := Bson.str (next_oid (db w));
               IntakeResponse.confirmation_code := ota_code env p |},
        {| db := db (inserted (ota_record env p w) w);
           stdout := List.app (stdout w) ["Email error: " ++ str_exn e] |})).
Proof.
  intros Hh Hp. split.
  - intros p rt a e R N V A F.
    rewrite (create_reservation_notified env p w rt a R N V A).
    unfold bind. rewrite (send_email_session env _ _ port Hh Hp), F.
    reflexivity.
  - intros p a e N V A F.
    rewrite (ota_webhook_notified env p w a N V A).
    unfold bind. rewrite (send_email_session env _ _ port Hh Hp), F.
    reflexivity.
Qed.

(** The server refuses the connection: the booking is answered and stored,
    and the refusal is printed. *)
Lemma failed_delivery_still_answers_witness :
  let out :=
    create_reservation Sample.env_mail_down Sample.booking Sample.store in
  fst out
  = inr {| IntakeResponse.id := "000000000000000000000004";
           IntakeResponse.confirmation_code := "RES-20240305070809" |} /\
  List.length (reservation (db (snd out))) = 1%nat /\
  stdout (snd out) = ["Email error: connection refused"].
Proof.
  cbv zeta.
  rewrite (proj1 (failed_delivery_still_answers Sample.env_mail_down
                    Sample.store 587 eq_refl eq_refl)
             Sample.booking
             (RoomTypeDoc.mk 1%N "P" "R" None 2 (Some (PyFloat.of_int 100)))
             "ada@example.com" (TransportError "connection refused")
             eq_refl ltac:(vm_compute; reflexivity) eq_refl eq_refl eq_refl).
  repeat split.
Defined.

(** ** Listing room types *)

(** X16. [list_room_types] filters on property_id only when one is given and is
    not empty: without a property_id, or with the empty string, it returns
    every stored room type; with a non-empty one it returns the stored room
    types of that property, in store order, which are the documents
    [search_availability] builds its items from. The world is left as it
    is. *)
Theorem list_room_types_filter (w : World) :
  list_room_types None w = (inr (roomtype (db w)), w) /\
  list_room_types (Some EmptyString) w = (inr (roomtype (db w)), w) /\
  (forall c s check_in check_out guests,
     let pid := String c s in
     let docs :=
       filter (fun d => String.eqb (RoomTypeDoc.property_id d) pid)
         (roomtype (db w)) in
     list_room_types (Some pid) w = (inr docs, w) /\
     (forall d, In d docs <->
        In d (roomtype (db w)) /\ RoomTypeDoc.property_id d = pid) /\
     search_availability
       (AvailabilitySearch.mk pid check_in check_out guests) w
     = (inr {| AvailabilityResult.items := map availability_item docs |}, w)).
Proof.
  split; [reflexivity | split; [reflexivity |]].
  intros c s ci co g pid docs. split; [reflexivity | split].
  - intros d. subst docs. rewrite filter_In, String.eqb_eq. reflexivity.
  - unfold search_availability, bind, get_documents_roomtype, ret.
    rewrite fold_left_append_map. reflexivity.
Qed.

(** ** The diagnostic endpoint *)

Lemma take_length (n : nat) (s : string) :
  (String.length (Diagnostics.take n s) <= n)%nat.
Proof.
  unfold Diagnostics.take. revert s.
  induction n as [| n IH]; intros [| c s]; simpl; try lia.
  specialize (IH s). lia.
Qed.

Lemma take_prefix (n : nat) (s : string) :
  String.prefix (Diagnostics.take n s) s = true.
Proof.
  unfold Diagnostics.take. revert s.
  induction n as [| n IH]; intros [| c s]; simpl; try reflexivity.
  rewrite IH. destruct (Ascii.ascii_dec c c); [reflexivity | contradiction].
Qed.

(** X17. What [test_database] reports. The [database_url] and [database_name]
    fields only say whether DATABASE_URL and DATABASE_NAME are set and not
    empty: what the handler wrote there from the handle, its name included,
    is overwritten before it returns. [connection_status] is "Connected"
    exactly when there is a handle; [collections] holds the first ten
    collection names, and none when there is no handle or listing them
    raised; in that last case [database] carries at most the first fifty
    characters of the exception's message. *)
Theorem test_database_report (env : Runtime)
    (db : option Diagnostics.handle) :
  let r := Diagnostics.test_database env db in
  Diagnostics.database_url r
  = Some (if Text.truthy_opt (getenv env "DATABASE_URL")
          then "✅ Set" else "❌ Not Set") /\
  Diagnostics.database_name r
  = Some (if Text.truthy_opt (getenv env "DATABASE_NAME")
          then "✅ Set" else "❌ Not Set") /\
  (Diagnostics.connection_status r = "Connected" <-> db <> None) /\
  (exists names,
     match db with
     | Some d =>
         match Diagnostics.list_collection_names d with
         | inr l => names = l
         | inl _ => names = []
         end
     | None => names = []
     end /\
     Diagnostics.collections r = firstn 10 names /\
     (List.length (Diagnostics.collections r) <= 10)%nat) /\
  (forall d e,
     db = Some d -> Diagnostics.list_collection_names d = inl e ->
     exists msg,
       Diagnostics.database r = "⚠️  Connected but Error: " ++ msg /\
       String.prefix msg (str_exn e) = true /\
       (String.length msg <= 50)%nat).
Proof.
  cbv zeta. split; [reflexivity | split; [reflexivity |]].
  split; [| split].
  - destruct db as [d |]; simpl.
    + destruct (Diagnostics.list_collection_names d);
        split; intros; [discriminate | reflexivity | discriminate
                       | reflexivity].
    + split; [discriminate | intros H; contradiction].
  - unfold Diagnostics.test_database. destruct db as [d |].
    + destruct (Diagnostics.list_collection_names d) as [e | l].
      * exists []. split; [reflexivity | split; [reflexivity |]].
        exact (Nat.le_0_l 10).
      * exists l. split; [reflexivity | split; [reflexivity |]].
        exact (firstn_le_length 10 l).
    + exists []. split; [reflexivity | split; [reflexivity |]].
      exact (Nat.le_0_l 10).
  - intros d e -> L. simpl. rewrite L.
    exists (Diagnostics.take 50 (str_exn e)).
    split; [reflexivity | split; [apply take_prefix | apply take_length]].
Qed.

(** Twelve collections, ten listed; the handle's name is not reported. *)
Lemma test_database_report_witness :
  exists msg,
    Diagnostics.database
      (Diagnostics.test_database Sample.env
         (Some (Diagnostics.mkHandle None
                  (inl (TransportError "No servers found yet")))))
    = "⚠️  Connected but Error: " ++ msg /\
    String.prefix msg "No servers found yet" = true.
Proof.
  destruct (test_database_report Sample.env
              (Some (Diagnostics.mkHandle None
                       (inl (TransportError "No servers found yet")))))
    as (_ & _ & _ & _ & E).
  destruct (E _ _ eq_refl eq_refl) as (msg & D & P & _).
  exists msg. split; [exact D | exact P].
Defined.

Example test_database_ten_collections :
  let r := Diagnostics.test_database Sample.env (Some Sample2.handle_twelve) in
  List.length (Diagnostics.collections r) = 10%nat /\
  Diagnostics.database_name r = Some "❌ Not Set".
Proof. split; reflexivity. Qed.

(** ** Confirmation codes *)

Lemma append_inj_length (s1 s2 t1 t2 : string) :
  String.length s1 = String.length s2 ->
  s1 ++ t1 = s2 ++ t2 -> s1 = s2 /\ t1 = t2.
Proof.
  revert s2. induction s1 as [| c s1 IH]; intros [| c2 s2] L E;
    simpl in *; try discriminate L.
  - auto.
  - injection E as -> E. injection L as L.
    destruct (IH s2 L E) as (-> & ->). auto.
Qed.

Lemma append_inj_left (p x y : string) : p ++ x = p ++ y -> x = y.
Proof. intros E. apply (append_inj_length p p x y eq_refl E). Qed.

Lemma digit_inj (a b : Z) :
  Text.digit a = Text.digit b -> a mod 10 = b mod 10.
Proof.
  unfold Text.digit. intros E.
  assert (0 <= a mod 10 < 10) as Ba by (apply Z.mod_pos_bound; lia).
  assert (0 <= b mod 10 < 10) as Bb by (apply Z.mod_pos_bound; lia).
  apply (f_equal nat_of_ascii) in E.
  rewrite !nat_ascii_embedding in E by lia. lia.
Qed.

Lemma zfill_inj (k : nat) (a b : Z) :
  0 <= a < 10 ^ Z.of_nat k -> 0 <= b < 10 ^ Z.of_nat k ->
  Text.zfill k a = Text.zfill k b -> a = b.
Proof.
  revert a b. induction k as [| k IH]; intros a b Ba Bb E.
  - simpl in Ba, Bb. lia.
  - rewrite Nat2Z.inj_succ, Z.pow_succ_r in Ba, Bb by lia.
    cbn [Text.zfill] in E.
    apply append_inj_length in E; [| rewrite !zfill_length; reflexivity].
    destruct E as (E1 & E2). injection E2 as E2.
    apply digit_inj in E2.
    assert (a / 10 = b / 10) as Q.
    { apply IH; [| | exact E1].
      - split; [apply Z.div_pos; lia | apply Z.div_lt_upper_bound; lia].
      - split; [apply Z.div_pos; lia | apply Z.div_lt_upper_bound; lia]. }
    rewrite (Z.div_mod a 10), (Z.div_mod b 10) by lia. congruence.
Qed.

Lemma days_in_month_le_31 (y m : Z) :
  1 <= m <= 12 -> PyDate.days_in_month y m <= 31.
Proof.
  intros Hm.
  assert (m = 1 \/ m = 2 \/ m = 3 \/ m = 4 \/ m = 5 \/ m = 6 \/ m = 7 \/
          m = 8 \/ m = 9 \/ m = 10 \/ m = 11 \/ m = 12) as C by lia.
  decompose [or] C; subst m; cbv [PyDate.days_in_month];
    try destruct (PyDate.is_leap y); lia.
Qed.

Lemma strftime_compact_inj (t1 t2 : datetime) :
  datetime_ok t1 -> datetime_ok t2 ->
  PyDate.strftime_compact t1 = PyDate.strftime_compact t2 -> t1 = t2.
Proof.
  intros (_ & (Y1 & M1 & D1) & H1 & Mi1 & S1)
    (_ & (Y2 & M2 & D2) & H2 & Mi2 & S2) E.
  pose proof (days_in_month_le_31 (PyDate.year (PyDate.dt_date t1))
                (PyDate.month (PyDate.dt_date t1)) M1).
  pose proof (days_in_month_le_31 (PyDate.year (PyDate.dt_date t2))
                (PyDate.month (PyDate.dt_date t2)) M2).
  unfold PyDate.strftime_compact in E.
  repeat (apply append_inj_length in E;
          [| rewrite !zfill_length; reflexivity];
          let E1 := fresh "F" in destruct E as (E1 & E)).
  apply zfill_inj in F, F0, F1, F2, F3, E;
    try (change (10 ^ Z.of_nat 4) with 10000);
    try (change (10 ^ Z.of_nat 2) with 100); try lia.
  destruct t1 as [[y1 m1 d1] h1 mi1 s1], t2 as [[y2 m2 d2] h2 mi2 s2].
  simpl in *. congruence.
Qed.

(** X18. At the resolution of one second, the confirmation code tells the
    clock reading: two codes generated with the same prefix are equal
    exactly when the two readings of the UTC clock are the same second. So
    codes collide within one second, and only then. *)
Theorem confirmation_code_tells_the_second (env1 env2 : Runtime)
    (prefix : string) :
  datetime_ok (utcnow env1) -> datetime_ok (utcnow env2) ->
  (generate_confirmation_code env1 prefix
   = generate_confirmation_code env2 prefix
   <-> utcnow env1 = utcnow env2).
Proof.
  intros O1 O2. unfold generate_confirmation_code. split.
  - intros E. apply append_inj_left in E.
    apply (append_inj_left "-") in E.
    exact (strftime_compact_inj _ _ O1 O2 E).
  - intros ->. reflexivity.
Qed.

(** Two clocks one second apart: the codes differ. *)
Lemma confirmation_code_tells_the_second_witness :
  datetime_ok (utcnow Sample.env) /\ datetime_ok (utcnow Sample2.env_later) /\
  generate_confirmation_code Sample.env "RES"
  <> generate_confirmation_code Sample2.env_later "RES".
Proof.
  assert (datetime_ok (utcnow Sample.env)) as O1
    by (unfold datetime_ok, PyDate.date_ok; simpl; lia).
  assert (datetime_ok (utcnow Sample2.env_later)) as O2
    by (unfold datetime_ok, PyDate.date_ok; simpl; lia).
  split; [exact O1 | split; [exact O2 |]].
  intros E.
  apply (proj1 (confirmation_code_tells_the_second Sample.env
                  Sample2.env_later "RES" O1 O2)) in E.
  discriminate E.
Defined.

(** ** Identifiers stay fresh *)

Lemma fresh_ids_inserted (r : Reservation.t) (w w' : World) :
  fresh_ids w -> db w' = db (inserted r w) -> fresh_ids w'.
Proof.
  intros [Frt Frs] E. unfold fresh_ids. rewrite E. cbn. split.
  - intros d H. specialize (Frt d H). lia.
  - intros d H. apply in_app_or in H. destruct H as [H | [<- | []]].
    + specialize (Frs d H). lia.
    + cbn. lia.
Qed.

(** X19. The three handlers that write keep every stored identifier below the
    store's counter, so an identifier is never given out twice. *)
Theorem store_identifiers_stay_fresh (env : Runtime) (w : World) :
  fresh_ids w ->
  (forall payload, fresh_ids (snd (create_room_type payload w))) /\
  (forall p, fresh_ids (snd (create_reservation env p w))) /\
  (forall p, fresh_ids (snd (ota_webhook env p w))).
Proof.
  intros F. split; [| split].
  - intros payload. destruct F as [Frt Frs]. unfold fresh_ids. cbn. split.
    + intros d H. apply in_app_or in H. destruct H as [H | [<- | []]].
      * specialize (Frt d H). lia.
      * cbn. lia.
    + intros d H. specialize (Frs d H). lia.
  - intros p. destruct (create_reservation_effects env p w)
      as [-> | (rt & _ & D & _)]; [exact F |].
    exact (fresh_ids_inserted _ _ _ F D).
  - intros p. destruct (ota_webhook_effects env p w) as [-> | (D & _)];
      [exact F |].
    exact (fresh_ids_inserted _ _ _ F D).
Qed.

Lemma store_identifiers_stay_fresh_witness :
  fresh_ids (snd (create_reservation Sample.env Sample.booking Sample.store)).
Proof.
  assert (fresh_ids Sample.store) as F.
  { split; intros d H; simpl in H;
      repeat (destruct H as [<- | H]; [reflexivity |]); contradiction. }
  exact (proj1 (proj2 (store_identifiers_stay_fresh Sample.env Sample.store F))
           Sample.booking).
Defined.

(** ** [send_email], without a host and when it raises *)

(** X20. With no SMTP host configured, that is SMTP_HOST unset or empty, and a
    readable port, [send_email] contacts no server: whatever the transport
    would do, it prints the message, "[Email] To: ... | Subject: ..." and
    the body on the next line, and returns True. *)
Theorem send_email_without_host (env : Runtime) (n : EmailNotification.t)
    (w : World) :
  getenv env "SMTP_HOST" = None \/ getenv env "SMTP_HOST" = Some EmptyString ->
  Text.parse_int (getenv_default env "SMTP_PORT" "587") <> None ->
  send_email env n w
  = (inr true,
     {| db := db w;
        stdout :=
          List.app (stdout w)
            ["[Email] To: " ++ EmailNotification.to n ++ " | Subject: " ++
             EmailNotification.subject n ++ nl ++ EmailNotification.body n]
     |}).
Proof.
  intros Hh Hp. apply send_email_unconfigured; [| exact Hp].
  destruct Hh as [-> | ->]; reflexivity.
Qed.

Lemma send_email_without_host_witness :
  fst (send_email Sample.env
         (EmailNotification.mk "ada@example.com" "Hello" "<p>Hi</p>" None)
         Sample.store) = inr true.
Proof.
  rewrite (send_email_without_host Sample.env
             (EmailNotification.mk "ada@example.com" "Hello" "<p>Hi</p>" None)
             Sample.store (or_introl eq_refl) ltac:(discriminate)).
  reflexivity.
Defined.

(** X21. [send_email] raises exactly when SMTP_PORT is set to something
    [int] cannot read, host configured or not; the exception is then the
    ValueError of [int], the world is as it was, and no line is printed.
    With SMTP_PORT unset it never raises. In every case the store is left
    alone. *)
Theorem send_email_raises_iff (env : Runtime) (n : EmailNotification.t)
    (w : World) :
  let port := getenv_default env "SMTP_PORT" "587" in
  (forall e,
     fst (send_email env n w) = inl e <->
     Text.parse_int port = None /\ e = ValueError (Text.int_error port)) /\
  (Text.parse_int port = None -> snd (send_email env n w) = w) /\
  (getenv env "SMTP_PORT" = None ->
   exists b, fst (send_email env n w) = inr b) /\
  db (snd (send_email env n w)) = db w.
Proof.
  cbv zeta. split; [| split; [| split]].
  - intros e.
    destruct (Text.parse_int (getenv_default env "SMTP_PORT" "587"))
      as [port |] eqn:P.
    + destruct (send_email_run env n w port P) as (b & out & ->).
      split; [discriminate | intros (H & _); discriminate H].
    + rewrite (send_email_bad_port env n w P). simpl. split.
      * intros H. injection H as <-. auto.
      * intros (_ & ->). reflexivity.
  - intros P. rewrite (send_email_bad_port env n w P). reflexivity.
  - intros U.
    destruct (send_email_run env n w 587) as (b & out & ->).
    + unfold getenv_default. unfold getenv in U. rewrite U. reflexivity.
    + exists b. reflexivity.
  - apply send_email_db.
Qed.

(** SMTP_PORT=abc, and SMTP_PORT=5'8, whose apostrophe makes the
    interpreter show the literal in double quotes. *)
Lemma send_email_raises_iff_witness :
  let n := EmailNotification.mk "ada@example.com" "Hello" "<p>Hi</p>" None in
  send_email Sample.env_bad_port n Sample.store
  = (inl (ValueError "invalid literal for int() with base 10: 'abc'"),
     Sample.store) /\
  fst (send_email Sample2.env_quoted_port n Sample.store)
  = inl (ValueError
           ("invalid literal for int() with base 10: " ++
            String Text.double_quote ("5'8" ++
            String Text.double_quote EmptyString))).
Proof.
  cbv zeta. split.
  - apply injective_projections.
    + apply (proj1 (send_email_raises_iff Sample.env_bad_port _ Sample.store)).
      split; reflexivity.
    + apply (proj1 (proj2 (send_email_raises_iff Sample.env_bad_port _
                             Sample.store))).
      reflexivity.
  - apply (proj1 (send_email_raises_iff Sample2.env_quoted_port _
                    Sample.store)).
    split; reflexivity.
Defined.

(** What [int] reads and what it refuses, on port-like literals: blanks
    around the digits, a sign and single underscores are accepted; a
    separator of the range 28 to 31 is not a blank, the no-break space is
    one. *)
Example int_of_port_literals :
  Text.parse_int "587" = Some 587 /\
  Text.parse_int " 587 " = Some 587 /\
  Text.parse_int "+5_87" = Some 587 /\
  Text.parse_int "-1" = Some (-1) /\
  Text.parse_int Sample2.port_after_no_break_space = Some 587 /\
  Text.parse_int Sample2.port_after_separator = None /\
  Text.parse_int "abc" = None /\
  Text.parse_int EmptyString = None /\
  Text.parse_int "58 7" = None /\
  Text.parse_int "5__87" = None /\
  Text.parse_int "587_" = None /\
  Text.parse_int "0x24b" = None /\
  Text.parse_int "587.0" = None.
Proof. repeat split. Qed.
